(** * cortex/_lib/models.py: plugin registry and per-step scheduler

    A shallow embedding of the plugin registration functions
    ([check_plugin], [register_build], [register_routine],
    [register_model]), of model discovery ([find_models],
    [ModelPluginBase.check]) and of the step scheduler
    ([ModelPluginBase.run_procedure]) together with the routine base class
    ([RoutinePluginBase.perform], [__call__], [reset]); then of the rest
    of the module ([setup_model], [reload_models], [_add_routine],
    [_add_build], [import_directory], [ModelPluginBase.reset]) and of
    main.py ([main], [reload_model]).

    Python objects are mutated in place and an exception leaves every
    mutation made so far visible.  The embedding therefore runs in a monad
    that threads the state through both normal and exceptional exits.
    Calls that leave the module (the data source, the optimizers, the
    routines' own code, [print]) are recorded as a trace of events.

    The first part holds the definitions, the second the properties. *)

From Stdlib Require Import List String ZArith Lia Bool RelationClasses.
Import ListNotations.
Local Open Scope string_scope.
Local Open Scope list_scope.

Set Implicit Arguments.

(* ------------------------------------------------------------------ *)
(** ** Ordered dictionaries *)

(** Python dictionaries keep insertion order, and that order is observable
    here (iteration in [find_models], [tuple(inputs.keys())] in an error
    message, which output key collides first).  They are association lists
    in which a key is written in place when present and appended when
    absent. *)

Class EqDec (K : Type) := eq_dec : forall a b : K, {a = b} + {a <> b}.

#[global] Instance string_EqDec : EqDec string := string_dec.

#[global] Instance option_EqDec {K} `{EqDec K} : EqDec (option K).
Proof.
  intros [a|] [b|]; try (right; discriminate); try (left; reflexivity).
  destruct (eq_dec a b) as [->|n]; [left; reflexivity | right; congruence].
Defined.

Definition dict (K V : Type) := list (K * V).

Section Dict.
Context {K V : Type} `{EqDec K}.

Fixpoint dict_get (k : K) (d : dict K V) : option V :=
  match d with
  | [] => None
  | (k', v) :: d' => if eq_dec k k' then Some v else dict_get k d'
  end.

Definition dict_mem (k : K) (d : dict K V) : bool :=
  match dict_get k d with Some _ => true | None => false end.

Fixpoint dict_set (k : K) (v : V) (d : dict K V) : dict K V :=
  match d with
  | [] => [(k, v)]
  | (k', v') :: d' =>
      if eq_dec k k' then (k', v) :: d' else (k', v') :: dict_set k v d'
  end.

Fixpoint dict_pop (k : K) (d : dict K V) : dict K V :=
  match d with
  | [] => []
  | (k', v') :: d' => if eq_dec k k' then d' else (k', v') :: dict_pop k d'
  end.

Definition keys (d : dict K V) : list K := map fst d.
Definition values (d : dict K V) : list V := map snd d.
End Dict.

(* ------------------------------------------------------------------ *)
(** ** Values *)

(** Plain Python values: attribute values, keyword-argument values and
    default values of declared parameters. *)
#[warnings="-register-all"]
Inductive PyVal : Type :=
| PyNone
| PyInt (z : Z)
| PyStr (s : string)
| PyMap (m : list (string * PyVal)).

(** A scalar as a result or a loss holds it: a finite number or one of the
    anomalous values. *)
Inductive Scalar : Type :=
| Finite (z : Z)
| NaN
| PosInf
| NegInf.

(** A torch tensor, as far as the scheduler looks at it: its content and
    the gradient-tracking flag.  [detach] gives the snapshot that no longer
    tracks gradients, [item] the content as a plain scalar. *)
Record Tensor : Type := mkTensor {
  payload : Scalar;
  requires_grad : bool
}.

Definition detach (t : Tensor) : Tensor := mkTensor (payload t) false.
Definition item (t : Tensor) : Scalar := payload t.

(** What [routine._names.get(k, k)] yields: one ValuePool key or an ordered
    list of keys. *)
Inductive Send : Type :=
| SendKey (k : string)
| SendList (ks : list string).

(** What is bound in [routine.inputs]: [None], one value, or a list. *)
Inductive Wired : Type :=
| WNone
| WValue (t : Tensor)
| WList (ts : list Tensor).

(** The value a call of a routine returns. *)
Inductive Returned : Type :=
| RetNone
| RetDict (m : dict string Tensor).

(* ------------------------------------------------------------------ *)
(** ** Exceptions *)

(** One constructor per [raise] site of the source (with the arguments of
    its message, in the order the source formats them) and per
    interpreter-raised exception the modelled paths can reach. *)
Inductive Exc : Type :=
| KeyError_already_registered (fmt0 : string) (fmt1 : option string)
| AttributeError_protected (k : string)
| AttributeError_required (k : string)
| AttributeError (attr : string)
| KeyError (k : string)
| IndexError
| KeyError_not_found (send : Send) (available : list string)
| KeyError_already_in (k_ : string)
| TypeError_unexpected_keyword (k : string)
| TypeError_not_a_mapping
| TypeError_unhashable
| ValueError_no_run
| ValueError
| ValueError_set_plugin_name
| KeyError_plugin (k : option string)
| UnboundLocalError (var : string)
| SystemExit (code : Z)
| PluginError (tag : string).

Inductive Outcome (A : Type) : Type :=
| Ok (a : A)
| Raise (e : Exc).
Arguments Ok {A} a.
Arguments Raise {A} e.

(* ------------------------------------------------------------------ *)
(** ** State-and-exception monad *)

Definition M (S A : Type) : Type := S -> Outcome A * S.

Definition ret {S A} (a : A) : M S A := fun s => (Ok a, s).

Definition bind {S A B} (m : M S A) (f : A -> M S B) : M S B :=
  fun s =>
    match m s with
    | (Ok a, s') => f a s'
    | (Raise e, s') => (Raise e, s')
    end.

Definition raise {S A} (e : Exc) : M S A := fun s => (Raise e, s).
Definition gets {S A} (f : S -> A) : M S A := fun s => (Ok (f s), s).
Definition modify {S} (f : S -> S) : M S unit := fun s => (Ok tt, f s).
Definition lift {S A} (o : Outcome A) : M S A := fun s => (o, s).

Definition when {S} (b : bool) (m : M S unit) : M S unit :=
  if b then m else ret tt.

(** [try: m except <filter>: h e] *)
Definition try_except {S A} (m : M S A) (catches : Exc -> bool)
    (h : Exc -> M S A) : M S A :=
  fun s =>
    match m s with
    | (Ok a, s') => (Ok a, s')
    | (Raise e, s') => if catches e then h e s' else (Raise e, s')
    end.

Declare Scope monad_scope.
Delimit Scope monad_scope with monad.
Notation "x <- c1 ;; c2" := (bind c1 (fun x => c2))
  (at level 61, c1 at next level, right associativity) : monad_scope.
Notation "c1 ;; c2" := (bind c1 (fun _ => c2))
  (at level 61, right associativity) : monad_scope.
Local Open Scope monad_scope.

(** [for x in l: f x] *)
Fixpoint for_each {S A} (l : list A) (f : A -> M S unit) : M S unit :=
  match l with
  | [] => ret tt
  | x :: l' => f x ;; for_each l' f
  end.

(** [range(n)] on Python integers: empty when [n <= 0]. *)
Definition range (n : Z) : list Z := map Z.of_nat (seq 0 (Z.to_nat n)).

(* ------------------------------------------------------------------ *)
(** ** Objects *)

(** A plugin as [check_plugin] looks at it: its [plugin_name] ([None] or a
    string), the two lists [_protected] and [_required], and every other
    attribute visible on it, by name. *)
Record Plugin : Type := mkPlugin {
  plugin_name : option string;
  _protected : list string;
  _required : list string;
  attrs : dict string PyVal
}.

Definition name_value (n : option string) : PyVal :=
  match n with Some s => PyStr s | None => PyNone end.

(** [hasattr(plugin, k)] *)
Definition hasattr (p : Plugin) (k : string) : bool :=
  if string_dec k "plugin_name" then true else dict_mem k (attrs p).

(** [getattr(plugin, k, None)] *)
Definition getattr (p : Plugin) (k : string) : PyVal :=
  if string_dec k "plugin_name" then name_value (plugin_name p)
  else match dict_get k (attrs p) with Some v => v | None => PyNone end.

(** [setattr(plugin, k, v)] *)
Definition setattr (p : Plugin) (k : string) (v : PyVal) : Plugin :=
  if string_dec k "plugin_name" then
    match v with
    | PyStr s => mkPlugin (Some s) (_protected p) (_required p) (attrs p)
    | PyNone => mkPlugin None (_protected p) (_required p) (attrs p)
    | _ => p
    end
  else mkPlugin (plugin_name p) (_protected p) (_required p)
                (dict_set k v (attrs p)).

(** What a routine's code does when it runs, as the scheduler can observe
    it: it fills [self.results] and [self.losses], may change private state
    of the instance, and returns a value; or it raises (the tag on the
    left).  It is given its keyword arguments, the wired [self.inputs] and
    that private state.  It does not reach into the scheduler: the
    ValuePool, [training_nets] and the other routines are out of its
    hands. *)
Record Effect : Type := mkEffect {
  eff_results : dict string Scalar;
  eff_losses : dict string (option Tensor);
  eff_memory : Z;
  eff_return : Returned
}.

Definition Callable : Type :=
  dict string PyVal -> dict string Wired -> Z -> string + Effect.

(** A routine instance, with the attributes [run_procedure] reads and
    writes.  [RoutinePluginBase] itself declares only some of them; the
    others ([plugin_inputs], [_names], [inputs], [training_nets]) come from
    the plugin class.  [run] is [None] when the instance has no [run]
    attribute.  A call [routine(...)] goes to the [__call__] of the
    instance's class: [call_override] is that method when the class
    defines its own, and [None] means the call resolves to
    [RoutinePluginBase.__call__]. *)
Record Routine : Type := mkRoutine {
  plugin_kwargs : dict string PyVal;
  plugin_nets : list string;
  plugin_vars : list string;
  plugin_inputs : list string;
  plugin_optional_inputs : list string;
  _aliases : dict string string;
  _names : dict string Send;
  training_nets : list string;
  inputs : dict string Wired;
  results : dict string Scalar;
  losses : dict string (option Tensor);
  memory : Z;
  run : option Callable;
  call_override : option Callable
}.

(** A build instance: its declared parameters, the names of its networks
    and its aliases, which come from the plugin class and from
    [__init__]. *)
Record Build : Type := mkBuild {
  build_plugin_kwargs : dict string PyVal;
  build_plugin_nets : list string;
  build_aliases : dict string string
}.

(** What a composition's [_routines] and [_builds] handlers may hold:
    [isinstance(o, RoutinePluginBase)], [isinstance(o, BuildPluginBase)],
    or neither. *)
Inductive PyObject : Type :=
| RoutineInst (r : Routine)
| BuildInst (b : Build)
| Foreign (v : PyVal).

Record Net : Type := mkNet { params_require_grad : bool }.

(** [ResultsHandler(time=dict(), losses=dict())]: the general histories and
    the two nested ones.  An elapsed time is real time and carries no
    content here. *)
Record ResultsHandler : Type := mkResults {
  res_general : dict string (list Scalar);
  res_losses : dict string (list Scalar);
  res_time : dict string (list unit)
}.

(** One entry of [_train_procedures]: [(mode, procedure, updates)]. *)
Definition Procedure : Type := (string * list string * list Z)%type.

Record ModelPluginBase : Type := mkModel {
  descriptor : Plugin;
  _builds : dict string PyObject;
  _routines : dict string PyObject;
  _kwargs : dict string PyVal;
  _nets : dict string Net;
  _train_procedures : list Procedure;
  _results : ResultsHandler;
  _losses : dict string (option Tensor)
}.

(* ------------------------------------------------------------------ *)
(** ** Attaching a stage to a composition *)

(** The alias tables of the four views [_add_routine] gives a routine:
    [routine.nets], [routine.vars], [routine.kwargs] and [routine.help].
    [_add_build] gives a build all but the second. *)
Record Views : Type := mkViews {
  nets_aliases : dict string string;
  vars_aliases : dict string string;
  kwargs_aliases : dict string string;
  help_aliases : dict string string
}.

(** The views as lines 219-222 create them. *)
Definition fresh_views : Views := mkViews [] [] [] [].

(** Modelled from the spec: [set_alias] of [AliasHandler] (handlers.py) is
    not among the sources.  It records that the local name [k] stands for
    the name [v] of the composition's table. *)
Definition set_alias (k v : string) (t : dict string string) : dict string string :=
  dict_set k v t.

(** [KeyError(k, v)], lines 233 and 247. *)
Inductive AliasExc : Type :=
| KeyError_alias (k v : string).

(** The loop of [_add_routine], lines 224-233, over the aliases still to
    visit: the exception, if any, and the views as the loop leaves them. *)
Fixpoint route_routine_aliases (plugin_nets plugin_vars : list string)
    (plugin_kwargs : dict string PyVal) (aliases : dict string string)
    (t : Views) : option AliasExc * Views :=
  match aliases with
  | [] => (None, t)
  | (k, v) :: rest =>
      if in_dec string_dec k plugin_nets then
        route_routine_aliases plugin_nets plugin_vars plugin_kwargs rest
          (mkViews (set_alias k v (nets_aliases t)) (vars_aliases t)
                   (kwargs_aliases t) (help_aliases t))
      else if in_dec string_dec k plugin_vars then
        route_routine_aliases plugin_nets plugin_vars plugin_kwargs rest
          (mkViews (nets_aliases t) (set_alias k v (vars_aliases t))
                   (kwargs_aliases t) (help_aliases t))
      else if dict_mem k plugin_kwargs then
        route_routine_aliases plugin_nets plugin_vars plugin_kwargs rest
          (mkViews (nets_aliases t) (vars_aliases t)
                   (set_alias k v (kwargs_aliases t))
                   (set_alias k v (help_aliases t)))
      else (Some (KeyError_alias k v), t)
  end.

(** [ModelPluginBase._add_routine], lines 218-233.  [plugin_vars] is
    [routine.plugin_vars]; the caller passes it, so that the routing is
    defined for any list of variables. *)
Definition _add_routine (plugin_vars : list string) (routine : Routine)
    : option AliasExc * Views :=
  route_routine_aliases (plugin_nets routine) plugin_vars
                        (plugin_kwargs routine) (_aliases routine) fresh_views.

(** The loop of [_add_build], lines 240-247. *)
Fixpoint route_build_aliases (plugin_nets : list string)
    (plugin_kwargs : dict string PyVal) (aliases : dict string string)
    (t : Views) : option AliasExc * Views :=
  match aliases with
  | [] => (None, t)
  | (k, v) :: rest =>
      if in_dec string_dec k plugin_nets then
        route_build_aliases plugin_nets plugin_kwargs rest
          (mkViews (set_alias k v (nets_aliases t)) (vars_aliases t)
                   (kwargs_aliases t) (help_aliases t))
      else if dict_mem k plugin_kwargs then
        route_build_aliases plugin_nets plugin_kwargs rest
          (mkViews (nets_aliases t) (vars_aliases t)
                   (set_alias k v (kwargs_aliases t))
                   (set_alias k v (help_aliases t)))
      else (Some (KeyError_alias k v), t)
  end.

(** [ModelPluginBase._add_build], lines 235-247.  [plugin_nets] is
    [build.plugin_nets]; the caller passes it. *)
Definition _add_build (plugin_nets : list string) (build : Build)
    : option AliasExc * Views :=
  route_build_aliases plugin_nets (build_plugin_kwargs build)
                      (build_aliases build) fresh_views.

(* ------------------------------------------------------------------ *)
(** ** Registration *)

Inductive LogRecord : Type :=
| Warning_multiple_defaults (k : string) (kept : PyVal)
| Warning_checks_failed (k : option string) (e : Exc).

(** The module-level state of models.py: the three plugin tables, and what
    has been sent to the logger.  An entry is the state of the registered
    object when it was written.  The source stores the object itself, which
    a later registration of the same object would change in place; what is
    stated about the tables after a registration is therefore stated about
    the entry that registration wrote, about the names of the tables, or
    about a registration that fails before it changes anything. *)
Record Registry : Type := mkRegistry {
  _ROUTINE_PLUGINS : dict (option string) Plugin;
  _BUILD_PLUGINS : dict (option string) Plugin;
  MODEL_PLUGINS : dict (option string) ModelPluginBase;
  logged : list LogRecord
}.

Definition tables (reg : Registry) :=
  (_ROUTINE_PLUGINS reg, _BUILD_PLUGINS reg, MODEL_PLUGINS reg).

Definition warning (w : LogRecord) : M Registry unit :=
  modify (fun reg => mkRegistry (_ROUTINE_PLUGINS reg) (_BUILD_PLUGINS reg)
                                (MODEL_PLUGINS reg) (logged reg ++ [w])).

Definition is_None (n : option string) : bool :=
  match n with None => true | Some _ => false end.

(** The exception object of line 33.  It is built by an expression
    statement; no [raise] precedes it. *)
Definition missing_name_exception : Exc := ValueError_set_plugin_name.

(** [if plugin.plugin_name is None: ...] and [if plugin.plugin_name in D:
    raise KeyError(...)].  The message is formatted with
    [(plugin_type_str, plugin.plugin_name)], in that order. *)
Definition check_name {V} (plugin_type_str : string)
    (D : dict (option string) V) : M Plugin unit :=
  name <- gets plugin_name ;;
  (if is_None name
   then (let _constructed := missing_name_exception in ret tt)
   else ret tt) ;;
  when (dict_mem name D)
       (raise (KeyError_already_registered plugin_type_str name)).

(** [for k in plugin._protected: ...] *)
Definition check_protected : M Plugin unit :=
  protected <- gets _protected ;;
  for_each protected (fun k =>
    has <- gets (fun p => hasattr p k) ;;
    when has (raise (AttributeError_protected k))).

(** [for k in plugin._required: ...] *)
Definition check_required : M Plugin unit :=
  required <- gets _required ;;
  for_each required (fun k =>
    v <- gets (fun p => getattr p k) ;;
    match v with
    | PyNone => raise (AttributeError_required k)
    | _ => modify (fun p => setattr p k v)
    end).

(** [check_plugin], lines 31-50 *)
Definition check_plugin {V} (plugin_type_str : string)
    (D : dict (option string) V) : M Plugin unit :=
  check_name plugin_type_str D ;;
  check_protected ;;
  check_required.

(** Runs a computation on an object the caller holds; the caller's state is
    not touched. *)
Definition on_object {S O A} (o : O) (m : M O A) : M S O :=
  fun s =>
    match m o with
    | (Ok _, o') => (Ok o', s)
    | (Raise e, _) => (Raise e, s)
    end.

(** [plugin.build] or [plugin.run] in an argument position. *)
Definition attribute (p : Plugin) (k : string) : Outcome PyVal :=
  if hasattr p k then Ok (getattr p k) else Raise (AttributeError k).

(** [obj.plugin_kwargs] *)
Definition plugin_kwargs_of (o : PyObject) : Outcome (dict string PyVal) :=
  match o with
  | RoutineInst r => Ok (plugin_kwargs r)
  | BuildInst b => Ok (build_plugin_kwargs b)
  | Foreign _ => Raise (AttributeError "plugin_kwargs")
  end.

(** The alias table of [obj.kwargs]: the view [_add_routine] or
    [_add_build] gave the object when it was attached, which holds an
    alias only for a name that is neither a network nor a variable of the
    stage. *)
Definition aliases_of (o : PyObject) : dict string string :=
  match o with
  | RoutineInst r => kwargs_aliases (snd (_add_routine (plugin_vars r) r))
  | BuildInst b => kwargs_aliases (snd (_add_build (build_plugin_nets b) b))
  | Foreign _ => []
  end.

(** Modelled from the spec: [AliasHandler] (handlers.py) is not among the
    sources.  A local name resolves through the alias table when it has an
    alias and stands for itself otherwise. *)
Definition resolve_alias (aliases : dict string string) (k : string) : string :=
  match dict_get k aliases with Some c => c | None => k end.

Definition with_kwargs (kw : dict string PyVal) (m : ModelPluginBase)
    : ModelPluginBase :=
  mkModel (descriptor m) (_builds m) (_routines m) kw (_nets m)
          (_train_procedures m) (_results m) (_losses m).

(** Modelled from the spec: [obj.kwargs[k] = v] on an [AliasHandler]
    (handlers.py, not among the sources) raises [ValueError] when the
    canonical name already has a value, which [add_kwargs] turns into a
    warning that keeps the first value. *)
Fixpoint add_each (aliases : dict string string) (l : dict string PyVal)
    (m : ModelPluginBase) : M Registry ModelPluginBase :=
  match l with
  | [] => ret m
  | (k, v) :: l' =>
      let c := resolve_alias aliases k in
      match dict_get c (_kwargs m) with
      | Some kept =>
          warning (Warning_multiple_defaults k kept) ;; add_each aliases l' m
      | None => add_each aliases l' (with_kwargs (dict_set c v (_kwargs m)) m)
      end
  end.

(** The local function [add_kwargs] of [_set_kwargs]. *)
Definition add_kwargs (obj : PyObject) (m : ModelPluginBase)
    : M Registry ModelPluginBase :=
  pk <- lift (plugin_kwargs_of obj) ;;
  add_each (aliases_of obj) pk m.

(** [for obj in ...values(): add_kwargs(obj)] *)
Fixpoint fold_objects (l : list PyObject) (m : ModelPluginBase)
    : M Registry ModelPluginBase :=
  match l with
  | [] => ret m
  | o :: l' => m' <- add_kwargs o m ;; fold_objects l' m'
  end.

(** [ModelPluginBase._set_kwargs] *)
Definition _set_kwargs (m : ModelPluginBase) : M Registry ModelPluginBase :=
  m1 <- fold_objects (values (_builds m)) m ;;
  fold_objects (values (_routines m)) m1.

Definition with_descriptor (m : ModelPluginBase) (p : Plugin) : ModelPluginBase :=
  mkModel p (_builds m) (_routines m) (_kwargs m) (_nets m)
          (_train_procedures m) (_results m) (_losses m).

Section Registration.
(** The docstring and signature parsers of parsing.py, which is not
    among the sources. *)
Variable parse_docstring : PyVal -> PyVal.
Variable parse_kwargs : PyVal -> PyVal.
Variable parse_header : ModelPluginBase -> PyVal * PyVal.

(** [register_build], lines 53-60 *)
Definition register_build (plugin : Plugin) : M Registry unit :=
  D <- gets _BUILD_PLUGINS ;;
  plugin <- on_object plugin (check_plugin "build" D) ;;
  build <- lift (attribute plugin "build") ;;
  let plugin := setattr plugin "plugin_help" (parse_docstring build) in
  let plugin := setattr plugin "plugin_kwargs" (parse_kwargs build) in
  modify (fun reg =>
    mkRegistry (_ROUTINE_PLUGINS reg)
               (dict_set (plugin_name plugin) plugin (_BUILD_PLUGINS reg))
               (MODEL_PLUGINS reg) (logged reg)).

(** [register_routine], lines 63-70 *)
Definition register_routine (plugin : Plugin) : M Registry unit :=
  D <- gets _ROUTINE_PLUGINS ;;
  plugin <- on_object plugin (check_plugin "routine" D) ;;
  f <- lift (attribute plugin "run") ;;
  let plugin := setattr plugin "plugin_help" (parse_docstring f) in
  let plugin := setattr plugin "plugin_kwargs" (parse_kwargs f) in
  modify (fun reg =>
    mkRegistry (dict_set (plugin_name plugin) plugin (_ROUTINE_PLUGINS reg))
               (_BUILD_PLUGINS reg) (MODEL_PLUGINS reg) (logged reg)).

(** [register_model], lines 73-80: [_set_kwargs] runs before the checks. *)
Definition register_model (plugin : ModelPluginBase) : M Registry unit :=
  plugin <- _set_kwargs plugin ;;
  D <- gets MODEL_PLUGINS ;;
  d <- on_object (descriptor plugin) (check_plugin "model" D) ;;
  let plugin := with_descriptor plugin d in
  let '(h, descr) := parse_header plugin in
  let d := setattr (setattr d "plugin_help" h) "plugin_description" descr in
  let plugin := with_descriptor plugin d in
  modify (fun reg =>
    mkRegistry (_ROUTINE_PLUGINS reg) (_BUILD_PLUGINS reg)
               (dict_set (plugin_name d) plugin (MODEL_PLUGINS reg))
               (logged reg)).
End Registration.

(* ------------------------------------------------------------------ *)
(** ** Discovery *)

Definition isinstance_routine (o : PyObject) : bool :=
  match o with RoutineInst _ => true | _ => false end.

Definition isinstance_build (o : PyObject) : bool :=
  match o with BuildInst _ => true | _ => false end.

Fixpoint all_instances (is_kind : PyObject -> bool) (l : list PyObject)
    : Outcome unit :=
  match l with
  | [] => Ok tt
  | o :: l' => if is_kind o then all_instances is_kind l' else Raise ValueError
  end.

(** [ModelPluginBase.check] *)
Definition check (m : ModelPluginBase) : Outcome unit :=
  match all_instances isinstance_routine (values (_routines m)) with
  | Ok _ => all_instances isinstance_build (values (_builds m))
  | Raise e => Raise e
  end.

(** [except Exception] catches everything but the process-exit request. *)
Definition is_Exception (e : Exc) : bool :=
  match e with SystemExit _ => false | _ => true end.

Definition model_plugin (k : option string) : M Registry ModelPluginBase :=
  t <- gets MODEL_PLUGINS ;;
  match dict_get k t with
  | Some v => ret v
  | None => raise (KeyError_plugin k)
  end.

Definition pop_model (k : option string) : M Registry unit :=
  modify (fun reg =>
    mkRegistry (_ROUTINE_PLUGINS reg) (_BUILD_PLUGINS reg)
               (dict_pop k (MODEL_PLUGINS reg)) (logged reg)).

Section Discovery.
(** [import_directory] scans the file system and imports modules, which
    may register plugins or fail. *)
Variable import_directory : string -> string -> M Registry unit.

(** [find_models], lines 505-518: [v.check()] is called twice, the first
    time outside the [try]. *)
Definition find_models (model_paths : dict string string) : M Registry unit :=
  for_each model_paths (fun kp => import_directory (snd kp) (fst kp)) ;;
  ks <- gets (fun reg => keys (MODEL_PLUGINS reg)) ;;
  for_each ks (fun k =>
    v <- model_plugin k ;;
    lift (check v) ;;
    try_except (lift (check v)) is_Exception
      (fun e => warning (Warning_checks_failed k e) ;; pop_model k)).
End Discovery.

(* ------------------------------------------------------------------ *)
(** ** The step scheduler *)

(** The data source: [next()] moves to the following batch, [batch] is the
    current one. *)
Record DataHandler : Type := mkData {
  feed : nat -> dict string Tensor;
  cursor : nat
}.

Definition batch (d : DataHandler) : dict string Tensor := feed d (cursor d).

(** What the scheduler does to the world outside it, in the order it
    happens: [self._data.next()]; [zero_grad()] and [step()] of the
    optimizer of a key; [loss.backward()]; the call [routine( **kwargs )]
    with the loop index and the value after [**]; the entry into
    [self.run] with the keyword arguments [perform] passes; the return of
    the call with its value; the [print] of line 419. *)
Inductive Event : Type :=
| EvNext
| EvZeroGrad (k_ : string)
| EvBackward (k : string)
| EvStep (k_ : string)
| EvCall (key : string) (u : Z) (kwargs : PyVal)
| EvRun (key : string) (kw : dict string PyVal)
| EvReturn (key : string) (u : Z) (outputs : Returned)
| EvPrint (bads : dict string Scalar) (all : dict string Scalar).

(** [self], the globals [data.DATA_HANDLER] and [optimizer.OPTIMIZERS] (the
    keys that have an optimizer), the events so far, and the two local
    variables of [run_procedure] that outlive one loop iteration: [inputs]
    and [routine] (the key of the object it is bound to, [None] while
    unbound). *)
Record State : Type := mkState {
  self : ModelPluginBase;
  DATA_HANDLER : DataHandler;
  OPTIMIZERS : list string;
  trace : list Event;
  local_inputs : dict string Tensor;
  local_routine : option string
}.

Definition set_self (m : ModelPluginBase) (s : State) : State :=
  mkState m (DATA_HANDLER s) (OPTIMIZERS s) (trace s) (local_inputs s)
          (local_routine s).

Definition set_inputs (p : dict string Tensor) (s : State) : State :=
  mkState (self s) (DATA_HANDLER s) (OPTIMIZERS s) (trace s) p
          (local_routine s).

Definition set_local_routine (r : option string) (s : State) : State :=
  mkState (self s) (DATA_HANDLER s) (OPTIMIZERS s) (trace s) (local_inputs s) r.

Definition emit (e : Event) : M State unit :=
  modify (fun s => mkState (self s) (DATA_HANDLER s) (OPTIMIZERS s)
                           (trace s ++ [e]) (local_inputs s) (local_routine s)).

(** [self._data.next()] *)
Definition data_next : M State unit :=
  modify (fun s =>
    mkState (self s)
            (mkData (feed (DATA_HANDLER s)) (S (cursor (DATA_HANDLER s))))
            (OPTIMIZERS s) (trace s) (local_inputs s) (local_routine s)) ;;
  emit EvNext.

Definition with_routines (rs : dict string PyObject) (m : ModelPluginBase)
    : ModelPluginBase :=
  mkModel (descriptor m) (_builds m) rs (_kwargs m) (_nets m)
          (_train_procedures m) (_results m) (_losses m).

Definition put_routine (key : string) (r : Routine) (s : State) : State :=
  set_self (with_routines (dict_set key (RoutineInst r) (_routines (self s)))
                          (self s)) s.

(** Runs a method on the routine object stored under [key].  Whatever the
    method changed stays changed when it raises.  An object that is not a
    routine has none of the attributes used; the first one touched on any
    path is [reset]. *)
Definition on_routine {A} (key : string) (m : M Routine A) : M State A :=
  fun s =>
    match dict_get key (_routines (self s)) with
    | Some (RoutineInst r) => let (o, r') := m r in (o, put_routine key r' s)
    | Some _ => (Raise (AttributeError "reset"), s)
    | None => (Raise (KeyError key), s)
    end.

Definition set_inputs_of (i : dict string Wired) (r : Routine) : Routine :=
  mkRoutine (plugin_kwargs r) (plugin_nets r) (plugin_vars r)
            (plugin_inputs r)
            (plugin_optional_inputs r) (_aliases r) (_names r)
            (training_nets r) i (results r) (losses r) (memory r) (run r)
            (call_override r).

Definition set_training_nets (t : list string) (r : Routine) : Routine :=
  mkRoutine (plugin_kwargs r) (plugin_nets r) (plugin_vars r)
            (plugin_inputs r)
            (plugin_optional_inputs r) (_aliases r) (_names r)
            t (inputs r) (results r) (losses r) (memory r) (run r)
            (call_override r).

Definition set_produced (e : Effect) (r : Routine) : Routine :=
  mkRoutine (plugin_kwargs r) (plugin_nets r) (plugin_vars r)
            (plugin_inputs r)
            (plugin_optional_inputs r) (_aliases r) (_names r)
            (training_nets r) (inputs r) (eff_results e) (eff_losses e)
            (eff_memory e) (run r) (call_override r).

(** [RoutinePluginBase.reset] *)
Definition reset : M Routine unit :=
  modify (fun r =>
    mkRoutine (plugin_kwargs r) (plugin_nets r) (plugin_vars r)
            (plugin_inputs r)
              (plugin_optional_inputs r) (_aliases r) (_names r)
              (training_nets r) [] [] [] (memory r) (run r)
              (call_override r)).

(** [ModelPluginBase.reset_routines] *)
Definition reset_routines : M State unit :=
  modify (fun s =>
    set_self (mkModel (descriptor (self s)) (_builds (self s))
                      (_routines (self s)) (_kwargs (self s)) (_nets (self s))
                      (_train_procedures (self s)) (_results (self s)) []) s) ;;
  ks <- gets (fun s => keys (_routines (self s))) ;;
  for_each ks (fun key => on_routine key reset).

(** [routine._names.get(k, k)] *)
Definition names_get (r : Routine) (k : string) : Send :=
  match dict_get k (_names r) with Some s => s | None => SendKey k end.

(** [optimizer.OPTIMIZERS[k_]] *)
Definition optimizer_for (send : Send) : M State string :=
  match send with
  | SendList _ => raise TypeError_unhashable
  | SendKey k_ =>
      opts <- gets OPTIMIZERS ;;
      if in_dec string_dec k_ opts then ret k_ else raise (KeyError k_)
  end.

(** [net = routine.nets[k]] followed by [p.requires_grad = True] for its
    parameters.  [routine.nets] carries the aliases [_add_routine] gave it:
    those of the names in [plugin_nets]. *)
Definition require_grad (r : Routine) (k : string) : M State unit :=
  let c := if in_dec string_dec k (plugin_nets r)
           then resolve_alias (_aliases r) k else k in
  nets <- gets (fun s => _nets (self s)) ;;
  match dict_get c nets with
  | None => raise (KeyError c)
  | Some _ =>
      modify (fun s =>
        set_self (mkModel (descriptor (self s)) (_builds (self s))
                          (_routines (self s)) (_kwargs (self s))
                          (dict_set c (mkNet true) (_nets (self s)))
                          (_train_procedures (self s)) (_results (self s))
                          (_losses (self s))) s)
  end.

(** Lines 351-357 *)
Definition enable_differentiation (key : string) : M State unit :=
  r <- on_routine key (gets (fun r => r)) ;;
  for_each (training_nets r) (fun k =>
    k_ <- optimizer_for (names_get r k) ;;
    emit (EvZeroGrad k_) ;;
    require_grad r k).

(** [inputs[s]] *)
Definition pool_get (pool : dict string Tensor) (k : string) : Outcome Tensor :=
  match dict_get k pool with
  | Some t => Ok t
  | None => Raise (KeyError k)
  end.

(** [[inputs[s] for s in send]] *)
Fixpoint pool_get_all (pool : dict string Tensor) (ks : list string)
    : Outcome (list Tensor) :=
  match ks with
  | [] => Ok []
  | k :: ks' =>
      match pool_get pool k with
      | Raise e => Raise e
      | Ok t =>
          match pool_get_all pool ks' with
          | Raise e => Raise e
          | Ok ts => Ok (t :: ts)
          end
      end
  end.

(** The body of the two [try] blocks, lines 364-368 and 380-384. *)
Definition bind_input (pool : dict string Tensor) (send : Send)
    (receive : string) : M Routine unit :=
  match send with
  | SendList ks =>
      send_ <- lift (pool_get_all pool ks) ;;
      modify (fun r => set_inputs_of (dict_set receive (WList send_) (inputs r)) r)
  | SendKey k =>
      v <- lift (pool_get pool k) ;;
      modify (fun r => set_inputs_of (dict_set receive (WValue v) (inputs r)) r)
  end.

Definition is_KeyError (e : Exc) : bool :=
  match e with
  | KeyError _ | KeyError_not_found _ _ | KeyError_already_in _
  | KeyError_already_registered _ _ | KeyError_plugin _ => true
  | _ => false
  end.

(** Required inputs, lines 360-373 *)
Definition wire_required (pool : dict string Tensor) : M Routine unit :=
  receives <- gets plugin_inputs ;;
  sends <- gets (fun r => map (names_get r) receives) ;;
  for_each (combine sends receives) (fun sr =>
    let (send, receive) := sr in
    try_except (bind_input pool send receive) is_KeyError
      (fun _ => raise (KeyError_not_found send (keys pool)))).

(** Optional inputs, lines 376-386: [except BaseException] catches
    everything. *)
Definition wire_optional (pool : dict string Tensor) : M Routine unit :=
  receives <- gets plugin_optional_inputs ;;
  sends <- gets (fun r => map (names_get r) receives) ;;
  for_each (combine sends receives) (fun sr =>
    let (send, receive) := sr in
    try_except (bind_input pool send receive) (fun _ => true)
      (fun _ => modify (fun r => set_inputs_of (dict_set receive WNone (inputs r)) r))).

(** The mapping after [**] in a call. *)
Definition as_keywords (kwargs : PyVal) : Outcome (dict string PyVal) :=
  match kwargs with
  | PyMap m => Ok m
  | _ => Raise TypeError_not_a_mapping
  end.

(** What the routine's code did is stored on the instance. *)
Definition apply_effect (res : string + Effect) : M Routine Returned :=
  match res with
  | inl tag => raise (PluginError tag)
  | inr e => modify (set_produced e) ;; ret (eff_return e)
  end.

(** Modelled from the spec: [self.kwargs] is an [AliasHandler]
    (handlers.py, not among the sources) over the composition's [_kwargs];
    unpacked with [**] it passes the entries of that table. *)
Definition kwargs_view (r : Routine) (canonical : dict string PyVal)
    : dict string PyVal := canonical.

(** [RoutinePluginBase.perform].  There is no [return]: the value of
    [self.run(...)] is dropped and the method yields [None]. *)
Definition perform (key : string) : M State Returned :=
  r <- on_routine key (gets (fun r => r)) ;;
  match run r with
  | None => raise ValueError_no_run
  | Some f =>
      kw <- gets (fun s => kwargs_view r (_kwargs (self s))) ;;
      emit (EvRun key kw) ;;
      on_routine key (apply_effect (f kw (inputs r) (memory r))) ;;
      ret RetNone
  end.

(** [RoutinePluginBase.__call__(self)].  Both branches of the device test
    return [self.perform()].  The signature has no parameter besides
    [self], so a call with a keyword is refused before the body starts. *)
Definition __call__ (key : string) (kw : dict string PyVal) : M State Returned :=
  match kw with
  | [] => perform key
  | (k, _) :: _ => raise (TypeError_unexpected_keyword k)
  end.

(** [outputs = routine( **kwargs )], line 389 *)
Definition call_routine (key : string) (u : Z) (kwargs : PyVal)
    : M State Returned :=
  emit (EvCall key u kwargs) ;;
  kw <- lift (as_keywords kwargs) ;;
  r <- on_routine key (gets (fun r => r)) ;;
  outputs <- match call_override r with
             | Some f => on_routine key (apply_effect (f kw (inputs r) (memory r)))
             | None => __call__ key kw
             end ;;
  emit (EvReturn key u outputs) ;;
  ret outputs.

(** Lines 392-397 *)
Definition backprop (key : string) : M State unit :=
  r <- on_routine key (gets (fun r => r)) ;;
  for_each (losses r) (fun kl =>
    match snd kl with
    | None => ret tt
    | Some _ =>
        emit (EvBackward (fst kl)) ;;
        k_ <- optimizer_for (names_get r (fst kl)) ;;
        emit (EvStep k_)
    end).

(** Lines 403-409 *)
Definition populate (key : string) (outputs : Returned) : M State unit :=
  match outputs with
  | RetNone => raise (AttributeError "items")
  | RetDict m =>
      for_each m (fun kv =>
        let k_ := (key ++ "." ++ fst kv)%string in
        pool <- gets local_inputs ;;
        if dict_mem k_ pool then raise (KeyError_already_in k_)
        else modify (set_inputs (dict_set k_ (detach (snd kv)) pool)))
  end.

(** Lines 412-414 *)
Definition record_training_nets : M Routine unit :=
  ls <- gets losses ;;
  for_each (keys ls) (fun loss_key =>
    tn <- gets training_nets ;;
    if in_dec string_dec loss_key tn then ret tt
    else modify (set_training_nets (tn ++ [loss_key]))).

Definition is_bad (x : Scalar) : bool :=
  match x with Finite _ => false | _ => true end.

(** Modelled from the spec: [bad_values] (utils.py) is not among the
    sources.  It scans scalar results for not-a-number and infinite values
    and yields the offending entries; no entry is a false value. *)
Definition bad_values (res : dict string Scalar) : dict string Scalar :=
  filter (fun kv => is_bad (snd kv)) res.

Definition truthy {A} (l : list A) : bool :=
  match l with [] => false | _ => true end.

(** Lines 417-422 *)
Definition check_bad_values (quit_on_bad_values : bool) (key : string)
    : M State unit :=
  r <- on_routine key (gets (fun r => r)) ;;
  let bads := bad_values (results r) in
  if truthy bads && quit_on_bad_values
  then emit (EvPrint bads (results r)) ;; raise (SystemExit 0)
  else ret tt.

(** Lines 342-386: everything in the loop body before the call.  The
    value is the local [kwargs]. *)
Definition prepare (train : bool) (key : string) (u : Z) : M State PyVal :=
  when (0 <? u)%Z data_next ;;
  rs <- gets (fun s => _routines (self s)) ;;
  when (negb (dict_mem key rs)) (raise (KeyError key)) ;;
  modify (set_local_routine (Some key)) ;;
  kws <- gets (fun s => _kwargs (self s)) ;;
  kwargs <- match dict_get key kws with
            | Some v => ret v
            | None => raise (KeyError key)
            end ;;
  on_routine key reset ;;
  when train (enable_differentiation key) ;;
  pool <- gets local_inputs ;;
  on_routine key (wire_required pool) ;;
  on_routine key (wire_optional pool) ;;
  ret kwargs.

(** Lines 391-422: everything in the loop body after the call. *)
Definition finish (quit_on_bad_values train : bool) (key : string)
    (update u : Z) (outputs : Returned) : M State unit :=
  when train (backprop key) ;;
  when (u =? update - 1)%Z (populate key outputs) ;;
  on_routine key record_training_nets ;;
  check_bad_values quit_on_bad_values key.

(** One pass through the body of [for u in range(update)]. *)
Definition iteration (quit_on_bad_values train : bool) (key : string)
    (update u : Z) : M State unit :=
  kwargs <- prepare train key u ;;
  outputs <- call_routine key u kwargs ;;
  finish quit_on_bad_values train key update u outputs.

(** [v.item()] for every loss, line 424. *)
Fixpoint loss_items (ls : dict string (option Tensor))
    : Outcome (dict string Scalar) :=
  match ls with
  | [] => Ok []
  | (k, None) :: _ => Raise (AttributeError "item")
  | (k, Some v) :: ls' =>
      match loss_items ls' with
      | Ok d => Ok ((k, item v) :: d)
      | Raise e => Raise e
      end
  end.

(** Modelled from the spec: [update_dict_of_lists] (utils.py) is not among
    the sources.  For each key it appends the value to that key's history,
    creating the history on first use. *)
Definition append_history {A} (k : string) (v : A) (d : dict string (list A))
    : dict string (list A) :=
  match dict_get k d with
  | Some h => dict_set k (h ++ [v]) d
  | None => dict_set k [v] d
  end.

Definition update_dict_of_lists {A} (d : dict string (list A))
    (kw : dict string A) : dict string (list A) :=
  fold_left (fun acc kv => append_history (fst kv) (snd kv) acc) kw d.

(** Lines 424-431, after the repeat loop.  [routine] is whatever the local
    variable was last bound to. *)
Definition aggregate (key : string) : M State unit :=
  bound <- gets local_routine ;;
  match bound with
  | None => raise (UnboundLocalError "routine")
  | Some rk =>
      r <- on_routine rk (gets (fun r => r)) ;;
      routine_losses <- lift (loss_items (losses r)) ;;
      modify (fun s =>
        let m := self s in
        let acc := _results m in
        set_self
          (mkModel (descriptor m) (_builds m) (_routines m) (_kwargs m)
                   (_nets m) (_train_procedures m)
                   (mkResults
                      (update_dict_of_lists (res_general acc) (results r))
                      (update_dict_of_lists (res_losses acc) routine_losses)
                      (update_dict_of_lists (res_time acc) [(key, tt)]))
                   (_losses m)) s)
  end.

(** The body of [for key, update in zip(procedure, updates)]. *)
Definition scheduled (quit_on_bad_values train : bool) (ku : string * Z)
    : M State unit :=
  let (key, update) := ku in
  let update := if train then update else 1%Z in
  for_each (range update) (iteration quit_on_bad_values train key update) ;;
  aggregate key.

(** Lines 335-336 *)
Definition seed_inputs : M State unit :=
  b <- gets (fun s => batch (DATA_HANDLER s)) ;;
  for_each b (fun kv =>
    modify (fun s => set_inputs (dict_set ("data." ++ fst kv)%string (snd kv)
                                          (local_inputs s)) s)).

(** [ModelPluginBase.run_procedure] *)
Definition run_procedure (i : nat) (quit_on_bad_values train : bool)
    : M State unit :=
  modify (set_local_routine None) ;;
  data_next ;;
  reset_routines ;;
  modify (set_inputs []) ;;
  ps <- gets (fun s => _train_procedures (self s)) ;;
  match nth_error ps i with
  | None => raise IndexError
  | Some (mode, procedure, updates) =>
      seed_inputs ;;
      for_each (combine procedure updates)
               (scheduled quit_on_bad_values train)
  end.

(** [ModelPluginBase.train] *)
Definition train (i : nat) (quit_on_bad_values : bool) : M State unit :=
  run_procedure i quit_on_bad_values true.

(* ------------------------------------------------------------------ *)
(** ** Concrete inputs *)

Definition no_help : PyVal -> PyVal := fun _ => PyNone.
Definition no_header : ModelPluginBase -> PyVal * PyVal :=
  fun _ => (PyStr "help", PyStr "description").
Definition no_imports : string -> string -> M Registry unit :=
  fun _ _ => ret tt.

Definition empty_results : ResultsHandler := mkResults [] [] [].

(** A plugin class with both entry points, one reserved name it does not
    define and one required attribute it sets. *)
Definition stage_plugin (name : option string) : Plugin :=
  mkPlugin name ["kwargs"] ["doc"]
           [("build", PyStr "def build(self, dim=64)");
            ("run", PyStr "def run(self, lr=1)");
            ("doc", PyStr "an encoder")].

Definition idle_routine : Routine :=
  mkRoutine [("lr", PyInt 1)] [] [] [] [] [] [] [] [] [] [] 0 None None.

(** A composition with one routine attached. *)
Definition composition (name : option string) : ModelPluginBase :=
  mkModel (stage_plugin name) [] [("main", RoutineInst idle_routine)]
          [] [] [] empty_results [].

(** A composition that holds something that is no routine. *)
Definition broken_composition (name : option string) : ModelPluginBase :=
  mkModel (stage_plugin name) [] [("main", Foreign (PyStr "not a routine"))]
          [] [] [] empty_results [].

Definition empty_registry : Registry := mkRegistry [] [] [] [].

Definition enc_registry : Registry :=
  mkRegistry [(Some "enc", stage_plugin (Some "enc"))]
             [(Some "enc", stage_plugin (Some "enc"))]
             [(Some "enc", composition (Some "enc"))] [].

Definition discovered_registry : Registry :=
  mkRegistry [] []
             [(Some "a", broken_composition (Some "a"));
              (Some "b", composition (Some "b"))] [].

Definition tensor (z : Z) : Tensor := mkTensor (Finite z) true.

(** The [__call__] of a routine class that defines its own: it counts its
    calls in the instance, reports the count as a result and as the loss
    of ["enc"], and returns the output [z] holding the count. *)
Definition counting_call : Callable :=
  fun _ _ n =>
    inr (mkEffect [("count", Finite (n + 1))]
                  [("enc", Some (tensor (n + 1)))]
                  (n + 1)
                  (RetDict [("z", tensor (n + 1))])).

(** It requires the batch field [x], wired from ["data.x"], and takes an
    optional [label]. *)
Definition counter : Routine :=
  mkRoutine [] ["enc"] [] ["x"] ["label"] [] [("x", SendKey "data.x")]
            [] [] [] [] 0 None (Some counting_call).

(** Batch number [n] is [{x: n}]. *)
Definition stream : DataHandler :=
  mkData (fun n => [("x", tensor (Z.of_nat n))]) 0.

Definition counter_model (updates : Z) : ModelPluginBase :=
  mkModel (stage_plugin (Some "m")) [] [("main", RoutineInst counter)]
          [("main", PyMap [])] [("enc", mkNet false)]
          [("train", ["main"], [updates])] empty_results [].

Definition counter_state (updates : Z) : State :=
  mkState (counter_model updates) stream ["enc"] [] [] None.





(** A routine of a class that inherits [__call__] from
    [RoutinePluginBase] and defines [run]. *)
Definition plain_run : Callable :=
  fun _ _ n => inr (mkEffect [("acc", Finite 1)] [] n (RetDict [])).

Definition plain : Routine :=
  mkRoutine [("lr", PyInt 1)] [] [] [] [] [] [] [] [] [] [] 0
            (Some plain_run) None.

(** One scheduled routine, with [per_routine] as its entry of [_kwargs]. *)
Definition plain_state (per_routine : dict string PyVal) : State :=
  mkState (mkModel (stage_plugin (Some "m")) []
                   [("main", RoutineInst plain)]
                   [("main", PyMap per_routine)] []
                   [("train", ["main"], [1%Z])] empty_results [])
          stream [] [] [] None.

(** The same class of routine, requiring the batch field [x], scheduled
    with repeat-count 2. *)
Definition plain_reader : Routine :=
  mkRoutine [] [] [] ["x"] [] [] [("x", SendKey "data.x")] [] [] [] [] 0
            (Some plain_run) None.

Definition reader_state : State :=
  mkState (mkModel (stage_plugin (Some "m")) []
                   [("main", RoutineInst plain_reader)]
                   [("main", PyMap [])] []
                   [("train", ["main"], [2%Z])] empty_results [])
          stream [] [] [] None.

(** A routine that requires [image] and takes an optional [label]. *)
Definition viewer : Routine :=
  mkRoutine [] [] [] ["image"] ["label"] [] [] [] [] [] [] 0 None None.

(** A routine whose one requirement names two keys, in this order. *)
Definition pairing : Routine :=
  mkRoutine [] [] [] ["pair"] [] [] [("pair", SendList ["main.z"; "data.x"])]
            [] [] [] [] 0 None None.

Definition first_pool : dict string Tensor := [("data.x", tensor 1)].

Definition later_pool : dict string Tensor :=
  [("data.x", tensor 1); ("main.z", mkTensor (Finite 3) false)].

(** The viewer scheduled once, at the point where the first batch has been
    seeded. *)
Definition viewer_state : State :=
  mkState (mkModel (stage_plugin (Some "m")) []
                   [("main", RoutineInst viewer)] [("main", PyMap [])] []
                   [("eval", ["main"], [1%Z])] empty_results [])
          stream [] [] first_pool None.

(** A routine that has just produced a loss for ["enc"]. *)
Definition trained : Routine :=
  mkRoutine [] ["enc"] [] [] [] [] [] ["dec"] [] []
            [("enc", Some (tensor 1))] 0 None None.

(* ------------------------------------------------------------------ *)
(** ** Vocabulary of the properties *)

(** [always R m]: from any state, [m] ends, normally or by an exception,
    in a state related to the one it started in. *)
Definition always {S A : Type} (R : S -> S -> Prop) (m : M S A) : Prop :=
  forall s, R s (snd (m s)).


Definition trace_adds (P : Event -> bool) (s s' : State) : Prop :=
  exists t, trace s' = trace s ++ t /\ forallb P t = true.

Definition pool_same (s s' : State) : Prop := local_inputs s' = local_inputs s.

Definition extends (l l' : list string) : Prop := exists ext, l' = l ++ ext.

Definition tn_grows (r r' : Routine) : Prop :=
  extends (training_nets r) (training_nets r') /\
  (NoDup (training_nets r) -> NoDup (training_nets r')).

Definition routine_at (key : string) (s : State) : option Routine :=
  match dict_get key (_routines (self s)) with
  | Some (RoutineInst r) => Some r
  | _ => None
  end.

Definition grows (s s' : State) : Prop :=
  forall key r, routine_at key s = Some r ->
    exists r', routine_at key s' = Some r' /\ tn_grows r r'.

(** Events that are neither a call of a routine, nor the start of its
    [run], nor its return, nor the anomaly print. *)
Definition bookkeeping (e : Event) : bool :=
  match e with
  | EvNext | EvZeroGrad _ | EvBackward _ | EvStep _ => true
  | _ => false
  end.

(** A driver that calls the scheduler step after step, whatever each step's
    exit was. *)
Definition run_steps (steps : list (nat * bool * bool)) (s : State) : State :=
  fold_left (fun st step =>
               snd (run_procedure (fst (fst step)) (snd (fst step))
                                  (snd step) st))
            steps s.

Definition procs_same (s s' : State) : Prop :=
  _train_procedures (self s') = _train_procedures (self s).

(** The keys of the routines called, in order. *)
Definition calls_of (t : list Event) : list string :=
  flat_map (fun e => match e with EvCall key _ _ => [key] | _ => [] end) t.

Definition not_call (e : Event) : bool :=
  match e with EvCall _ _ _ => false | _ => true end.



(** How many times the loop body runs for a configured repeat-count. *)
Definition times (train : bool) (update : Z) : nat :=
  if train then Z.to_nat update else 1%nat.

(** The routine calls a schedule asks for. *)
Definition expected_calls (train : bool) (schedule : list (string * Z))
    : list string :=
  flat_map (fun ku => repeat (fst ku) (times train (snd ku))) schedule.

(** [calls_within L m]: however [m] ends, the calls it made are the first
    ones of [L], in order; when it returns they are all of [L]. *)
Definition calls_within (L : list string) {A} (m : M State A) : Prop :=
  forall s, exists c,
    calls_of (trace (snd (m s))) = calls_of (trace s) ++ c /\
    (exists rest, L = c ++ rest) /\
    (forall a, fst (m s) = Ok a -> c = L).











(** What is in the ValuePool keeps its value. *)
Definition pool_keeps (s s' : State) : Prop :=
  forall k t, dict_get k (local_inputs s) = Some t ->
              dict_get k (local_inputs s') = Some t.

(* ------------------------------------------------------------------ *)
(** ** The rest of the module *)

(** The functions of models.py that the step scheduler and discovery do
    not go through ([setup_model], [reload_models], [_add_routine],
    [_add_build], [import_directory], [ModelPluginBase.reset]), the two
    functions of main.py, and the vocabulary of their properties. *)

(** Whether a value is [None]. *)
Definition is_PyNone (v : PyVal) : bool :=
  match v with PyNone => true | _ => false end.

(** What [check_plugin] answers, found without running its loops: the
    duplicate name first, then the first protected attribute the plugin
    defines, then the first required attribute it lacks. *)
Definition check_plugin_verdict {V} (plugin_type_str : string)
    (D : dict (option string) V) (p : Plugin) : Outcome unit :=
  if dict_mem (plugin_name p) D
  then Raise (KeyError_already_registered plugin_type_str (plugin_name p))
  else match find (hasattr p) (_protected p) with
       | Some k => Raise (AttributeError_protected k)
       | None =>
           match find (fun k => is_PyNone (getattr p k)) (_required p) with
           | Some k => Raise (AttributeError_required k)
           | None => Ok tt
           end
       end.


(** The names registered in the three tables. *)
Definition names (reg : Registry) :=
  (keys (_ROUTINE_PLUGINS reg), keys (_BUILD_PLUGINS reg),
   keys (MODEL_PLUGINS reg)).

(** The defaults a stage declares, under the names they have in the
    composition's table: each key of [plugin_kwargs] through the alias
    table of the stage's [kwargs] view.  An object that is no stage
    declares none. *)
Definition declared_defaults (o : PyObject) : dict string PyVal :=
  match plugin_kwargs_of o with
  | Ok pk => map (fun kv => (resolve_alias (aliases_of o) (fst kv), snd kv)) pk
  | Raise _ => []
  end.

(** The objects [_set_kwargs] visits, in its order: the builds, then the
    routines. *)
Definition stages (m : ModelPluginBase) : list PyObject :=
  values (_builds m) ++ values (_routines m).

Definition is_Foreign (o : PyObject) : bool :=
  match o with Foreign _ => true | _ => false end.

(** Everything of a composition but its [_kwargs]. *)
Definition same_stages (m m' : ModelPluginBase) : Prop :=
  descriptor m' = descriptor m /\ _builds m' = _builds m /\
  _routines m' = _routines m /\ _nets m' = _nets m /\
  _train_procedures m' = _train_procedures m /\
  _results m' = _results m /\ _losses m' = _losses m.


(** Whether a composition's [check] returns. *)
Definition passes (m : ModelPluginBase) : bool :=
  match check m with Ok _ => true | Raise _ => false end.

(** Whether the composition registered under [k] passes its check. *)
Definition stored_passes (T : dict (option string) ModelPluginBase)
    (k : option string) : bool :=
  match dict_get k T with Some v => passes v | None => false end.

(* ------------------------------------------------------------------ *)
(** ** Selecting a composition *)

(** A module-level name: never assigned, or bound to a value. *)
Inductive Binding (A : Type) : Type :=
| Unbound
| Bound (v : A).
Arguments Unbound {A}.
Arguments Bound {A} v.

(** The module-level state of models.py with the two names its later
    functions declare [global]: [MODEL] (line 24) and [MODEL_HANDLER], which
    the module assigns nowhere. *)
Record Globals : Type := mkGlobals {
  plugins : Registry;
  MODEL : option ModelPluginBase;
  MODEL_HANDLER : Binding (option (dict string PyVal))
}.

(** The module right after its top-level code has run, with whatever has
    been registered since. *)
Definition as_loaded (reg : Registry) : Globals := mkGlobals reg None Unbound.

(** [setup_model], lines 452-456.  The [logger.info] line leaves no mark
    on the state. *)
Definition setup_model (model_key : option string) : M Globals ModelPluginBase :=
  t <- gets (fun g => MODEL_PLUGINS (plugins g)) ;;
  match dict_get model_key t with
  | None => raise (KeyError_plugin model_key)
  | Some v =>
      modify (fun g => mkGlobals (plugins g) (Some v) (MODEL_HANDLER g)) ;;
      ret v
  end.

(** The two exceptions [reload_models] can end in: the one the interpreter
    raises for a global name that has no binding, and the one of line
    539. *)
Inductive ReloadExc : Type :=
| NameError (name : string)
| RuntimeError_MODEL_HANDLER_not_set.

(** [for k, v in reload_models.items(): MODEL_HANDLER[k] = v] *)
Definition reload_each (to_reload h : dict string PyVal) : dict string PyVal :=
  fold_left (fun acc kv => dict_set (fst kv) (snd kv) acc) to_reload h.

(** [reload_models], lines 536-545: the exception, if any, and the state
    afterwards. *)
Definition reload_models (to_reload : dict string PyVal) (g : Globals)
    : option ReloadExc * Globals :=
  match MODEL_HANDLER g with
  | Unbound => (Some (NameError "MODEL_HANDLER"), g)
  | Bound None => (Some RuntimeError_MODEL_HANDLER_not_set, g)
  | Bound (Some h) =>
      (None, mkGlobals (plugins g) (MODEL g)
                       (Bound (Some (reload_each to_reload h))))
  end.

(** A program that selects compositions one after the other, whatever each
    selection's exit was. *)
Definition select_all (ks : list (option string)) (g : Globals) : Globals :=
  fold_left (fun g k => snd (setup_model k g)) ks g.

(** The composition as [register_model] stores it, given the composition
    [_set_kwargs] made of it. *)
Definition stored_model (parse_header : ModelPluginBase -> PyVal * PyVal)
    (m1 : ModelPluginBase) : ModelPluginBase :=
  with_descriptor m1
    (setattr (setattr (descriptor m1) "plugin_help" (fst (parse_header m1)))
             "plugin_description" (snd (parse_header m1))).

(* ------------------------------------------------------------------ *)
(** ** The parts of an alias *)

(** The part an alias plays for a routine, by the order of the tests of
    lines 225-229. *)
Inductive Role : Type := NetRole | VarRole | KwargRole.

Definition role_of (plugin_nets plugin_vars : list string)
    (plugin_kwargs : dict string PyVal) (k : string) : option Role :=
  if in_dec string_dec k plugin_nets then Some NetRole
  else if in_dec string_dec k plugin_vars then Some VarRole
  else if dict_mem k plugin_kwargs then Some KwargRole
  else None.

Definition Role_eqb (a b : Role) : bool :=
  match a, b with
  | NetRole, NetRole | VarRole, VarRole | KwargRole, KwargRole => true
  | _, _ => false
  end.

(** Whether an alias plays the given part. *)
Definition plays (plugin_nets plugin_vars : list string)
    (plugin_kwargs : dict string PyVal) (role : Role)
    (kv : string * string) : bool :=
  match role_of plugin_nets plugin_vars plugin_kwargs (fst kv) with
  | Some r => Role_eqb r role
  | None => false
  end.

(** The aliases that play a given part for a routine. *)
Definition playing (role : Role) (routine : Routine) (plugin_vars : list string)
    : dict string string :=
  filter (plays (plugin_nets routine) plugin_vars (plugin_kwargs routine) role)
         (_aliases routine).

(** The first alias that plays no part. *)
Definition stray (routine : Routine) (plugin_vars : list string)
    : option (string * string) :=
  find (fun kv =>
          match role_of (plugin_nets routine) plugin_vars
                        (plugin_kwargs routine) (fst kv) with
          | Some _ => false
          | None => true
          end)
       (_aliases routine).


(* ------------------------------------------------------------------ *)
(** ** Importing a directory *)

(** [s.endswith(suffix)] *)
Definition endswith (s suffix : string) : bool :=
  (String.length suffix <=? String.length s)%nat &&
  String.eqb (substring (String.length s - String.length suffix)
                        (String.length suffix) s)
             suffix.

(** [s[:-n]] for a positive [n] *)
Definition without_last (n : nat) (s : string) : string :=
  substring 0 (String.length s - n) s.

(** Line 469 *)
Definition _ignore : list string := ["__init__.py"; "__pycache__"].

(** What [import_directory] works on: [sys.path], the names in
    [sys.modules], the plugin tables the imported modules register into,
    and, in the order they happen, the calls of
    [importlib.import_module] and the warnings of line 492. *)
Record Importer : Type := mkImporter {
  sys_path : list string;
  sys_modules : list string;
  import_calls : list string;
  import_warnings : list (string * Exc);
  registered : Registry
}.

Section Importing.
(** [os.listdir], and the top-level code of the module a name resolves to
    on a given [sys.path]: it may register plugins, and it may raise. *)
Variable listdir : string -> Outcome (list string).
Variable module_body : list string -> string -> M Registry unit.

(** Runs a module's code on the plugin tables. *)
Definition execute (name : string) : M Importer unit :=
  fun s =>
    let (o, reg) := module_body (sys_path s) name (registered s) in
    (o, mkImporter (sys_path s) (sys_modules s) (import_calls s)
                   (import_warnings s) reg).

(** [importlib.import_module(name)]: a module already in [sys.modules] is
    not executed again; one whose code raises is not entered there. *)
Definition import_module (name : string) : M Importer unit :=
  modify (fun s => mkImporter (sys_path s) (sys_modules s)
                              (import_calls s ++ [name])
                              (import_warnings s) (registered s)) ;;
  loaded <- gets sys_modules ;;
  if in_dec string_dec name loaded then ret tt
  else
    execute name ;;
    modify (fun s => mkImporter (sys_path s) (sys_modules s ++ [name])
                                (import_calls s) (import_warnings s)
                                (registered s)).

(** Lines 486-494, for one directory entry. *)
Definition import_entry (fn : string) : M Importer unit :=
  if endswith fn ".py" && negb (if in_dec string_dec fn _ignore then true else false)
  then
    let fnp := without_last 3 fn in
    import_module fnp ;;
    try_except (import_module fnp) is_Exception
      (fun e => modify (fun s =>
         mkImporter (sys_path s) (sys_modules s) (import_calls s)
                    (import_warnings s ++ [(fnp, e)]) (registered s)))
  else ret tt.

(** [import_directory], lines 472-494.  The parameter [name] is not
    used. *)
Definition import_directory (p name : string) : M Importer unit :=
  let p := if endswith p "/" then without_last 1 p else p in
  modify (fun s => mkImporter (sys_path s ++ [p]) (sys_modules s)
                              (import_calls s) (import_warnings s)
                              (registered s)) ;;
  fns <- lift (listdir p) ;;
  for_each fns import_entry.
End Importing.

(** The directory entries [import_directory] imports. *)
Definition importable (fn : string) : bool :=
  endswith fn ".py" && negb (String.eqb fn "__init__.py").

(* ------------------------------------------------------------------ *)
(** ** Resetting a composition *)

(** [ModelPluginBase.reset], lines 438-441: [clear()] empties the results
    handler and [update(losses=dict(), time=dict())] gives it its two
    nested histories back, empty. *)
Definition ModelPluginBase_reset : M State unit :=
  reset_routines ;;
  modify (fun s =>
    set_self (mkModel (descriptor (self s)) (_builds (self s))
                      (_routines (self s)) (_kwargs (self s)) (_nets (self s))
                      (_train_procedures (self s)) (mkResults [] [] [])
                      (_losses (self s))) s).

(** A routine with its results, losses and inputs emptied. *)
Definition cleared (r : Routine) : Routine :=
  mkRoutine (plugin_kwargs r) (plugin_nets r) (plugin_vars r)
            (plugin_inputs r)
            (plugin_optional_inputs r) (_aliases r) (_names r)
            (training_nets r) [] [] [] (memory r) (run r) (call_override r).

(** Two states that differ at most in the routines and in the
    composition-level losses. *)
Definition same_but_routines (s s' : State) : Prop :=
  descriptor (self s') = descriptor (self s) /\
  _builds (self s') = _builds (self s) /\
  _kwargs (self s') = _kwargs (self s) /\
  _nets (self s') = _nets (self s) /\
  _train_procedures (self s') = _train_procedures (self s) /\
  _results (self s') = _results (self s) /\
  DATA_HANDLER s' = DATA_HANDLER s /\ OPTIMIZERS s' = OPTIMIZERS s /\
  trace s' = trace s /\ local_inputs s' = local_inputs s /\
  local_routine s' = local_routine s.

(** Whether a routine is found under a key. *)
Definition is_routine_key (s : State) (k : string) : bool :=
  match routine_at k s with Some _ => true | None => false end.

(** Every key of [_routines] holds a routine. *)
Definition all_routines (s : State) : bool :=
  forallb (is_routine_key s) (keys (_routines (self s))).

(** The ValuePool entries made from a batch. *)
Definition seeded (b : dict string Tensor) : dict string Tensor :=
  map (fun kv => (("data." ++ fst kv)%string, snd kv)) b.

(** No network is lost, and a network whose parameters track gradients
    still does. *)
Definition flags_kept (s s' : State) : Prop :=
  keys (_nets (self s')) = keys (_nets (self s)) /\
  forall k, dict_get k (_nets (self s)) = Some (mkNet true) ->
            dict_get k (_nets (self s')) = Some (mkNet true).

(** The networks and the table of optimizers are as they were. *)
Definition nets_same (s s' : State) : Prop :=
  _nets (self s') = _nets (self s) /\ OPTIMIZERS s' = OPTIMIZERS s.

(** Events that are no call into an optimizer or into a loss. *)
Definition no_optimizer (e : Event) : bool :=
  match e with
  | EvZeroGrad _ | EvBackward _ | EvStep _ => false
  | _ => true
  end.

(** The data source has moved on by [n] batches. *)
Definition fetched (n : nat) (s s' : State) : Prop :=
  DATA_HANDLER s' =
  mkData (feed (DATA_HANDLER s)) (cursor (DATA_HANDLER s) + n).

Definition data_same (s s' : State) : Prop := DATA_HANDLER s' = DATA_HANDLER s.

(** The batches a step asks the data source for: one at the start, and one
    more before every repetition of a routine after its first. *)
Definition fetches (train : bool) (schedule : list (string * Z)) : nat :=
  S (list_sum (map (fun ku => times train (snd ku) - 1) schedule)).

(* ------------------------------------------------------------------ *)
(** * main.py: the order of an experiment *)

(** The calls that leave main.py, with the arguments [main] and
    [reload_model] give them.  Everything [main] does is such a call or a
    lookup in [exp.ARGS].  The entries of [exp.ARGS] are dictionaries,
    which [main] holds and hands on by reference: a call made with
    [**args] is recorded with the object [args] is bound to and with the
    keywords the callee receives, which are what that object holds when
    the call is made. *)
Inductive External : Type :=
| Call_print_section (title : string)
| Call_setup_data (object : nat) (data_args : PyVal)
| Call_setup_model (object : nat) (model_args : PyVal)
| Call_exp_setup (models routines : PyVal)
| Call_setup_optimizer (object : nat) (optimizer_args : PyVal)
| Call_setup_train
| Call_main_loop (object : nat) (train_args : PyVal)
| Call_setup_reload (arch model_file : PyVal).

(** [exp.ARGS], which binds each key to an object; what every object
    holds; and the calls made so far. *)
Record Process : Type := mkProcess {
  exp_ARGS : dict string nat;
  held : nat -> PyVal;
  outside : list External
}.

Section Main.
(** What a call does: it may bind keys of [exp.ARGS] to other objects, it
    may change objects in place, and it returns or raises.  The value of
    [setup_model] is given as the two values line 41 unpacks it into; the
    value of any other call is not used. *)
Variable behaviour :
  External -> M (dict string nat * (nat -> PyVal)) (PyVal * PyVal).

Definition call (c : External) : M Process (PyVal * PyVal) :=
  modify (fun p => mkProcess (exp_ARGS p) (held p) (outside p ++ [c])) ;;
  (fun p => let (o, w) := behaviour c (exp_ARGS p, held p) in
            (o, mkProcess (fst w) (snd w) (outside p))).

(** [exp.ARGS[k]]: the object the key is bound to. *)
Definition subscript_ARGS (k : string) : M Process nat :=
  args <- gets exp_ARGS ;;
  match dict_get k args with
  | Some object => ret object
  | None => raise (KeyError k)
  end.

(** What [**args] passes: the entries the object holds at that moment,
    which has to be a mapping. *)
Definition unpacked (object : nat) : M Process PyVal :=
  v <- gets (fun p => held p object) ;;
  lift (as_keywords v) ;;
  ret v.

(** [main], lines 27-55 *)
Definition main (eval_mode : bool) : M Process unit :=
  data_args <- subscript_ARGS "data" ;;
  model_args <- subscript_ARGS "model" ;;
  optimizer_args <- subscript_ARGS "optimizer" ;;
  train_args <- subscript_ARGS "train" ;;
  call (Call_print_section "LOADING DATA") ;;
  kw <- unpacked data_args ;;
  call (Call_setup_data data_args kw) ;;
  call (Call_print_section "MODEL") ;;
  kw <- unpacked model_args ;;
  mr <- call (Call_setup_model model_args kw) ;;
  call (Call_print_section "EXPERIMENT") ;;
  lift (as_keywords (snd mr)) ;;
  call (Call_exp_setup (fst mr) (snd mr)) ;;
  call (Call_print_section "OPTIMIZER") ;;
  kw <- unpacked optimizer_args ;;
  call (Call_setup_optimizer optimizer_args kw) ;;
  if eval_mode then ret tt
  else
    call (Call_print_section "TRAIN") ;;
    call Call_setup_train ;;
    kw <- unpacked train_args ;;
    call (Call_main_loop train_args kw) ;;
    ret tt.

(** [reload_model], lines 58-60 *)
Definition reload_model (arch model_file : PyVal) : M Process unit :=
  call (Call_setup_reload arch model_file) ;;
  main true.

(** The process after the calls [cs] have been made in turn. *)
Definition seen (cs : list External) (p : Process) : Process :=
  fold_left (fun q c => snd (call c q)) cs p.
End Main.

(** The calls that train. *)
Definition trains (c : External) : bool :=
  match c with
  | Call_setup_train | Call_main_loop _ _ => true
  | _ => false
  end.

(** Only calls that satisfy [P] have been added. *)
Definition outside_adds (P : External -> bool) (p p' : Process) : Prop :=
  exists t, outside p' = outside p ++ t /\ forallb P t = true.

(** The four entries of [exp.ARGS] that [main] reads, in its order. *)
Definition main_arguments : list string := ["data"; "model"; "optimizer"; "train"].

(** Whether the strings of a list are pairwise different. *)
Fixpoint distinct (l : list string) : bool :=
  match l with
  | [] => true
  | x :: l' => negb (if in_dec string_dec x l' then true else false) && distinct l'
  end.

(* ------------------------------------------------------------------ *)
(** ** More concrete inputs *)

(** A plugin class that defines nothing. *)
Definition bare_plugin (name : option string) : Plugin :=
  mkPlugin name [] [] [].


(** A composition as [check_plugin] sees a [ModelPluginBase] instance: it
    has the properties of the class. *)
Definition model_instance (name : option string) : Plugin :=
  mkPlugin name [] ["defaults"]
           [("defaults", PyMap []); ("kwargs", PyMap []); ("help", PyMap [])].


(** A build with an alias for its network and one for a parameter. *)
Definition aliased_build : Build :=
  mkBuild [("dim", PyInt 64)] ["enc"] [("enc", "encoder"); ("dim", "width")].

(** A routine for which [enc] is both a network and a parameter, with an
    alias for it and one for the parameter [lr]; and a composition that
    holds it. *)
Definition overlapping : Routine :=
  mkRoutine [("enc", PyInt 3); ("lr", PyInt 1)] ["enc"] [] [] []
            [("enc", "encoder"); ("lr", "rate")]
            [] [] [] [] [] 0 None None.

Definition overlapping_model : ModelPluginBase :=
  mkModel (model_instance (Some "m")) [] [("main", RoutineInst overlapping)]
          [] [] [] empty_results [].

(** A routine that trains ["enc"], takes a parameter [lr], and has an
    alias for each of the two. *)
Definition aliased : Routine :=
  mkRoutine [("lr", PyInt 1)] ["enc"] [] [] []
            [("enc", "encoder"); ("lr", "learning_rate")]
            [] [] [] [] [] 0 None None.

(** A directory with a plugin module, a package file and a text file. *)
Definition small_directory : string -> Outcome (list string) :=
  fun _ => Ok ["README"; "enc.py"; "__init__.py"].

Definition quiet_module : list string -> string -> M Registry unit :=
  fun _ _ => ret tt.

Definition failing_module : list string -> string -> M Registry unit :=
  fun _ _ => raise (PluginError "boom").

Definition fresh_importer : Importer :=
  mkImporter [] [] [] [] empty_registry.

(** A routine that has just left its one loss [None], scheduled and bound
    to the local [routine]. *)
Definition unscored : Routine :=
  mkRoutine [] [] [] [] [] [] [] [] [] [] [("enc", None)] 0 None None.

Definition unscored_state : State :=
  mkState (mkModel (stage_plugin (Some "m")) []
                   [("main", RoutineInst unscored)] [] []
                   [("train", ["main"], [1%Z])] empty_results [])
          stream [] [] [] (Some "main").

(** A mapping bound to [MODEL_HANDLER] by code outside the module. *)
Definition handled : Globals :=
  mkGlobals empty_registry None (Bound (Some [("enc", PyInt 1)])).

(** Setup functions that do nothing. *)
Definition idle_behaviour
    : External -> M (dict string nat * (nat -> PyVal)) (PyVal * PyVal) :=
  fun _ => ret (PyNone, PyMap []).

(** Four objects: the empty configurations of the data, the model and the
    optimizer, and the configuration of the training. *)
Definition configurations (object : nat) : PyVal :=
  match object with
  | 3 => PyMap [("epochs", PyInt 2)]
  | _ => PyMap []
  end.

Definition configured : Process :=
  mkProcess [("data", 0); ("model", 1); ("optimizer", 2); ("train", 3)]
            configurations [].

Definition half_configured : Process :=
  mkProcess [("data", 0); ("model", 1)] configurations [].

(** A data setup that binds the optimizer's key to another object and
    changes the training configuration in place. *)
Definition meddling
    : External -> M (dict string nat * (nat -> PyVal)) (PyVal * PyVal) :=
  fun c =>
    match c with
    | Call_setup_data _ _ =>
        modify (fun w =>
          (dict_set "optimizer" 9 (fst w),
           fun object =>
             match object with
             | 3 => PyMap [("epochs", PyInt 5)]
             | 9 => PyMap [("lr", PyInt 7)]
             | _ => snd w object
             end)) ;;
        ret (PyNone, PyMap [])
    | _ => ret (PyNone, PyMap [])
    end.

Unset Implicit Arguments.

(* ================================================================== *)
(** * Properties *)

(* ------------------------------------------------------------------ *)
(** ** Dictionaries *)

Section DictFacts.
Context {K V : Type} `{EqDec K}.
Implicit Types (k : K) (v : V) (d : dict K V).

Lemma dict_mem_false_get k d : dict_mem k d = false -> dict_get k d = None.
Proof. unfold dict_mem. destruct (dict_get k d); congruence. Qed.

Lemma dict_mem_true_get k d :
  dict_mem k d = true -> exists v, dict_get k d = Some v.
Proof. unfold dict_mem. destruct (dict_get k d); eauto; discriminate. Qed.

Lemma dict_set_fresh k v d :
  dict_mem k d = false -> dict_set k v d = d ++ [(k, v)].
Proof.
  unfold dict_mem. induction d as [|[k' v'] d IH]; simpl; auto.
  destruct (eq_dec k k'); [discriminate|].
  intros Hm. now rewrite IH.
Qed.

Lemma dict_get_set_same k v d : dict_get k (dict_set k v d) = Some v.
Proof.
  induction d as [|[k' v'] d IH]; simpl.
  - destruct (eq_dec k k); congruence.
  - destruct (eq_dec k k') as [->|n]; simpl.
    + destruct (eq_dec k' k'); congruence.
    + destruct (eq_dec k k'); congruence.
Qed.

Lemma dict_get_set_other k k' v d :
  k <> k' -> dict_get k (dict_set k' v d) = dict_get k d.
Proof.
  intros Hne. induction d as [|[k2 v2] d IH]; simpl.
  - destruct (eq_dec k k'); congruence.
  - destruct (eq_dec k' k2) as [->|n]; simpl.
    + destruct (eq_dec k k2); congruence.
    + destruct (eq_dec k k2); congruence.
Qed.

End DictFacts.

(* ------------------------------------------------------------------ *)
(** ** The monad *)

Lemma bind_ok {S A B} (m : M S A) (f : A -> M S B) s a s' :
  m s = (Ok a, s') -> bind m f s = f a s'.
Proof. unfold bind. now intros ->. Qed.

Lemma bind_raise {S A B} (m : M S A) (f : A -> M S B) s e s' :
  m s = (Raise e, s') -> bind m f s = (Raise e, s').
Proof. unfold bind. now intros ->. Qed.

Lemma bind_inv_ok {S A B} (m : M S A) (f : A -> M S B) s b s2 :
  bind m f s = (Ok b, s2) ->
  exists a s1, m s = (Ok a, s1) /\ f a s1 = (Ok b, s2).
Proof.
  unfold bind. destruct (m s) as [[a|e] s1]; [eauto | discriminate].
Qed.

(* ------------------------------------------------------------------ *)
(** ** Registration *)

Lemma add_each_frame aliases l : forall m reg o reg',
  add_each aliases l m reg = (o, reg') ->
  tables reg' = tables reg /\
  (forall m', o = Ok m' -> descriptor m' = descriptor m).
Proof.
  induction l as [|[k v] l IH]; simpl; intros m reg o reg' E.
  - inversion E; subst. split; [reflexivity|]. now intros m' [= ->].
  - destruct (dict_get (resolve_alias aliases k) (_kwargs m)).
    + unfold bind, warning, modify in E. simpl in E.
      apply IH in E. exact E.
    + apply IH in E. exact E.
Qed.

Lemma add_kwargs_frame obj m reg o reg' :
  add_kwargs obj m reg = (o, reg') ->
  tables reg' = tables reg /\
  (forall m', o = Ok m' -> descriptor m' = descriptor m).
Proof.
  unfold add_kwargs, bind, lift.
  destruct (plugin_kwargs_of obj).
  - apply add_each_frame.
  - intros [= <- <-]. split; [reflexivity | discriminate].
Qed.

Lemma fold_objects_frame l : forall m reg o reg',
  fold_objects l m reg = (o, reg') ->
  tables reg' = tables reg /\
  (forall m', o = Ok m' -> descriptor m' = descriptor m).
Proof.
  induction l as [|x l IH]; simpl; intros m reg o reg' E.
  - inversion E; subst. split; [reflexivity|]. now intros m' [= ->].
  - unfold bind in E.
    destruct (add_kwargs x m reg) as [[m1|e] reg1] eqn:E1.
    + apply add_kwargs_frame in E1. destruct E1 as [T1 D1].
      apply IH in E. destruct E as [T2 D2]. split.
      * congruence.
      * intros m' Hm'. rewrite (D2 _ Hm'). now apply D1.
    + inversion E; subst. apply add_kwargs_frame in E1.
      split; [apply E1 | discriminate].
Qed.

Lemma set_kwargs_frame m reg o reg' :
  _set_kwargs m reg = (o, reg') ->
  tables reg' = tables reg /\
  (forall m', o = Ok m' -> descriptor m' = descriptor m).
Proof.
  unfold _set_kwargs, bind. intros E.
  destruct (fold_objects (values (_builds m)) m reg) as [[m1|e] reg1] eqn:E1.
  - apply fold_objects_frame in E1. destruct E1 as [T1 D1].
    apply fold_objects_frame in E. destruct E as [T2 D2]. split.
    + congruence.
    + intros m' Hm'. rewrite (D2 _ Hm'). now apply D1.
  - inversion E; subst. apply fold_objects_frame in E1.
    split; [apply E1 | discriminate].
Qed.

Lemma check_plugin_duplicate V ts (D : dict (option string) V) p :
  dict_mem (plugin_name p) D = true ->
  check_plugin ts D p = (Raise (KeyError_already_registered ts (plugin_name p)), p).
Proof.
  intros Hm. unfold check_plugin, check_name, bind, gets, when, ret, raise.
  cbn. destruct (is_None (plugin_name p)); rewrite Hm; reflexivity.
Qed.



Section RegistrationFacts.
Variable parse_docstring : PyVal -> PyVal.
Variable parse_kwargs : PyVal -> PyVal.
Variable parse_header : ModelPluginBase -> PyVal * PyVal.

Lemma register_build_duplicate plugin reg :
  dict_mem (plugin_name plugin) (_BUILD_PLUGINS reg) = true ->
  register_build parse_docstring parse_kwargs plugin reg =
  (Raise (KeyError_already_registered "build" (plugin_name plugin)), reg).
Proof.
  intros Hm. unfold register_build, bind, gets, on_object.
  now rewrite (check_plugin_duplicate _ "build" _ _ Hm).
Qed.

Lemma register_routine_duplicate plugin reg :
  dict_mem (plugin_name plugin) (_ROUTINE_PLUGINS reg) = true ->
  register_routine parse_docstring parse_kwargs plugin reg =
  (Raise (KeyError_already_registered "routine" (plugin_name plugin)), reg).
Proof.
  intros Hm. unfold register_routine, bind, gets, on_object.
  now rewrite (check_plugin_duplicate _ "routine" _ _ Hm).
Qed.

End RegistrationFacts.


(* ------------------------------------------------------------------ *)
(** ** Discovery *)

(** The first [v.check()] of the loop body stands outside the [try]. *)
Lemma find_models_unguarded import_directory k v rest r b l e :
  check v = Raise e ->
  find_models import_directory []
              (mkRegistry r b ((k, v) :: rest) l)
  = (Raise e, mkRegistry r b ((k, v) :: rest) l).
Proof.
  intros Hc. unfold find_models. cbn -[check eq_dec].
  unfold bind, ret, gets, model_plugin, lift. cbn -[check eq_dec].
  destruct (eq_dec k k) as [_|n]; [|congruence].
  unfold ret. now rewrite Hc.
Qed.

(** C8, at the failing input: two registered compositions, the first of
    which fails its check.  [find_models] raises the check's [ValueError];
    the failing composition is still registered, no warning is logged, and
    the second composition is never looked at. *)
Theorem find_models_check_failure_aborts :
  check (broken_composition (Some "a")) = Raise ValueError /\
  check (composition (Some "b")) = Ok tt /\
  find_models no_imports [] discovered_registry
  = (Raise ValueError, discovered_registry).
Proof. repeat split. Qed.

(* ------------------------------------------------------------------ *)
(** ** Relations that every exit of a computation respects *)


Section Always.
Context {S : Type} (R : S -> S -> Prop) `{!PreOrder R}.

Lemma always_ret {A} (a : A) : always R (ret a : M S A).
Proof. intros s. simpl. reflexivity. Qed.

Lemma always_raise {A} e : always R (@raise S A e).
Proof. intros s. simpl. reflexivity. Qed.

Lemma always_gets {A} (f : S -> A) : always R (gets f).
Proof. intros s. simpl. reflexivity. Qed.

Lemma always_lift {A} (o : Outcome A) : always R (lift o).
Proof. intros s. simpl. reflexivity. Qed.

Lemma always_modify (f : S -> S) : (forall s, R s (f s)) -> always R (modify f).
Proof. intros Hf s. simpl. apply Hf. Qed.

Lemma always_bind {A B} (m : M S A) (f : A -> M S B) :
  always R m -> (forall a, always R (f a)) -> always R (bind m f).
Proof.
  intros Hm Hf s. unfold bind. specialize (Hm s).
  destruct (m s) as [[a|e] s1]; simpl in *; auto.
  etransitivity; [exact Hm | apply Hf].
Qed.

Lemma always_when b (m : M S unit) : always R m -> always R (when b m).
Proof. intros Hm. destruct b; simpl; auto using always_ret. Qed.

Lemma always_for_each {A} (l : list A) (f : A -> M S unit) :
  (forall x, always R (f x)) -> always R (for_each l f).
Proof.
  intros Hf. induction l as [|x l IH]; simpl.
  - apply always_ret.
  - apply always_bind; auto.
Qed.

Lemma always_try_except {A} (m : M S A) c h :
  always R m -> (forall e, always R (h e)) -> always R (try_except m c h).
Proof.
  intros Hm Hh s. unfold try_except. specialize (Hm s).
  destruct (m s) as [[a|e] s1]; simpl in *; auto.
  destruct (c e); simpl; auto.
  etransitivity; [exact Hm | apply Hh].
Qed.
End Always.

(** A method run on a stored routine: the scheduler's state changes only
    by the routine being written back. *)
Lemma always_on_routine (R : State -> State -> Prop) `{!PreOrder R}
    (Q : Routine -> Routine -> Prop) {A} key (m : M Routine A) :
  (forall s r r',
      dict_get key (_routines (self s)) = Some (RoutineInst r) ->
      Q r r' -> R s (put_routine key r' s)) ->
  always Q m -> always R (on_routine key m).
Proof.
  intros Hput Hm s. unfold on_routine.
  destruct (dict_get key (_routines (self s))) as [[r| |]|] eqn:E; simpl;
    try reflexivity.
  specialize (Hm r). destruct (m r) as [o r']. simpl in *. eauto.
Qed.

Ltac always_step :=
  lazymatch goal with
  | |- always ?R (bind _ _) => apply (always_bind R); [| intros ?]
  | |- always ?R (ret _) => apply (always_ret R)
  | |- always ?R (raise _) => apply (always_raise R)
  | |- always ?R (gets _) => apply (always_gets R)
  | |- always ?R (lift _) => apply (always_lift R)
  | |- always ?R (when _ _) => apply (always_when R)
  | |- always ?R (for_each _ _) => apply (always_for_each R); intros ?
  | |- always ?R (try_except _ _ _) =>
      apply (always_try_except R); [| intros ?]
  | |- always _ (match ?x with _ => _ end) => destruct x
  end.

(** *** Events of a kind are the only ones added *)

#[global] Instance trace_adds_preorder P : PreOrder (trace_adds P).
Proof.
  split.
  - intros s. exists []. now rewrite app_nil_r.
  - intros a b c (t1 & E1 & F1) (t2 & E2 & F2). exists (t1 ++ t2).
    rewrite E2, E1, app_assoc, forallb_app, F1, F2. auto.
Qed.

Lemma trace_adds_same P s s' : trace s' = trace s -> trace_adds P s s'.
Proof. intros E. exists []. now rewrite app_nil_r. Qed.

Lemma trace_adds_emit P e : P e = true -> always (trace_adds P) (emit e).
Proof.
  intros He. apply (always_modify (trace_adds P)). intros s. exists [e]. simpl.
  now rewrite He.
Qed.

Lemma trace_adds_on_routine P {A} key (m : M Routine A) :
  always (trace_adds P) (on_routine key m).
Proof.
  apply (always_on_routine (trace_adds P) (fun _ _ => True)).
  - intros. now apply trace_adds_same.
  - intros r. exact I.
Qed.

(** *** The ValuePool is left alone *)

#[global] Instance pool_same_preorder : PreOrder pool_same.
Proof. split; unfold pool_same; congruence. Qed.

Lemma pool_same_on_routine {A} key (m : M Routine A) :
  always pool_same (on_routine key m).
Proof.
  apply (always_on_routine pool_same (fun _ _ => True)).
  - intros. reflexivity.
  - intros r. exact I.
Qed.

Lemma pool_same_emit e : always pool_same (emit e).
Proof. apply (always_modify pool_same). intros s. reflexivity. Qed.

(** *** The trained-resource lists only get longer *)

#[global] Instance tn_grows_preorder : PreOrder tn_grows.
Proof.
  split.
  - intros r. split; auto. exists []. now rewrite app_nil_r.
  - intros a b c [[e1 E1] N1] [[e2 E2] N2]. split; auto.
    exists (e1 ++ e2). now rewrite E2, E1, app_assoc.
Qed.

Lemma tn_same r r' : training_nets r' = training_nets r -> tn_grows r r'.
Proof.
  intros E. unfold tn_grows, extends. rewrite E. split; auto.
  exists []. now rewrite app_nil_r.
Qed.

#[global] Instance grows_preorder : PreOrder grows.
Proof.
  split.
  - intros s key r E. exists r. split; [exact E | reflexivity].
  - intros a b c H1 H2 key r E.
    destruct (H1 _ _ E) as (r1 & E1 & G1).
    destruct (H2 _ _ E1) as (r2 & E2 & G2).
    exists r2. split; [exact E2 | etransitivity; eauto].
Qed.

Lemma grows_same_routines s s' :
  _routines (self s') = _routines (self s) -> grows s s'.
Proof.
  intros E key r H. exists r. unfold routine_at in *. rewrite E.
  split; [exact H | reflexivity].
Qed.

Lemma grows_put key s r r' :
  dict_get key (_routines (self s)) = Some (RoutineInst r) ->
  tn_grows r r' -> grows s (put_routine key r' s).
Proof.
  intros E G k r0 H. unfold routine_at in *. simpl.
  destruct (string_dec k key) as [->|n].
  - rewrite dict_get_set_same. rewrite E in H. inversion H; subst. eauto.
  - rewrite dict_get_set_other by exact n. exists r0.
    split; [exact H | reflexivity].
Qed.

Ltac frame_leaf :=
  first
    [ apply trace_adds_on_routine
    | apply pool_same_on_routine
    | apply trace_adds_emit; auto; reflexivity
    | apply pool_same_emit
    | lazymatch goal with
      | |- always ?R (modify _) => apply (always_modify R)
      end; intros ?;
      first [ apply trace_adds_same; reflexivity
            | apply grows_same_routines; reflexivity
            | apply tn_same; reflexivity
            | reflexivity ] ].

Ltac frame := repeat (first [always_step | frame_leaf]).

Lemma tn_grows_reset : always tn_grows reset.
Proof. unfold reset. frame. Qed.

Lemma tn_grows_bind_input pool send receive :
  always tn_grows (bind_input pool send receive).
Proof. unfold bind_input. frame. Qed.

Lemma tn_grows_wire_required pool : always tn_grows (wire_required pool).
Proof. unfold wire_required. frame. all: apply tn_grows_bind_input. Qed.

Lemma tn_grows_wire_optional pool : always tn_grows (wire_optional pool).
Proof. unfold wire_optional. frame. all: apply tn_grows_bind_input. Qed.

Lemma tn_grows_apply_effect res : always tn_grows (apply_effect res).
Proof. unfold apply_effect. frame. Qed.

(** One pass of lines 413-414: the list is kept, or gets one new last
    element that was not in it. *)
Lemma tn_grows_record_one loss_key :
  always tn_grows
    (tn <- gets training_nets ;;
     if in_dec string_dec loss_key tn then ret tt
     else modify (set_training_nets (tn ++ [loss_key]))).
Proof.
  intros r. unfold bind, gets. cbn.
  destruct (in_dec string_dec loss_key (training_nets r)) as [i|n]; simpl.
  - reflexivity.
  - split; simpl.
    + now exists [loss_key].
    + intros ND. apply NoDup_app; [exact ND | repeat constructor; auto |].
      intros x Hx [<-|[]]. contradiction.
Qed.

Lemma tn_grows_record : always tn_grows record_training_nets.
Proof.
  unfold record_training_nets.
  apply (always_bind tn_grows); [frame | intros ls].
  apply (always_for_each tn_grows). intros k. apply tn_grows_record_one.
Qed.

Lemma grows_on_routine {A} key (m : M Routine A) :
  always tn_grows m -> always grows (on_routine key m).
Proof.
  apply (always_on_routine grows tn_grows). intros. eapply grows_put; eauto.
Qed.

(* ------------------------------------------------------------------ *)
(** ** What each phase of an iteration leaves alone *)

Ltac grows_leaf :=
  apply grows_on_routine;
  first [ apply tn_grows_reset | apply tn_grows_wire_required
        | apply tn_grows_wire_optional | apply tn_grows_apply_effect
        | apply tn_grows_record | frame ].

Ltac phase := cbv zeta; repeat (first [always_step | grows_leaf | frame_leaf]).

Section TraceFrames.
Variable P : Event -> bool.
Hypothesis HP : forall e, bookkeeping e = true -> P e = true.

Lemma trace_adds_data_next : always (trace_adds P) data_next.
Proof. unfold data_next. phase. Qed.

Lemma trace_adds_reset_routines : always (trace_adds P) reset_routines.
Proof. unfold reset_routines. phase. Qed.

Lemma trace_adds_enable key :
  always (trace_adds P) (enable_differentiation key).
Proof. unfold enable_differentiation, optimizer_for, require_grad. phase. Qed.

Lemma trace_adds_backprop key : always (trace_adds P) (backprop key).
Proof. unfold backprop, optimizer_for. phase. Qed.

Lemma trace_adds_populate key outputs :
  always (trace_adds P) (populate key outputs).
Proof. unfold populate. phase. Qed.

Lemma trace_adds_aggregate key : always (trace_adds P) (aggregate key).
Proof. unfold aggregate. phase. Qed.

Lemma trace_adds_seed : always (trace_adds P) seed_inputs.
Proof. unfold seed_inputs. phase. Qed.

(** Between the [EvCall] and the [EvReturn] of a call. *)
Lemma trace_adds_dispatch key kw r :
  (forall k w, P (EvRun k w) = true) ->
  always (trace_adds P)
    (match call_override r with
     | Some f => on_routine key (apply_effect (f kw (inputs r) (memory r)))
     | None => __call__ key kw
     end).
Proof. intros HR. unfold __call__, perform. phase. Qed.
End TraceFrames.

Lemma pool_same_data_next : always pool_same data_next.
Proof. unfold data_next. phase. Qed.

Lemma pool_same_enable key : always pool_same (enable_differentiation key).
Proof. unfold enable_differentiation, optimizer_for, require_grad. phase. Qed.

Lemma pool_same_backprop key : always pool_same (backprop key).
Proof. unfold backprop, optimizer_for. phase. Qed.

Lemma pool_same_call key u kwargs : always pool_same (call_routine key u kwargs).
Proof. unfold call_routine, __call__, perform. phase. Qed.

Lemma pool_same_check q key : always pool_same (check_bad_values q key).
Proof. unfold check_bad_values. phase. Qed.


Lemma grows_data_next : always grows data_next.
Proof. unfold data_next, emit. phase. Qed.

Lemma grows_reset_routines : always grows reset_routines.
Proof. unfold reset_routines. phase. Qed.

Lemma grows_enable key : always grows (enable_differentiation key).
Proof.
  unfold enable_differentiation, optimizer_for, require_grad, emit. phase.
Qed.

Lemma grows_backprop key : always grows (backprop key).
Proof. unfold backprop, optimizer_for, emit. phase. Qed.

Lemma grows_call key u kwargs : always grows (call_routine key u kwargs).
Proof. unfold call_routine, __call__, perform, emit. phase. Qed.

Lemma grows_populate key outputs : always grows (populate key outputs).
Proof. unfold populate. phase. Qed.

Lemma grows_check q key : always grows (check_bad_values q key).
Proof. unfold check_bad_values, emit. phase. Qed.

Lemma grows_aggregate key : always grows (aggregate key).
Proof. unfold aggregate. phase. Qed.

Lemma grows_seed : always grows seed_inputs.
Proof. unfold seed_inputs. phase. Qed.

Lemma grows_iteration q t key update u :
  always grows (iteration q t key update u).
Proof.
  unfold iteration, prepare, finish.
  repeat (first [ apply grows_data_next | apply grows_enable
                | apply grows_call | apply grows_backprop
                | apply grows_populate | apply grows_check
                | always_step | grows_leaf | frame_leaf ]).
Qed.

Lemma grows_run_procedure i q t : always grows (run_procedure i q t).
Proof.
  unfold run_procedure, scheduled.
  repeat (first [ apply grows_data_next | apply grows_reset_routines
                | apply grows_seed | apply grows_iteration
                | apply grows_aggregate
                | always_step | grows_leaf | frame_leaf ]).
Qed.

(* ------------------------------------------------------------------ *)
(** ** The trained-resource bookkeeping *)

Lemma record_one k r :
  (tn <- gets training_nets ;;
   if in_dec string_dec k tn then ret tt
   else modify (set_training_nets (tn ++ [k]))) r
  = if in_dec string_dec k (training_nets r) then (Ok tt, r)
    else (Ok tt, set_training_nets (training_nets r ++ [k]) r).
Proof.
  unfold bind, gets. cbn.
  destruct (in_dec string_dec k (training_nets r)); reflexivity.
Qed.

Lemma record_loop_adds l : forall r o r',
  for_each l (fun k =>
    tn <- gets training_nets ;;
    if in_dec string_dec k tn then ret tt
    else modify (set_training_nets (tn ++ [k]))) r = (o, r') ->
  losses r' = losses r /\
  incl (training_nets r) (training_nets r') /\
  (forall k, In k l -> In k (training_nets r')).
Proof.
  induction l as [|k l IH]; intros r o r' E.
  - simpl in E. inversion E; subst.
    repeat split; auto using incl_refl. intros k [].
  - simpl for_each in E. unfold bind at 1 in E. rewrite record_one in E.
    destruct (in_dec string_dec k (training_nets r)) as [i|n].
    + destruct (IH _ _ _ E) as (L & I & A).
      split; [exact L|]. split; [exact I|].
      intros k' [<-|Hk]; auto.
    + destruct (IH _ _ _ E) as (L & I & A).
      simpl in L, I. split; [exact L|]. split.
      * intros x Hx. apply I. apply in_or_app. now left.
      * intros k' [<-|Hk]; auto. apply I. apply in_or_app. right. now left.
Qed.

Lemma record_loop_noop l : forall r,
  (forall k, In k l -> In k (training_nets r)) ->
  for_each l (fun k =>
    tn <- gets training_nets ;;
    if in_dec string_dec k tn then ret tt
    else modify (set_training_nets (tn ++ [k]))) r = (Ok tt, r).
Proof.
  induction l as [|k l IH]; intros r H; simpl.
  - reflexivity.
  - unfold bind at 1. rewrite record_one.
    destruct (in_dec string_dec k (training_nets r)) as [i|n].
    + apply IH. intros; apply H; now right.
    + exfalso. apply n, H. now left.
Qed.

Lemma record_training_nets_adds r o r' :
  record_training_nets r = (o, r') ->
  losses r' = losses r /\
  (forall k, In k (keys (losses r)) -> In k (training_nets r')).
Proof.
  unfold record_training_nets. unfold bind at 1, gets at 1. intros E.
  destruct (record_loop_adds _ _ _ _ E) as (L & _ & A). auto.
Qed.

Lemma record_training_nets_idempotent r :
  record_training_nets (snd (record_training_nets r))
  = (Ok tt, snd (record_training_nets r)).
Proof.
  destruct (record_training_nets r) as [o r'] eqn:E.
  destruct (record_training_nets_adds _ _ _ E) as (L & A). simpl.
  unfold record_training_nets at 1. unfold bind at 1, gets at 1.
  rewrite L. now apply record_loop_noop.
Qed.

(** C6: the trained-resource list of every routine only grows.  After one
    scheduler step, and after any sequence of steps, however each of them
    ended, every routine instance is still there and its [training_nets]
    is the old list followed by new entries, free of duplicates when the
    old list was; [reset] does not touch the list; every key of the
    routine's losses is in the list after lines 412-414, and running those
    lines again changes nothing. *)
Theorem trained_resources_only_grow :
  (forall i quit_on_bad_values train s,
      grows s (snd (run_procedure i quit_on_bad_values train s))) /\
  (forall steps s, grows s (run_steps steps s)) /\
  (forall r, training_nets (snd (reset r)) = training_nets r) /\
  (forall s, grows s (snd (reset_routines s))) /\
  (forall r k, In k (keys (losses r)) ->
               In k (training_nets (snd (record_training_nets r)))) /\
  (forall r, record_training_nets (snd (record_training_nets r))
             = (Ok tt, snd (record_training_nets r))).
Proof.
  split; [intros; apply grows_run_procedure|].
  split.
  { intros steps. unfold run_steps.
    induction steps as [|[[i q] t] steps IH]; intros s; simpl.
    - reflexivity.
    - etransitivity; [apply (grows_run_procedure i q t s) | apply IH]. }
  split; [reflexivity|].
  split; [apply grows_reset_routines|].
  split.
  { intros r k. destruct (record_training_nets r) as [o r'] eqn:E.
    apply (record_training_nets_adds _ _ _ E). }
  apply record_training_nets_idempotent.
Qed.

(* ------------------------------------------------------------------ *)
(** ** How often a routine is called *)

#[global] Instance procs_same_preorder : PreOrder procs_same.
Proof. split; unfold procs_same; congruence. Qed.

Lemma procs_same_on_routine {A} key (m : M Routine A) :
  always procs_same (on_routine key m).
Proof.
  apply (always_on_routine procs_same (fun _ _ => True)).
  - intros. reflexivity.
  - intros r. exact I.
Qed.

Lemma procs_same_prelude :
  always procs_same
    (modify (set_local_routine None) ;; data_next ;; reset_routines ;;
     modify (set_inputs [])).
Proof.
  unfold data_next, reset_routines, emit.
  repeat (first [always_step | apply procs_same_on_routine | frame_leaf]).
Qed.


Lemma calls_of_app a b : calls_of (a ++ b) = calls_of a ++ calls_of b.
Proof. unfold calls_of. apply flat_map_app. Qed.

Lemma calls_of_quiet t : forallb not_call t = true -> calls_of t = [].
Proof.
  induction t as [|e t IH]; simpl; auto.
  intros H. apply andb_true_iff in H. destruct H as [He Ht].
  destruct e; simpl in *; auto; discriminate.
Qed.

Lemma calls_same s s' :
  trace_adds not_call s s' -> calls_of (trace s') = calls_of (trace s).
Proof.
  intros (t & E & F). rewrite E, calls_of_app, (calls_of_quiet _ F).
  apply app_nil_r.
Qed.

Lemma bookkeeping_not_call e : bookkeeping e = true -> not_call e = true.
Proof. destruct e; simpl; auto. Qed.

Ltac peel H a s1 H1 :=
  apply bind_inv_ok in H; destruct H as (a & s1 & H1 & H).

(** From a relation every exit respects to the two states of one run. *)
Lemma always_at {S A} (R : S -> S -> Prop) (m : M S A) s o s' :
  always R m -> m s = (o, s') -> R s s'.
Proof. intros H E. specialize (H s). now rewrite E in H. Qed.

Lemma trace_adds_check P q key :
  (forall b a, P (EvPrint b a) = true) ->
  always (trace_adds P) (check_bad_values q key).
Proof. intros HP. unfold check_bad_values. phase. Qed.

Lemma trace_adds_check_lenient P key :
  always (trace_adds P) (check_bad_values false key).
Proof.
  unfold check_bad_values.
  apply (always_bind (trace_adds P)); [frame|intros r].
  cbv zeta. rewrite andb_false_r. frame.
Qed.

Section IterationFrames.
Variable P : Event -> bool.
Hypothesis HP : forall e, bookkeeping e = true -> P e = true.

Lemma trace_adds_prepare train key u :
  always (trace_adds P) (prepare train key u).
Proof.
  unfold prepare.
  repeat (first [ apply (trace_adds_data_next P HP)
                | apply (trace_adds_enable P HP)
                | always_step | frame_leaf ]).
Qed.

Lemma trace_adds_finish q train key update u outputs :
  (q = true -> forall b a, P (EvPrint b a) = true) ->
  always (trace_adds P) (finish q train key update u outputs).
Proof.
  intros Hq. unfold finish.
  repeat (first [ apply (trace_adds_backprop P HP)
                | apply (trace_adds_populate P)
                | always_step | frame_leaf ]).
  destruct q.
  - apply trace_adds_check; auto.
  - apply trace_adds_check_lenient.
Qed.
End IterationFrames.


Lemma range_length n : List.length (range n) = Z.to_nat n.
Proof. unfold range. now rewrite length_map, length_seq. Qed.

Lemma calls_within_silent {A} (m : M State A) :
  always (trace_adds not_call) m -> calls_within [] m.
Proof.
  intros H s. exists []. rewrite (calls_same _ _ (H s)), app_nil_r.
  split; [reflexivity|]. split; [now exists [] | reflexivity].
Qed.

Lemma calls_within_bind L1 L2 {A B} (m : M State A) (f : A -> M State B) :
  calls_within L1 m -> (forall a, calls_within L2 (f a)) ->
  calls_within (L1 ++ L2) (bind m f).
Proof.
  intros Hm Hf s. destruct (Hm s) as (c1 & E1 & (r1 & P1) & O1).
  unfold bind. destruct (m s) as [[a|e] s1]; simpl in *.
  - destruct (Hf a s1) as (c2 & E2 & (r2 & P2) & O2).
    rewrite (O1 a eq_refl) in E1. exists (L1 ++ c2).
    rewrite E2, E1, <- app_assoc. split; [reflexivity|]. split.
    + exists r2. now rewrite P2, <- app_assoc.
    + intros b Hb. now rewrite (O2 b Hb).
  - exists c1. split; [exact E1|]. split; [|discriminate].
    exists (r1 ++ L2). now rewrite P1, <- app_assoc.
Qed.

Lemma calls_within_for_each {A} (g : A -> list string) (l : list A)
    (f : A -> M State unit) :
  (forall x, calls_within (g x) (f x)) ->
  calls_within (flat_map g l) (for_each l f).
Proof.
  intros Hf. induction l as [|x l IH]; simpl.
  - apply calls_within_silent. apply (always_ret (trace_adds not_call)).
  - apply calls_within_bind; auto.
Qed.

Lemma calls_within_emit key u kwargs :
  calls_within [key] (emit (EvCall key u kwargs)).
Proof.
  intros s. exists [key]. simpl. rewrite calls_of_app. simpl.
  split; [reflexivity|]. split; [now exists [] | reflexivity].
Qed.

Lemma calls_within_call key u kwargs :
  calls_within [key] (call_routine key u kwargs).
Proof.
  unfold call_routine.
  apply (calls_within_bind [key] []); [apply calls_within_emit | intros _].
  apply calls_within_silent.
  repeat (first [ apply (trace_adds_dispatch not_call); reflexivity
                | always_step | frame_leaf ]).
Qed.

Lemma calls_within_iteration q train key update u :
  calls_within [key] (iteration q train key update u).
Proof.
  unfold iteration.
  apply (calls_within_bind [] [key]).
  { apply calls_within_silent.
    apply (trace_adds_prepare not_call bookkeeping_not_call). }
  intros kwargs. apply (calls_within_bind [key] []).
  { apply calls_within_call. }
  intros outputs. apply calls_within_silent.
  apply (trace_adds_finish not_call bookkeeping_not_call). reflexivity.
Qed.

Lemma flat_map_constant {A} (x : string) (l : list A) :
  flat_map (fun _ => [x]) l = repeat x (List.length l).
Proof. induction l; simpl; congruence. Qed.

Lemma calls_within_scheduled q train ku :
  calls_within (repeat (fst ku) (times train (snd ku))) (scheduled q train ku).
Proof.
  destruct ku as [key update]. unfold scheduled. cbn [fst snd].
  replace (repeat key (times train update))
    with (flat_map (fun _ : Z => [key])
                   (range (if train then update else 1%Z)) ++ []).
  - apply calls_within_bind.
    + apply calls_within_for_each. intros u. apply calls_within_iteration.
    + intros _. apply calls_within_silent.
      apply (trace_adds_aggregate not_call).
  - rewrite app_nil_r, flat_map_constant, range_length. unfold times.
    now destruct train.
Qed.

Lemma calls_within_schedule q train l :
  calls_within (expected_calls train l) (for_each l (scheduled q train)).
Proof.
  apply (calls_within_for_each
           (fun ku => repeat (fst ku) (times train (snd ku)))).
  intros ku. apply calls_within_scheduled.
Qed.

(** The part of [run_procedure] before the schedule is read neither calls
    a routine nor changes the schedule. *)
Lemma prelude_frame s o s4 :
  (modify (set_local_routine None) ;; data_next ;; reset_routines ;;
   modify (set_inputs [])) s = (o, s4) ->
  procs_same s s4 /\ trace_adds bookkeeping s s4.
Proof.
  intros H. split.
  - eapply always_at; [|exact H]. apply procs_same_prelude.
  - eapply always_at; [|exact H].
    repeat (first [ apply (trace_adds_data_next bookkeeping)
                  | apply (trace_adds_reset_routines bookkeeping)
                  | always_step | frame_leaf ]); auto.
Qed.

(** [run_procedure] with its prelude set apart. *)
Lemma run_procedure_unfold i q train s :
  run_procedure i q train s =
  ((modify (set_local_routine None) ;; data_next ;; reset_routines ;;
    modify (set_inputs [])) ;;
   ps <- gets (fun s => _train_procedures (self s)) ;;
   match nth_error ps i with
   | None => raise IndexError
   | Some (mode, procedure, updates) =>
       seed_inputs ;;
       for_each (combine procedure updates) (scheduled q train)
   end) s.
Proof.
  unfold run_procedure, bind.
  destruct (modify (set_local_routine None) s) as [[x1|e1] s1];
    [|reflexivity].
  destruct (data_next s1) as [[x2|e2] s2]; [|reflexivity].
  destruct (reset_routines s2) as [[x3|e3] s3]; [|reflexivity].
  destruct (modify (set_inputs []) s3) as [[x4|e4] s4]; reflexivity.
Qed.

Lemma trace_adds_weaken (P Q : Event -> bool) s s' :
  (forall e, P e = true -> Q e = true) ->
  trace_adds P s s' -> trace_adds Q s s'.
Proof.
  intros HPQ (t & E & F). exists t. split; [exact E|].
  rewrite forallb_forall in *. auto.
Qed.

(** C1: the routines a step calls are, pair by pair of the schedule, the
    pair's routine as many times as the loop over [range(update)] runs:
    once when [train] is false, whatever the configured repeat-count, and
    the configured repeat-count when [train] is true (a repeat-count below
    zero runs the loop no time, as [range] is empty then).  A step that
    returns has made exactly these calls; a step that raises has made the
    first ones of them and no other. *)
Theorem repeat_count i q train s mode procedure updates :
  nth_error (_train_procedures (self s)) i = Some (mode, procedure, updates) ->
  (exists c,
      calls_of (trace (snd (run_procedure i q train s)))
      = calls_of (trace s) ++ c /\
      (exists rest,
          expected_calls train (combine procedure updates) = c ++ rest) /\
      (fst (run_procedure i q train s) = Ok tt ->
       c = expected_calls train (combine procedure updates))) /\
  (forall update, times false update = 1%nat) /\
  (forall update, (0 <= update)%Z -> Z.of_nat (times true update) = update).
Proof.
  intros Hp. split; [|split; [reflexivity | intros u Hu; apply Z2Nat.id, Hu]].
  destruct ((modify (set_local_routine None) ;; data_next ;; reset_routines ;;
             modify (set_inputs [])) s) as [[x|e] s4] eqn:E4.
  - destruct (prelude_frame _ _ _ E4) as [Pr Tr].
    apply (trace_adds_weaken _ _ _ _ bookkeeping_not_call), calls_same in Tr.
    assert (R : run_procedure i q train s =
                (seed_inputs ;;
                 for_each (combine procedure updates) (scheduled q train)) s4).
    { rewrite run_procedure_unfold, (bind_ok _ _ _ _ _ E4).
      unfold bind at 1, gets at 1. now rewrite Pr, Hp. }
    rewrite R.
    destruct (calls_within_bind [] (expected_calls train
                                      (combine procedure updates))
                seed_inputs
                (fun _ => for_each (combine procedure updates)
                                   (scheduled q train))
                (calls_within_silent _ (trace_adds_seed not_call))
                (fun _ => calls_within_schedule q train _) s4)
      as (c & Ec & Pc & Oc).
    exists c. rewrite Ec, Tr. split; [reflexivity|]. split; [exact Pc|].
    intros H. exact (Oc tt H).
  - assert (R : run_procedure i q train s = (Raise e, s4)).
    { now rewrite run_procedure_unfold, (bind_raise _ _ _ _ _ E4). }
    rewrite R. exists []. simpl. split; [|split; [eauto | discriminate]].
    rewrite app_nil_r. apply calls_same.
    apply (trace_adds_weaken _ _ _ _ bookkeeping_not_call).
    apply (prelude_frame _ _ _ E4).
Qed.

(** C1 on the counting routine with repeat-count 3: three calls when
    training, one when evaluating. *)
Lemma repeat_count_witness :
  calls_of (trace (snd (run_procedure 0 false true (counter_state 3))))
  = ["main"; "main"; "main"] /\
  calls_of (trace (snd (run_procedure 0 false false (counter_state 3))))
  = ["main"].
Proof.
  split.
  - destruct (repeat_count 0 false true (counter_state 3)
                "train" ["main"] [3%Z] eq_refl) as ((c & E & _ & O) & _).
    rewrite E, (O ltac:(vm_compute; reflexivity)). reflexivity.
  - destruct (repeat_count 0 false false (counter_state 3)
                "train" ["main"] [3%Z] eq_refl) as ((c & E & _ & O) & _).
    rewrite E, (O ltac:(vm_compute; reflexivity)). reflexivity.
Defined.

(* ------------------------------------------------------------------ *)
(** ** Outputs and the ValuePool *)








Lemma pool_same_prepare train key u : always pool_same (prepare train key u).
Proof.
  unfold prepare.
  repeat (first [ apply pool_same_data_next | apply pool_same_enable
                | always_step | frame_leaf ]).
Qed.











(* ------------------------------------------------------------------ *)
(** ** Input wiring *)















(* ------------------------------------------------------------------ *)
(** ** Which exceptions a computation can raise *)

Section Raises.
Context {S : Type} (E : Exc -> bool).









End Raises.

















(* ------------------------------------------------------------------ *)
(** ** The anomaly check *)

Section WholeStepFrames.
Variable P : Event -> bool.
Hypothesis HP : forall e, bookkeeping e = true -> P e = true.
Hypothesis HC : forall k u w, P (EvCall k u w) = true.
Hypothesis HR : forall k w, P (EvRun k w) = true.
Hypothesis HT : forall k u o, P (EvReturn k u o) = true.



End WholeStepFrames.




Lemma on_routine_read key s r :
  dict_get key (_routines (self s)) = Some (RoutineInst r) ->
  on_routine key (gets (fun r => r)) s = (Ok r, put_routine key r s).
Proof. intros E. unfold on_routine. now rewrite E. Qed.













(* ------------------------------------------------------------------ *)
(** ** Batches fetched inside the repeat loop *)

#[global] Instance pool_keeps_preorder : PreOrder pool_keeps.
Proof. split; unfold pool_keeps; auto. Qed.

Lemma always_weaken {S A} (R R' : S -> S -> Prop) (m : M S A) :
  (forall s s', R s s' -> R' s s') -> always R m -> always R' m.
Proof. intros H Hm s. apply H, Hm. Qed.

Lemma pool_same_keeps s s' : pool_same s s' -> pool_keeps s s'.
Proof. unfold pool_same, pool_keeps. intros ->. auto. Qed.

Lemma pool_keeps_populate key outputs :
  always pool_keeps (populate key outputs).
Proof.
  unfold populate. destruct outputs as [|outs].
  - apply (always_raise pool_keeps).
  - apply (always_for_each pool_keeps). intros kv s.
    unfold bind, gets. cbv beta iota. cbn [fst snd].
    destruct (dict_mem (key ++ "." ++ fst kv)%string (local_inputs s)) eqn:Hm.
    + reflexivity.
    + intros k t Hk. unfold modify. cbn [snd local_inputs set_inputs].
      rewrite dict_get_set_other; [exact Hk|].
      intros ->. rewrite (dict_mem_false_get _ _ Hm) in Hk. discriminate.
Qed.

(** Whatever an iteration does, and whichever batch it fetched, the
    entries already in the ValuePool, those seeded from the first batch
    among them, are as before. *)
Lemma pool_keeps_iteration q train key update u :
  always pool_keeps (iteration q train key update u).
Proof.
  unfold iteration, finish.
  repeat (first
    [ apply pool_keeps_populate
    | apply (always_weaken pool_same pool_keeps _ pool_same_keeps);
      first [ apply pool_same_prepare | apply pool_same_call
            | apply pool_same_backprop | apply pool_same_check
            | apply pool_same_on_routine ]
    | always_step ]).
Qed.

(** C7, at the failing input: the counting routine with repeat-count 2 in
    training mode.  The step returns; [next()] ran twice, so the current
    batch is number 2 with [x = 2]; the ValuePool entry ["data.x"] still
    holds the value of batch 1, and that is what the second iteration wired
    to the routine's input. *)
Theorem refetch_leaves_data_entries :
  fst (run_procedure 0 false true (counter_state 2)) = Ok tt /\
  filter (fun e => match e with EvNext => true | _ => false end)
         (trace (snd (run_procedure 0 false true (counter_state 2))))
  = [EvNext; EvNext] /\
  batch (DATA_HANDLER (snd (run_procedure 0 false true (counter_state 2))))
  = [("x", tensor 2)] /\
  local_inputs (snd (run_procedure 0 false true (counter_state 2)))
  = [("data.x", tensor 1); ("main.z", mkTensor (Finite 2) false)] /\
  (exists r,
      routine_at "main" (snd (run_procedure 0 false true (counter_state 2)))
      = Some r /\
      dict_get "x" (inputs r) = Some (WValue (tensor 1))).
Proof.
  split; [vm_compute; reflexivity|].
  split; [vm_compute; reflexivity|].
  split; [vm_compute; reflexivity|].
  split; [vm_compute; reflexivity|].
  eexists. split; vm_compute; reflexivity.
Qed.

(** The same with a routine that inherits [__call__]: the second iteration
    has fetched batch 2 and wired the [x] of batch 1 before the step ends
    on the [None] the inherited call returned. *)
Example refetch_with_inherited_call :
  batch (DATA_HANDLER (snd (run_procedure 0 false true reader_state)))
  = [("x", tensor 2)] /\
  (exists r,
      routine_at "main" (snd (run_procedure 0 false true reader_state))
      = Some r /\
      inputs r = [("x", WValue (tensor 1))]) /\
  fst (run_procedure 0 false true reader_state)
  = Raise (AttributeError "items").
Proof.
  split; [vm_compute; reflexivity|].
  split; [eexists; split; vm_compute; reflexivity|].
  vm_compute; reflexivity.
Qed.

(* ------------------------------------------------------------------ *)
(** ** The inherited call *)

Lemma inherited_call_keyword key k v kw s :
  __call__ key ((k, v) :: kw) s = (Raise (TypeError_unexpected_keyword k), s).
Proof. reflexivity. Qed.

(** [perform] has no [return], so the inherited call yields [None]. *)
Lemma inherited_call_returns_none key kw s o s' :
  __call__ key kw s = (Ok o, s') -> o = RetNone.
Proof.
  unfold __call__, perform. destruct kw as [|[k v] kw]; [|discriminate].
  intros H. peel H r s1 H1. destruct (run r) as [f|]; [|discriminate].
  peel H kw' s2 H2. peel H x3 s3 H3. peel H x4 s4 H4.
  unfold ret in H. now inversion H.
Qed.

(** C4, at the failing input: a routine that defines [run] and inherits
    [__call__], scheduled once.  With the per-routine kwargs [{lr: 1}] the
    call [routine( **kwargs )] raises [TypeError] for the keyword [lr] and
    [run] is never entered.  With empty per-routine kwargs the call goes
    through, [run] is entered with the whole [_kwargs] table of the
    composition as its keyword arguments, and the call yields [None], on
    which populating the ValuePool raises [AttributeError]. *)
Theorem inherited_call_rejects_kwargs :
  fst (run_procedure 0 false false (plain_state [("lr", PyInt 1)]))
  = Raise (TypeError_unexpected_keyword "lr") /\
  trace (snd (run_procedure 0 false false (plain_state [("lr", PyInt 1)])))
  = [EvNext; EvCall "main" 0 (PyMap [("lr", PyInt 1)])] /\
  fst (run_procedure 0 false false (plain_state []))
  = Raise (AttributeError "items") /\
  trace (snd (run_procedure 0 false false (plain_state [])))
  = [EvNext; EvCall "main" 0 (PyMap []);
     EvRun "main" [("main", PyMap [])]; EvReturn "main" 0 RetNone].
Proof. repeat split. Qed.

(* ------------------------------------------------------------------ *)
(** ** Instances *)


Example viewer_image_missing :
  fst (wire_required first_pool viewer)
  = Raise (KeyError_not_found (SendKey "image") ["data.x"]) /\
  fst (run_procedure 0 false false viewer_state)
  = Raise (KeyError_not_found (SendKey "image") ["data.x"]).
Proof. split; reflexivity. Qed.

Example pairing_is_ordered :
  inputs (snd (wire_required later_pool pairing))
  = [("pair", WList [mkTensor (Finite 3) false; tensor 1])].
Proof. reflexivity. Qed.

(** C6 on the counting model, three training iterations, and on a routine
    that holds a loss for ["enc"]. *)
Lemma trained_resources_only_grow_witness :
  grows (counter_state 3) (snd (run_procedure 0 false true (counter_state 3)))
  /\ In "enc" (training_nets (snd (record_training_nets trained))).
Proof.
  destruct trained_resources_only_grow as (A & _ & _ & _ & E & _).
  split.
  - apply (A 0%nat false true (counter_state 3)).
  - apply (E trained "enc"). left. reflexivity.
Defined.

Example trained_gets_enc :
  training_nets (snd (record_training_nets trained)) = ["dec"; "enc"] /\
  training_nets (snd (reset (snd (record_training_nets trained))))
  = ["dec"; "enc"].
Proof. split; reflexivity. Qed.

(* ================================================================== *)
(** * Further properties *)

(* ------------------------------------------------------------------ *)
(** ** The checks of a plugin *)

Lemma dict_set_same_value {K V} `{EqDec K} (k : K) (v : V) d :
  dict_get k d = Some v -> dict_set k v d = d.
Proof.
  induction d as [|[k' v'] d IH]; simpl; [discriminate|].
  destruct (eq_dec k k') as [->|n].
  - now intros [= ->].
  - intros E. now rewrite IH.
Qed.

Lemma setattr_getattr_id p k :
  getattr p k <> PyNone -> setattr p k (getattr p k) = p.
Proof.
  unfold setattr, getattr. destruct p as [n pr rq at_]. simpl.
  destruct (string_dec k "plugin_name") as [->|ne].
  - destruct n; simpl; [reflexivity | congruence].
  - destruct (dict_get k at_) eqn:G; [|congruence].
    intros _. now rewrite (dict_set_same_value _ _ _ G).
Qed.

Lemma check_protected_verdict p :
  check_protected p =
  (match find (hasattr p) (_protected p) with
   | Some k => Raise (AttributeError_protected k)
   | None => Ok tt
   end, p).
Proof.
  unfold check_protected, bind at 1, gets at 1.
  induction (_protected p) as [|k l IH]; [reflexivity|].
  cbn [for_each find]. unfold bind at 1, bind at 1, gets at 1, when.
  destruct (hasattr p k); [reflexivity|]. exact IH.
Qed.

Lemma check_required_verdict p :
  check_required p =
  (match find (fun k => is_PyNone (getattr p k)) (_required p) with
   | Some k => Raise (AttributeError_required k)
   | None => Ok tt
   end, p).
Proof.
  unfold check_required, bind at 1, gets at 1.
  induction (_required p) as [|k l IH]; [reflexivity|].
  cbn [for_each find]. unfold bind at 1, bind at 1, gets at 1.
  destruct (getattr p k) eqn:G; cbn [is_PyNone]; [reflexivity| | |];
    unfold modify; rewrite <- G;
    (rewrite setattr_getattr_id by congruence); exact IH.
Qed.

Lemma check_plugin_eq V ts (D : dict (option string) V) p :
  check_plugin ts D p = (check_plugin_verdict ts D p, p).
Proof.
  unfold check_plugin, check_plugin_verdict.
  destruct (dict_mem (plugin_name p) D) eqn:Hm.
  - now apply check_plugin_duplicate.
  - assert (Hn : check_name ts D p = (Ok tt, p)).
    { unfold check_name, bind, gets, when, ret. cbn.
      destruct (is_None (plugin_name p)); rewrite Hm; reflexivity. }
    rewrite (bind_ok _ _ _ _ _ Hn).
    unfold bind. rewrite check_protected_verdict.
    destruct (find (hasattr p) (_protected p)); [reflexivity|].
    apply check_required_verdict.
Qed.


Lemma getattr_setattr_same p k v :
  k <> "plugin_name" -> getattr (setattr p k v) k = v.
Proof.
  intros n. unfold getattr, setattr.
  destruct (string_dec k "plugin_name"); [contradiction|].
  simpl. now rewrite dict_get_set_same.
Qed.

Lemma getattr_setattr_other p k v a :
  a <> k -> k <> "plugin_name" -> getattr (setattr p k v) a = getattr p a.
Proof.
  intros n nk. unfold getattr, setattr.
  destruct (string_dec k "plugin_name"); [contradiction|].
  destruct (string_dec a "plugin_name"); [reflexivity|].
  simpl. now rewrite dict_get_set_other.
Qed.

Lemma plugin_name_setattr p k v :
  k <> "plugin_name" -> plugin_name (setattr p k v) = plugin_name p.
Proof.
  intros n. unfold setattr.
  destruct (string_dec k "plugin_name"); [contradiction|reflexivity].
Qed.

Lemma attribute_present p k :
  hasattr p k = true -> attribute p k = Ok (getattr p k).
Proof. unfold attribute. now intros ->. Qed.

Lemma attribute_absent p k :
  hasattr p k = false -> attribute p k = Raise (AttributeError k).
Proof. unfold attribute. now intros ->. Qed.

Lemma on_object_check_plugin V ts (D : dict (option string) V) p (reg : Registry) :
  on_object p (check_plugin ts D) reg =
  (match check_plugin_verdict ts D p with
   | Ok _ => Ok p
   | Raise e => Raise e
   end, reg).
Proof.
  unfold on_object. rewrite check_plugin_eq.
  now destruct (check_plugin_verdict ts D p) as [[]|e].
Qed.
Section RegistrationRoundTrip.
Variable parse_docstring : PyVal -> PyVal.
Variable parse_kwargs : PyVal -> PyVal.
Variable parse_header : ModelPluginBase -> PyVal * PyVal.

(** The plugin as [register_build] and [register_routine] store it. *)
Lemma register_build_eq plugin reg :
  check_plugin_verdict "build" (_BUILD_PLUGINS reg) plugin = Ok tt ->
  hasattr plugin "build" = true ->
  register_build parse_docstring parse_kwargs plugin reg =
  (Ok tt,
   mkRegistry (_ROUTINE_PLUGINS reg)
     (dict_set (plugin_name plugin)
        (setattr (setattr plugin "plugin_help"
                          (parse_docstring (getattr plugin "build")))
                 "plugin_kwargs" (parse_kwargs (getattr plugin "build")))
        (_BUILD_PLUGINS reg))
     (MODEL_PLUGINS reg) (logged reg)).
Proof.
  intros Hv Hb. unfold register_build.
  unfold bind at 1, gets at 1. unfold bind at 1.
  rewrite on_object_check_plugin, Hv.
  unfold bind at 1, lift. rewrite (attribute_present _ _ Hb).
  unfold modify. cbv zeta.
  rewrite !plugin_name_setattr by discriminate. reflexivity.
Qed.


Lemma verdict_fresh_name V ts (D : dict (option string) V) p :
  check_plugin_verdict ts D p = Ok tt -> dict_mem (plugin_name p) D = false.
Proof.
  unfold check_plugin_verdict.
  destruct (dict_mem (plugin_name p) D); [discriminate | reflexivity].
Qed.

Lemma keys_dict_set_fresh {K V} `{EqDec K} (k : K) (v : V) (d : dict K V) :
  dict_mem k d = false -> keys (dict_set k v d) = keys d ++ [k].
Proof.
  intros Hm. rewrite (dict_set_fresh _ _ _ Hm). unfold keys.
  now rewrite map_app.
Qed.

(** X2. A build plugin that passes the checks and has a [build] attribute
    is stored under its name: looking the name up gives the plugin with
    [plugin_help] and [plugin_kwargs] set from [build] and every other
    attribute, and its two lists, as they were.  The build table gains
    that one name, at its end; no other table gains or loses a name, and
    nothing is logged. *)
Theorem register_build_stores plugin reg :
  check_plugin_verdict "build" (_BUILD_PLUGINS reg) plugin = Ok tt ->
  hasattr plugin "build" = true ->
  exists stored reg',
    register_build parse_docstring parse_kwargs plugin reg = (Ok tt, reg') /\
    dict_get (plugin_name plugin) (_BUILD_PLUGINS reg') = Some stored /\
    plugin_name stored = plugin_name plugin /\
    _protected stored = _protected plugin /\
    _required stored = _required plugin /\
    getattr stored "plugin_help" = parse_docstring (getattr plugin "build") /\
    getattr stored "plugin_kwargs" = parse_kwargs (getattr plugin "build") /\
    (forall a, a <> "plugin_help" -> a <> "plugin_kwargs" ->
               getattr stored a = getattr plugin a) /\
    keys (_BUILD_PLUGINS reg') =
      keys (_BUILD_PLUGINS reg) ++ [plugin_name plugin] /\
    keys (_ROUTINE_PLUGINS reg') = keys (_ROUTINE_PLUGINS reg) /\
    keys (MODEL_PLUGINS reg') = keys (MODEL_PLUGINS reg) /\
    logged reg' = logged reg.
Proof.
  intros Hv Hb. eexists. eexists.
  split; [apply (register_build_eq _ _ Hv Hb)|]. cbn [_BUILD_PLUGINS
    _ROUTINE_PLUGINS MODEL_PLUGINS logged].
  split; [apply dict_get_set_same|].
  split; [now rewrite !plugin_name_setattr by discriminate|].
  split; [reflexivity|]. split; [reflexivity|].
  split.
  { rewrite getattr_setattr_other by discriminate.
    now apply getattr_setattr_same. }
  split; [now apply getattr_setattr_same|].
  split.
  { intros a n1 n2. now rewrite !getattr_setattr_other by (auto; discriminate). }
  split; [|auto].
  apply keys_dict_set_fresh. exact (verdict_fresh_name _ _ _ _ Hv).
Qed.

(** X3. Registering a routine plugin and then another one of the same name:
    the second registration raises the duplicate-name error and leaves the
    registry as the first one made it. *)
Theorem register_routine_twice first second reg reg1 :
  register_routine parse_docstring parse_kwargs first reg = (Ok tt, reg1) ->
  plugin_name second = plugin_name first ->
  register_routine parse_docstring parse_kwargs second reg1 =
  (Raise (KeyError_already_registered "routine" (plugin_name second)), reg1).
Proof.
  intros H1 Hn. apply register_routine_duplicate.
  revert H1. unfold register_routine.
  unfold bind at 1, gets at 1. unfold bind at 1.
  rewrite on_object_check_plugin.
  destruct (check_plugin_verdict "routine" (_ROUTINE_PLUGINS reg) first)
    as [[]|e]; [|discriminate].
  unfold bind at 1, lift.
  destruct (attribute first "run") as [f|e]; [|discriminate].
  unfold modify. cbv zeta. intros [= <-]. cbn [_ROUTINE_PLUGINS].
  rewrite ?plugin_name_setattr by discriminate. rewrite Hn.
  unfold dict_mem. now rewrite dict_get_set_same.
Qed.

(** X4. A plugin that passes the checks but lacks its entry point ([build]
    for a build plugin, [run] for a routine plugin) is not registered: the
    attribute access of lines 57 and 67 raises [AttributeError] and the
    registry is unchanged. *)
Theorem register_without_entry_point plugin reg :
  (check_plugin_verdict "build" (_BUILD_PLUGINS reg) plugin = Ok tt ->
   hasattr plugin "build" = false ->
   register_build parse_docstring parse_kwargs plugin reg =
   (Raise (AttributeError "build"), reg)) /\
  (check_plugin_verdict "routine" (_ROUTINE_PLUGINS reg) plugin = Ok tt ->
   hasattr plugin "run" = false ->
   register_routine parse_docstring parse_kwargs plugin reg =
   (Raise (AttributeError "run"), reg)).
Proof.
  split; intros Hv Hb.
  - unfold register_build.
    unfold bind at 1, gets at 1. unfold bind at 1.
    rewrite on_object_check_plugin, Hv.
    unfold bind at 1, lift. now rewrite (attribute_absent _ _ Hb).
  - unfold register_routine.
    unfold bind at 1, gets at 1. unfold bind at 1.
    rewrite on_object_check_plugin, Hv.
    unfold bind at 1, lift. now rewrite (attribute_absent _ _ Hb).
Qed.
End RegistrationRoundTrip.
(* ------------------------------------------------------------------ *)
(** ** Default values of a composition *)

Lemma dict_get_app {K V} `{EqDec K} (k : K) (a b : dict K V) :
  dict_get k (a ++ b) =
  match dict_get k a with Some v => Some v | None => dict_get k b end.
Proof.
  induction a as [|[k' v'] a IH]; simpl; [reflexivity|].
  now destruct (eq_dec k k').
Qed.

Lemma dict_get_In {K V} `{EqDec K} (k : K) (d : dict K V) :
  In k (keys d) -> exists v, dict_get k d = Some v.
Proof.
  induction d as [|[k' v'] d IH]; simpl; [contradiction|].
  intros [E|Hin]; destruct (eq_dec k k'); eauto; simpl in *; congruence.
Qed.

Lemma add_each_defaults aliases l : forall m reg,
  exists m' reg',
    add_each aliases l m reg = (Ok m', reg') /\
    same_stages m m' /\
    forall c, dict_get c (_kwargs m') =
      match dict_get c (_kwargs m) with
      | Some v => Some v
      | None => dict_get c (map (fun kv => (resolve_alias aliases (fst kv), snd kv)) l)
      end.
Proof.
  induction l as [|[k v] l IH]; intros m reg.
  - exists m, reg. split; [reflexivity|]. split; [now repeat split|].
    intros c. simpl. now destruct (dict_get c (_kwargs m)).
  - cbn [add_each]. cbv zeta.
    destruct (dict_get (resolve_alias aliases k) (_kwargs m)) as [kept|] eqn:G.
    + unfold bind at 1, warning, modify.
      destruct (IH m (mkRegistry (_ROUTINE_PLUGINS reg) (_BUILD_PLUGINS reg)
                        (MODEL_PLUGINS reg)
                        (logged reg ++ [Warning_multiple_defaults k kept])))
        as (m' & reg' & E & S & L).
      exists m', reg'. split; [exact E|]. split; [exact S|].
      intros c. rewrite L. cbn [map dict_get fst snd].
      destruct (dict_get c (_kwargs m)) eqn:Gc; [reflexivity|].
      destruct (eq_dec c (resolve_alias aliases k)) as [->|n];
        [congruence | reflexivity].
    + destruct (IH (with_kwargs (dict_set (resolve_alias aliases k) v (_kwargs m)) m) reg)
        as (m' & reg' & E & S & L).
      exists m', reg'. split; [exact E|]. split.
      { destruct S as (S1 & S2 & S3 & S4 & S5 & S6 & S7). now repeat split. }
      intros c. rewrite L. cbn [with_kwargs _kwargs map dict_get fst snd].
      destruct (eq_dec c (resolve_alias aliases k)) as [->|n].
      * now rewrite dict_get_set_same, G.
      * now rewrite dict_get_set_other by auto.
Qed.

Lemma same_stages_trans m1 m2 m3 :
  same_stages m1 m2 -> same_stages m2 m3 -> same_stages m1 m3.
Proof.
  unfold same_stages. intros (A1 & A2 & A3 & A4 & A5 & A6 & A7)
    (B1 & B2 & B3 & B4 & B5 & B6 & B7). repeat split; congruence.
Qed.

Lemma fold_objects_app l1 l2 m reg :
  fold_objects (l1 ++ l2) m reg =
  (m1 <- fold_objects l1 m ;; fold_objects l2 m1) reg.
Proof.
  revert m reg. induction l1 as [|o l1 IH]; intros m reg; [reflexivity|].
  cbn [app fold_objects]. unfold bind.
  destruct (add_kwargs o m reg) as [[m1|e] reg1]; [|reflexivity].
  rewrite IH. reflexivity.
Qed.

Lemma set_kwargs_fold m : forall reg,
  _set_kwargs m reg = fold_objects (stages m) m reg.
Proof.
  intros reg. unfold _set_kwargs, stages. now rewrite fold_objects_app.
Qed.

Lemma add_kwargs_defaults o m reg :
  is_Foreign o = false ->
  exists m' reg',
    add_kwargs o m reg = (Ok m', reg') /\
    same_stages m m' /\
    forall c, dict_get c (_kwargs m') =
      match dict_get c (_kwargs m) with
      | Some v => Some v
      | None => dict_get c (declared_defaults o)
      end.
Proof.
  intros Hf. unfold add_kwargs, declared_defaults, bind, lift.
  destruct o as [r|b|v]; [| |discriminate]; cbn [plugin_kwargs_of];
    apply add_each_defaults.
Qed.

Lemma fold_objects_defaults l : forall m reg,
  forallb (fun o => negb (is_Foreign o)) l = true ->
  exists m' reg',
    fold_objects l m reg = (Ok m', reg') /\
    same_stages m m' /\
    forall c, dict_get c (_kwargs m') =
      match dict_get c (_kwargs m) with
      | Some v => Some v
      | None => dict_get c (flat_map declared_defaults l)
      end.
Proof.
  induction l as [|o l IH]; intros m reg Hl.
  - exists m, reg. split; [reflexivity|]. split; [now repeat split|].
    intros c. simpl. now destruct (dict_get c (_kwargs m)).
  - cbn [forallb] in Hl. apply andb_prop in Hl. destruct Hl as [Ho Hl].
    apply negb_true_iff in Ho.
    destruct (add_kwargs_defaults o m reg Ho) as (m1 & reg1 & E1 & S1 & L1).
    destruct (IH m1 reg1 Hl) as (m2 & reg2 & E2 & S2 & L2).
    exists m2, reg2. cbn [fold_objects]. rewrite (bind_ok _ _ _ _ _ E1).
    split; [exact E2|]. split; [exact (same_stages_trans _ _ _ S1 S2)|].
    intros c. rewrite L2, L1. cbn [flat_map]. rewrite dict_get_app.
    now destruct (dict_get c (_kwargs m)).
Qed.

Lemma fold_objects_foreign l : forall m reg,
  forallb (fun o => negb (is_Foreign o)) l = false ->
  fst (fold_objects l m reg) = Raise (AttributeError "plugin_kwargs").
Proof.
  induction l as [|o l IH]; intros m reg Hl; [discriminate|].
  cbn [forallb] in Hl. cbn [fold_objects].
  destruct (is_Foreign o) eqn:Ho.
  - destruct o; try discriminate. reflexivity.
  - cbn [negb andb] in Hl.
    destruct (add_kwargs_defaults o m reg Ho) as (m1 & reg1 & E1 & _).
    rewrite (bind_ok _ _ _ _ _ E1). now apply IH.
Qed.

(** X5. [_set_kwargs] returns exactly when every object attached as a
    build or a routine is one; with anything else attached it raises the
    [AttributeError] of the missing [plugin_kwargs].  When it returns, the
    table of defaults holds what it held before, and for every other name
    the first default declared for it, the builds being visited before the
    routines and each stage's parameters in their order: a later
    declaration of a name never replaces an earlier value.  A parameter is
    stored under its alias when the stage's [kwargs] view has one, which
    it has not for a name that is also a network or a variable of the
    stage.  Nothing else of the composition changes, and no plugin table
    gains or loses a name. *)
Theorem set_kwargs_first_default_wins m reg :
  if forallb (fun o => negb (is_Foreign o)) (stages m)
  then exists m' reg',
         _set_kwargs m reg = (Ok m', reg') /\
         same_stages m m' /\
         names reg' = names reg /\
         forall c, dict_get c (_kwargs m') =
           match dict_get c (_kwargs m) with
           | Some v => Some v
           | None => dict_get c (flat_map declared_defaults (stages m))
           end
  else fst (_set_kwargs m reg) = Raise (AttributeError "plugin_kwargs").
Proof.
  destruct (forallb (fun o => negb (is_Foreign o)) (stages m)) eqn:Hl.
  - destruct (fold_objects_defaults _ m reg Hl) as (m2 & reg2 & E2 & S2 & L2).
    rewrite <- set_kwargs_fold in E2.
    exists m2, reg2. split; [exact E2|]. split; [exact S2|].
    split; [|exact L2]. destruct (set_kwargs_frame _ _ _ _ E2) as [T _].
    unfold tables in T. unfold names. now inversion T.
  - rewrite set_kwargs_fold. now apply fold_objects_foreign.
Qed.

Lemma add_each_settled aliases l : forall m reg,
  (forall c, In c (keys (map (fun kv => (resolve_alias aliases (fst kv), snd kv)) l)) ->
             dict_mem c (_kwargs m) = true) ->
  exists reg', add_each aliases l m reg = (Ok m, reg').
Proof.
  induction l as [|[k v] l IH]; intros m reg Hin.
  - now exists reg.
  - cbn [add_each]. cbv zeta.
    assert (Hk : dict_mem (resolve_alias aliases k) (_kwargs m) = true)
      by (apply Hin; now left).
    unfold dict_mem in Hk.
    destruct (dict_get (resolve_alias aliases k) (_kwargs m)) as [kept|];
      [|discriminate].
    unfold bind at 1, warning, modify. apply IH.
    intros c Hc. apply Hin. now right.
Qed.

Lemma fold_objects_settled l : forall m reg,
  forallb (fun o => negb (is_Foreign o)) l = true ->
  (forall c, In c (keys (flat_map declared_defaults l)) ->
             dict_mem c (_kwargs m) = true) ->
  exists reg', fold_objects l m reg = (Ok m, reg').
Proof.
  induction l as [|o l IH]; intros m reg Hl Hin.
  - now exists reg.
  - cbn [forallb] in Hl. apply andb_prop in Hl. destruct Hl as [Ho Hl].
    cbn [flat_map] in Hin. unfold keys in Hin.
    assert (H1 : exists reg1, add_kwargs o m reg = (Ok m, reg1)).
    { unfold add_kwargs, bind, lift. unfold declared_defaults in Hin.
      destruct o as [r|b|v]; [| |discriminate]; cbn [plugin_kwargs_of] in *;
        apply add_each_settled; intros c Hc; apply Hin;
        rewrite map_app; apply in_or_app; now left. }
    destruct H1 as (reg1 & E1). cbn [fold_objects].
    rewrite (bind_ok _ _ _ _ _ E1). apply IH; [exact Hl|].
    intros c Hc. apply Hin. rewrite map_app. apply in_or_app. now right.
Qed.

(** X6. Running [_set_kwargs] a second time changes no default: the
    composition comes back as the first run left it, and the plugin tables
    are untouched. *)
Theorem set_kwargs_twice m reg m1 reg1 :
  _set_kwargs m reg = (Ok m1, reg1) ->
  exists reg2, _set_kwargs m1 reg1 = (Ok m1, reg2) /\ tables reg2 = tables reg1.
Proof.
  rewrite set_kwargs_fold. intros E.
  destruct (forallb (fun o => negb (is_Foreign o)) (stages m)) eqn:Hl.
  2:{ apply (fold_objects_foreign _ m reg) in Hl. rewrite E in Hl.
      discriminate. }
  destruct (fold_objects_defaults _ m reg Hl) as (m2 & reg2 & E2 & S2 & L2).
  rewrite E in E2. inversion E2; subst m2 reg2. clear E2.
  assert (Hs : stages m1 = stages m).
  { unfold stages. destruct S2 as (_ & -> & -> & _). reflexivity. }
  destruct (fold_objects_settled (stages m1) m1 reg1) as (reg2 & E2).
  - now rewrite Hs.
  - intros c Hc. rewrite Hs in Hc. unfold dict_mem. rewrite L2.
    destruct (dict_get c (_kwargs m)); [reflexivity|].
    destruct (dict_get_In _ _ Hc) as (v & ->). reflexivity.
  - exists reg2. rewrite set_kwargs_fold. split; [exact E2|].
    rewrite <- set_kwargs_fold in E2.
    now destruct (set_kwargs_frame _ _ _ _ E2).
Qed.

(* ------------------------------------------------------------------ *)
(** ** Checks of a composition and discovery *)

Lemma all_instances_forallb is_kind l :
  all_instances is_kind l = if forallb is_kind l then Ok tt else Raise ValueError.
Proof.
  induction l as [|o l IH]; [reflexivity|]. simpl.
  destruct (is_kind o); [exact IH | reflexivity].
Qed.

Lemma check_eq m :
  check m =
  if forallb isinstance_routine (values (_routines m)) &&
     forallb isinstance_build (values (_builds m))
  then Ok tt else Raise ValueError.
Proof.
  unfold check. rewrite !all_instances_forallb.
  destruct (forallb isinstance_routine (values (_routines m))); reflexivity.
Qed.

(** X7. [check] returns exactly when every object in [_routines] is a
    routine and every object in [_builds] is a build; otherwise it raises
    the bare [ValueError], whichever of the two loops found the intruder. *)
Theorem check_accepts_instances_only m :
  (check m = Ok tt <->
   forallb isinstance_routine (values (_routines m)) = true /\
   forallb isinstance_build (values (_builds m)) = true) /\
  (check m = Ok tt \/ check m = Raise ValueError).
Proof.
  rewrite check_eq.
  destruct (forallb isinstance_routine (values (_routines m)));
    destruct (forallb isinstance_build (values (_builds m)));
    cbn [andb]; (split; [split; [intros E; try discriminate; auto
                                | intros [A B]; try discriminate; auto]
                        | auto]).
Qed.

Lemma check_loop_eq reg : forall ks,
  (forall k, In k ks -> In k (keys (MODEL_PLUGINS reg))) ->
  for_each ks (fun k =>
    v <- model_plugin k ;;
    lift (check v) ;;
    try_except (lift (check v)) is_Exception
      (fun e => warning (Warning_checks_failed k e) ;; pop_model k)) reg =
  (if forallb (stored_passes (MODEL_PLUGINS reg)) ks then Ok tt
   else Raise ValueError, reg).
Proof.
  induction ks as [|k ks IH]; intros Hin; [reflexivity|].
  cbn [for_each forallb]. unfold stored_passes at 1, passes.
  destruct (dict_get_In k (MODEL_PLUGINS reg) (Hin k (or_introl eq_refl)))
    as (v & G).
  unfold bind at 1, bind at 1, model_plugin.
  unfold bind at 1, gets at 1. rewrite G. unfold ret at 1.
  unfold bind at 1, lift at 1. rewrite (check_eq v).
  destruct (forallb isinstance_routine (values (_routines v)) &&
            forallb isinstance_build (values (_builds v))).
  - unfold try_except, lift. cbn [andb]. apply IH.
    intros k' Hk'. apply Hin. now right.
  - reflexivity.
Qed.

(** X8. [find_models] never removes a composition and never logs a failed
    check: the handler of lines 516-518 cannot run, because the same check
    has just returned outside the [try].  The registry a call leaves is the
    one the imports left; the call returns when every registered
    composition passes its check and raises [ValueError] otherwise. *)
Theorem find_models_never_drops import_directory model_paths reg o reg1 :
  for_each model_paths (fun kp => import_directory (snd kp) (fst kp)) reg
    = (o, reg1) ->
  find_models import_directory model_paths reg =
  (match o with
   | Raise e => Raise e
   | Ok _ =>
       if forallb (stored_passes (MODEL_PLUGINS reg1)) (keys (MODEL_PLUGINS reg1))
       then Ok tt else Raise ValueError
   end, reg1).
Proof.
  intros E. unfold find_models. destruct o as [[]|e].
  - rewrite (bind_ok _ _ _ _ _ E). unfold bind at 1, gets at 1.
    apply check_loop_eq. auto.
  - now rewrite (bind_raise _ _ _ _ _ E).
Qed.

(* ------------------------------------------------------------------ *)
(** ** Registering and selecting a composition *)

Lemma with_descriptor_same m : with_descriptor m (descriptor m) = m.
Proof. now destruct m. Qed.

Section ModelRoundTrip.
Variable parse_header : ModelPluginBase -> PyVal * PyVal.

Lemma register_model_eq plugin reg m1 reg0 :
  _set_kwargs plugin reg = (Ok m1, reg0) ->
  register_model parse_header plugin reg =
  match check_plugin_verdict "model" (MODEL_PLUGINS reg0) (descriptor m1) with
  | Raise e => (Raise e, reg0)
  | Ok _ =>
      (Ok tt, mkRegistry (_ROUTINE_PLUGINS reg0) (_BUILD_PLUGINS reg0)
                (dict_set (plugin_name (descriptor m1)) (stored_model parse_header m1)
                          (MODEL_PLUGINS reg0))
                (logged reg0))
  end.
Proof.
  intros E. unfold register_model. rewrite (bind_ok _ _ _ _ _ E).
  unfold bind at 1, gets at 1. unfold bind at 1.
  rewrite on_object_check_plugin.
  destruct (check_plugin_verdict "model" (MODEL_PLUGINS reg0) (descriptor m1))
    as [[]|e]; [|reflexivity].
  cbv zeta. rewrite with_descriptor_same. unfold stored_model.
  destruct (parse_header m1) as [h descr]. unfold modify. cbn [fst snd].
  rewrite ?plugin_name_setattr by discriminate. destruct m1; reflexivity.
Qed.

End ModelRoundTrip.

(* ------------------------------------------------------------------ *)
(** ** Names that are taken, and names that are missing *)

Section RegistrationClaims.
Variable parse_docstring : PyVal -> PyVal.
Variable parse_kwargs : PyVal -> PyVal.
Variable parse_header : ModelPluginBase -> PyVal * PyVal.

Lemma tables_names reg reg' : tables reg' = tables reg -> names reg' = names reg.
Proof. unfold tables, names. now intros [= -> -> ->]. Qed.


Lemma register_model_taken plugin reg :
  dict_mem (plugin_name (descriptor plugin)) (MODEL_PLUGINS reg) = true ->
  names (snd (register_model parse_header plugin reg)) = names reg /\
  fst (register_model parse_header plugin reg) =
    if forallb (fun o => negb (is_Foreign o)) (stages plugin)
    then Raise (KeyError_already_registered
                  "model" (plugin_name (descriptor plugin)))
    else Raise (AttributeError "plugin_kwargs").
Proof.
  intros Hm.
  destruct (forallb (fun o => negb (is_Foreign o)) (stages plugin)) eqn:Hl.
  - destruct (fold_objects_defaults _ plugin reg Hl)
      as (m1 & reg1 & E & (Sd & _) & _).
    rewrite <- set_kwargs_fold in E.
    destruct (set_kwargs_frame _ _ _ _ E) as [T _].
    rewrite (register_model_eq _ _ _ _ _ E).
    unfold check_plugin_verdict. rewrite Sd.
    assert (Hm1 : dict_mem (plugin_name (descriptor plugin)) (MODEL_PLUGINS reg1)
                  = true).
    { unfold tables in T. inversion T. congruence. }
    rewrite Hm1. cbn [fst snd]. split; [now apply tables_names | reflexivity].
  - pose proof (fold_objects_foreign _ plugin reg Hl) as F.
    rewrite <- set_kwargs_fold in F.
    destruct (_set_kwargs plugin reg) as [[m1|e] reg1] eqn:E;
      [discriminate|].
    cbn [fst] in F. inversion F; subst e.
    destruct (set_kwargs_frame _ _ _ _ E) as [T _].
    unfold register_model. rewrite (bind_raise _ _ _ _ _ E). cbn [fst snd].
    split; [now apply tables_names | reflexivity].
Qed.

(** C9, as amended: a build or a routine plugin whose name is already a key
    of its kind's table is refused with the duplicate-name [KeyError]
    before anything is written, so the module state is untouched.  A model
    whose name is taken is refused too, and no table gains or loses a
    name; but line 74 runs [_set_kwargs] before the name is looked at, so
    the error is the duplicate-name one only when every object attached to
    the composition is a stage, and the [AttributeError] of [_set_kwargs]
    otherwise. *)
Theorem register_duplicate_name :
  (forall plugin reg,
      dict_mem (plugin_name plugin) (_BUILD_PLUGINS reg) = true ->
      register_build parse_docstring parse_kwargs plugin reg =
      (Raise (KeyError_already_registered "build" (plugin_name plugin)),
       reg)) /\
  (forall plugin reg,
      dict_mem (plugin_name plugin) (_ROUTINE_PLUGINS reg) = true ->
      register_routine parse_docstring parse_kwargs plugin reg =
      (Raise (KeyError_already_registered "routine" (plugin_name plugin)),
       reg)) /\
  (forall plugin reg,
      dict_mem (plugin_name (descriptor plugin)) (MODEL_PLUGINS reg) = true ->
      names (snd (register_model parse_header plugin reg)) = names reg /\
      fst (register_model parse_header plugin reg) =
        if forallb (fun o => negb (is_Foreign o)) (stages plugin)
        then Raise (KeyError_already_registered
                      "model" (plugin_name (descriptor plugin)))
        else Raise (AttributeError "plugin_kwargs")).
Proof.
  split; [exact (register_build_duplicate parse_docstring parse_kwargs)|].
  split; [exact (register_routine_duplicate parse_docstring parse_kwargs)|].
  exact register_model_taken.
Qed.




End RegistrationClaims.

Lemma select_all_unbound ks : forall g,
  MODEL_HANDLER g = Unbound -> MODEL_HANDLER (select_all ks g) = Unbound.
Proof.
  induction ks as [|k ks IH]; intros g Hg; [exact Hg|].
  cbn [select_all fold_left]. apply IH.
  unfold setup_model, bind, gets.
  destruct (dict_get k (MODEL_PLUGINS (plugins g))); exact Hg.
Qed.

Lemma reload_each_get to_reload : forall h k,
  dict_get k (reload_each to_reload h) =
  match dict_get k (rev to_reload) with
  | Some v => Some v
  | None => dict_get k h
  end.
Proof.
  unfold reload_each.
  induction to_reload as [|[k' v'] l IH]; intros h k; [reflexivity|].
  cbn [fold_left rev fst snd]. rewrite IH, dict_get_app.
  destruct (dict_get k (rev l)); [reflexivity|]. cbn [dict_get].
  destruct (eq_dec k k') as [->|n].
  - apply dict_get_set_same.
  - now apply dict_get_set_other.
Qed.

(** X10. [MODEL_HANDLER] has no binding when the module is loaded and
    [setup_model] binds [MODEL], not [MODEL_HANDLER]: after any
    registrations and any number of selections [reload_models] ends in the
    interpreter's [NameError] for that name, before the test of line 538 is
    made, and changes nothing.  Had something bound the name to [None], the
    [RuntimeError] of line 539 would follow; had something bound it to a
    mapping, every name given would afterwards map to the value given for
    it and every other entry of the mapping would be as before. *)
Theorem reload_models_outcomes to_reload :
  (forall reg ks,
     reload_models to_reload (select_all ks (as_loaded reg)) =
     (Some (NameError "MODEL_HANDLER"), select_all ks (as_loaded reg))) /\
  (forall g, MODEL_HANDLER g = Bound None ->
     reload_models to_reload g = (Some RuntimeError_MODEL_HANDLER_not_set, g)) /\
  (forall g h, MODEL_HANDLER g = Bound (Some h) ->
     exists h',
       reload_models to_reload g =
         (None, mkGlobals (plugins g) (MODEL g) (Bound (Some h'))) /\
       forall k, dict_get k h' =
         match dict_get k (rev to_reload) with
         | Some v => Some v
         | None => dict_get k h
         end).
Proof.
  split; [|split].
  - intros reg ks. unfold reload_models.
    now rewrite (select_all_unbound ks (as_loaded reg) eq_refl).
  - intros g Hg. unfold reload_models. now rewrite Hg.
  - intros g h Hh. exists (reload_each to_reload h). unfold reload_models.
    rewrite Hh. split; [reflexivity|]. apply reload_each_get.
Qed.

(* ------------------------------------------------------------------ *)
(** ** Attaching a stage *)

Lemma dict_mem_filter_absent {V} (f : string * V -> bool) k (d : dict string V) :
  ~ In k (keys d) -> dict_mem k (filter f d) = false.
Proof.
  unfold dict_mem. induction d as [|[k' v'] d IH]; simpl; [reflexivity|].
  intros Hn. destruct (f (k', v')); simpl.
  - destruct (eq_dec k k') as [->|n]; [exfalso; auto|]. apply IH. auto.
  - apply IH. auto.
Qed.

Lemma set_alias_filter (f : string * string -> bool) k v pre :
  ~ In k (keys pre) ->
  set_alias k v (filter f pre) =
  filter f pre ++ [(k, v)].
Proof.
  intros Hn. unfold set_alias. apply dict_set_fresh.
  now apply dict_mem_filter_absent.
Qed.

Lemma NoDup_keys_middle {V} (pre : dict string V) k v rest :
  NoDup (keys (pre ++ (k, v) :: rest)) -> ~ In k (keys pre).
Proof.
  unfold keys. rewrite map_app. cbn [map fst]. intros Hn Hin.
  apply NoDup_remove_2 in Hn. apply Hn. apply in_or_app. now left.
Qed.

Lemma route_routine_loop nets vars kwargs : forall l pre t,
  NoDup (keys (pre ++ l)) ->
  nets_aliases t = filter (plays nets vars kwargs NetRole) pre ->
  vars_aliases t = filter (plays nets vars kwargs VarRole) pre ->
  kwargs_aliases t = filter (plays nets vars kwargs KwargRole) pre ->
  help_aliases t = filter (plays nets vars kwargs KwargRole) pre ->
  match find (fun kv => match role_of nets vars kwargs (fst kv) with
                        | Some _ => false
                        | None => true
                        end) l with
  | Some (k, v) =>
      fst (route_routine_aliases nets vars kwargs l t) = Some (KeyError_alias k v)
  | None =>
      route_routine_aliases nets vars kwargs l t =
      (None, mkViews (filter (plays nets vars kwargs NetRole) (pre ++ l))
                     (filter (plays nets vars kwargs VarRole) (pre ++ l))
                     (filter (plays nets vars kwargs KwargRole) (pre ++ l))
                     (filter (plays nets vars kwargs KwargRole) (pre ++ l)))
  end.
Proof.
  induction l as [|[k v] l IH]; intros pre t Hnd Hn Hv Hk Hh.
  - cbn [find route_routine_aliases]. rewrite app_nil_r.
    destruct t; simpl in *; congruence.
  - pose proof (NoDup_keys_middle _ _ _ _ Hnd) as Hfresh.
    assert (Hnd' : NoDup (keys ((pre ++ [(k, v)]) ++ l)))
      by now rewrite <- app_assoc.
    specialize (IH (pre ++ [(k, v)])).
    rewrite <- !app_assoc in IH. cbn [app] in IH.
    cbn [find route_routine_aliases fst].
    unfold role_of at 1.
    destruct (in_dec string_dec k nets) as [i1|n1];
      [|destruct (in_dec string_dec k vars) as [i2|n2];
        [|destruct (dict_mem k kwargs) eqn:Hm; [|reflexivity]]];
      (apply IH; [ now rewrite <- app_assoc in Hnd' | | | | ]);
      cbn [nets_aliases vars_aliases kwargs_aliases help_aliases];
      rewrite filter_app; cbn [filter]; unfold plays at 2, role_of;
      cbn [fst];
      repeat (match goal with
              | |- context [in_dec string_dec k ?l] =>
                  destruct (in_dec string_dec k l); try contradiction
              end);
      rewrite ?Hm; cbn [Role_eqb]; rewrite ?app_nil_r;
      first [ assumption
            | rewrite Hn; now apply set_alias_filter
            | rewrite Hv; now apply set_alias_filter
            | rewrite Hk; now apply set_alias_filter
            | rewrite Hh; now apply set_alias_filter ].
Qed.

(** X11. [_add_routine] sends each alias to one view, by the first test
    of lines 225-229 its local name passes: a name in [plugin_nets] to
    [routine.nets], else a name in [plugin_vars] to [routine.vars], else a
    declared parameter to [routine.kwargs] and to [routine.help].  The
    first alias whose name passes none of the tests ends the loop with
    [KeyError(k, v)]. *)
Theorem add_routine_routes_by_role vars r :
  NoDup (keys (_aliases r)) ->
  match stray r vars with
  | Some (k, v) => fst (_add_routine vars r) = Some (KeyError_alias k v)
  | None =>
      _add_routine vars r =
      (None, mkViews (playing NetRole r vars) (playing VarRole r vars)
                     (playing KwargRole r vars) (playing KwargRole r vars))
  end.
Proof.
  intros Hnd. unfold stray, _add_routine, playing.
  apply (route_routine_loop _ _ _ (_aliases r) [] fresh_views); auto.
Qed.

Lemma dict_get_filter_key {V} (g : string -> bool) k (d : dict string V) :
  dict_get k (filter (fun kv => g (fst kv)) d) =
  if g k then dict_get k d else None.
Proof.
  induction d as [|[k' v'] d IH]; simpl; [now destruct (g k)|].
  destruct (g k') eqn:G; simpl; destruct (eq_dec k k') as [->|n];
    rewrite ?G; auto.
  rewrite IH. now rewrite G.
Qed.

(** X12. The aliases [routine.nets] ends up with are those of the names in
    [plugin_nets]: through that view a name of [plugin_nets] resolves to
    its alias, and any other name to itself, whatever alias it has in
    another role.  This is the resolution [run_procedure] relies on when it
    switches on differentiation for [routine.nets[k]]. *)
Theorem add_routine_net_aliases vars r views :
  NoDup (keys (_aliases r)) ->
  _add_routine vars r = (None, views) ->
  forall k,
    resolve_alias (nets_aliases views) k =
    if in_dec string_dec k (plugin_nets r)
    then resolve_alias (_aliases r) k else k.
Proof.
  intros Hnd E k.
  pose proof (route_routine_loop (plugin_nets r) vars (plugin_kwargs r)
                (_aliases r) [] fresh_views Hnd eq_refl eq_refl eq_refl eq_refl)
    as H.
  fold (_add_routine vars r) in H. rewrite E in H.
  destruct (find _ (_aliases r)) as [[k0 v0]|].
  - discriminate.
  - inversion H; subst views. cbn [nets_aliases app].
    unfold resolve_alias, plays.
    rewrite (dict_get_filter_key
               (fun k => match role_of (plugin_nets r) vars (plugin_kwargs r) k with
                         | Some r0 => Role_eqb r0 NetRole
                         | None => false
                         end)).
    unfold role_of.
    destruct (in_dec string_dec k (plugin_nets r)); [reflexivity|].
    destruct (in_dec string_dec k vars); [reflexivity|].
    destruct (dict_mem k (plugin_kwargs r)); reflexivity.
Qed.

Lemma route_build_as_routine nets kwargs : forall l t,
  route_build_aliases nets kwargs l t = route_routine_aliases nets [] kwargs l t.
Proof.
  induction l as [|[k v] l IH]; intros t; [reflexivity|].
  cbn [route_build_aliases route_routine_aliases].
  destruct (in_dec string_dec k nets); [apply IH|].
  destruct (in_dec string_dec k []) as [[]|_].
  destruct (dict_mem k kwargs); [apply IH | reflexivity].
Qed.

Lemma no_variable_role nets kwargs (l : dict string string) :
  filter (plays nets [] kwargs VarRole) l = [].
Proof.
  induction l as [|[k v] l IH]; [reflexivity|]. cbn [filter].
  unfold plays at 1, role_of. cbn [fst].
  destruct (in_dec string_dec k nets); [exact IH|].
  destruct (in_dec string_dec k []) as [[]|_].
  destruct (dict_mem k kwargs); exact IH.
Qed.

(** X13. [_add_build] sends each alias of a build to one place, by the
    first test of lines 241-243 its local name passes: a name in
    [plugin_nets] to [build.nets], else a declared parameter to
    [build.kwargs] and to [build.help].  There is no test for variables,
    and the view of variables stays empty.  The first alias whose name
    passes neither test ends the loop with [KeyError(k, v)]. *)
Theorem add_build_routes nets b :
  NoDup (keys (build_aliases b)) ->
  match find (fun kv => match role_of nets [] (build_plugin_kwargs b) (fst kv) with
                        | Some _ => false
                        | None => true
                        end) (build_aliases b) with
  | Some (k, v) => fst (_add_build nets b) = Some (KeyError_alias k v)
  | None =>
      _add_build nets b =
      (None,
       mkViews (filter (plays nets [] (build_plugin_kwargs b) NetRole)
                       (build_aliases b))
               []
               (filter (plays nets [] (build_plugin_kwargs b) KwargRole)
                       (build_aliases b))
               (filter (plays nets [] (build_plugin_kwargs b) KwargRole)
                       (build_aliases b)))
  end.
Proof.
  intros Hnd. unfold _add_build. rewrite route_build_as_routine.
  pose proof (route_routine_loop nets [] (build_plugin_kwargs b)
                (build_aliases b) [] fresh_views Hnd eq_refl eq_refl eq_refl
                eq_refl) as H.
  cbn [app] in H. now rewrite no_variable_role in H.
Qed.

(* ------------------------------------------------------------------ *)
(** ** Importing a directory *)

Lemma substring_prefix a b : substring 0 (String.length a) (a ++ b) = a.
Proof. induction a as [|c a IH]; simpl; [now destruct b | now rewrite IH]. Qed.

Lemma substring_whole b : substring 0 (String.length b) b = b.
Proof. induction b as [|c b IH]; simpl; [reflexivity | now rewrite IH]. Qed.

Lemma substring_suffix a b :
  substring (String.length a) (String.length b) (a ++ b) = b.
Proof. induction a as [|c a IH]; simpl; [apply substring_whole | exact IH]. Qed.

Lemma length_app a b :
  String.length (a ++ b) = (String.length a + String.length b)%nat.
Proof. induction a as [|c a IH]; simpl; [reflexivity | now rewrite IH]. Qed.

Lemma endswith_app a b : endswith (a ++ b) b = true.
Proof.
  unfold endswith. rewrite length_app.
  replace (String.length a + String.length b - String.length b)%nat
    with (String.length a) by lia.
  rewrite substring_suffix, String.eqb_refl.
  apply andb_true_intro. split; [apply Nat.leb_le; lia | reflexivity].
Qed.

Lemma without_last_app a b : without_last (String.length b) (a ++ b) = a.
Proof.
  unfold without_last. rewrite length_app.
  replace (String.length a + String.length b - String.length b)%nat
    with (String.length a) by lia.
  apply substring_prefix.
Qed.

Lemma importable_eq fn :
  endswith fn ".py" && negb (if in_dec string_dec fn _ignore then true else false)
  = importable fn.
Proof.
  unfold importable. destruct (endswith fn ".py") eqn:E; [|reflexivity].
  cbn [andb]. f_equal.
  destruct (in_dec string_dec fn _ignore) as [i|n].
  - destruct i as [<-|[<-|[]]]; [reflexivity | discriminate].
  - destruct (String.eqb_spec fn "__init__.py") as [->|ne]; [|reflexivity].
    exfalso. apply n. now left.
Qed.

Section ImportFacts.
Variable listdir : string -> Outcome (list string).
Variable module_body : list string -> string -> M Registry unit.

Lemma import_module_exit name s o s' :
  import_module module_body name s = (o, s') ->
  sys_path s' = sys_path s /\
  import_warnings s' = import_warnings s /\
  import_calls s' = import_calls s ++ [name] /\
  (o = Ok tt -> In name (sys_modules s')).
Proof.
  destruct s as [pa mo ca wa rg].
  unfold import_module, bind, modify, gets, ret, execute.
  cbv beta iota delta [sys_path registered sys_modules import_calls
                       import_warnings].
  destruct (in_dec string_dec name mo) as [i|n].
  - intros [= <- <-]. auto.
  - destruct (module_body pa name rg) as [[[]|e] reg];
      intros [= <- <-]; repeat split; auto; try discriminate.
    intros _. apply in_or_app. right. now left.
Qed.

Lemma import_module_cached name s :
  In name (sys_modules s) ->
  import_module module_body name s =
  (Ok tt, mkImporter (sys_path s) (sys_modules s) (import_calls s ++ [name])
                     (import_warnings s) (registered s)).
Proof.
  intros Hin. unfold import_module, bind, modify, gets, ret.
  cbn [sys_modules].
  destruct (in_dec string_dec name (sys_modules s)); [reflexivity|contradiction].
Qed.

Lemma import_entry_exit fn s o s' :
  import_entry module_body fn s = (o, s') ->
  sys_path s' = sys_path s /\
  import_warnings s' = import_warnings s /\
  (o = Ok tt ->
   import_calls s' = import_calls s ++
     (if importable fn then [without_last 3 fn; without_last 3 fn] else [])).
Proof.
  unfold import_entry. rewrite importable_eq.
  destruct (importable fn).
  - cbv zeta. unfold bind at 1.
    destruct (import_module module_body (without_last 3 fn) s)
      as [[[]|e] s1] eqn:E1.
    + destruct (import_module_exit _ _ _ _ E1) as (P1 & W1 & C1 & L1).
      unfold try_except. rewrite (import_module_cached _ _ (L1 eq_refl)).
      intros [= <- <-]. cbn. rewrite C1, <- app_assoc. auto.
    + destruct (import_module_exit _ _ _ _ E1) as (P1 & W1 & C1 & L1).
      intros [= <- <-]. repeat split; auto. discriminate.
  - intros [= <- <-]. rewrite app_nil_r. auto.
Qed.

Lemma import_entries_exit fns : forall s o s',
  for_each fns (import_entry module_body) s = (o, s') ->
  sys_path s' = sys_path s /\
  import_warnings s' = import_warnings s /\
  (o = Ok tt ->
   import_calls s' = import_calls s ++
     flat_map (fun fn => [without_last 3 fn; without_last 3 fn])
              (filter importable fns)).
Proof.
  induction fns as [|fn fns IH]; intros s o s' E.
  - inversion E; subst. rewrite app_nil_r. auto.
  - cbn [for_each] in E. unfold bind in E.
    destruct (import_entry module_body fn s) as [[[]|e] s1] eqn:E1.
    + destruct (import_entry_exit _ _ _ _ E1) as (P1 & W1 & C1).
      destruct (IH _ _ _ E) as (P2 & W2 & C2).
      split; [congruence|]. split; [congruence|].
      intros Ho. rewrite (C2 Ho), (C1 eq_refl), <- app_assoc. f_equal.
      cbn [filter]. now destruct (importable fn).
    + inversion E; subst.
      destruct (import_entry_exit _ _ _ _ E1) as (P1 & W1 & C1).
      repeat split; auto. discriminate.
Qed.

(** X14. [import_directory] never logs the warning of line 492: the
    guarded import repeats one that has just returned, so the module is in
    [sys.modules] and the second call returns without executing
    anything. *)
Theorem import_directory_never_warns p name s :
  import_warnings (snd (import_directory listdir module_body p name s))
  = import_warnings s.
Proof.
  unfold import_directory. cbv zeta. unfold bind at 1, modify at 1.
  unfold bind at 1, lift.
  destruct (listdir (if endswith p "/" then without_last 1 p else p))
    as [fns|e]; [|reflexivity].
  match goal with
  | |- context [for_each fns ?f ?s0] =>
      destruct (for_each fns f s0) as [o s'] eqn:E
  end.
  destruct (import_entries_exit _ _ _ _ E) as (_ & W & _).
  cbn [snd]. now rewrite W.
Qed.

(** X15. When [import_directory] returns, the directory (without one
    trailing slash) has been appended to [sys.path], and
    [importlib.import_module] has been called twice in a row for every
    entry of the listing that ends in [.py] and is not [__init__.py], in
    the order of the listing, and for no other entry.  The module name is
    the entry without its last three characters: [base.py] is imported as
    [base]. *)
Theorem import_directory_selects p name s s' fns :
  listdir (if endswith p "/" then without_last 1 p else p) = Ok fns ->
  import_directory listdir module_body p name s = (Ok tt, s') ->
  sys_path s' = sys_path s ++ [if endswith p "/" then without_last 1 p else p] /\
  import_calls s' = import_calls s ++
    flat_map (fun fn => [without_last 3 fn; without_last 3 fn])
             (filter importable fns) /\
  (forall base, importable (base ++ ".py") = negb (String.eqb base "__init__") /\
                without_last 3 (base ++ ".py") = base).
Proof.
  intros Hl. unfold import_directory. cbv zeta. unfold bind at 1, modify at 1.
  unfold bind at 1, lift. rewrite Hl. intros E.
  destruct (import_entries_exit _ _ _ _ E) as (P & _ & C).
  split; [exact P|]. split; [exact (C eq_refl)|].
  intros base. split.
  - unfold importable. rewrite endswith_app. cbn [andb]. f_equal.
    destruct (String.eqb_spec base "__init__") as [->|n]; [reflexivity|].
    apply String.eqb_neq. intros Heq. apply n.
    rewrite <- (without_last_app base ".py"), Heq. reflexivity.
  - exact (without_last_app base ".py").
Qed.

(** X16. The first import of line 488 stands outside the [try]: when the
    code of the first importable entry's module raises, [import_directory]
    ends in that exception, also one the handler of line 491 is written to
    catch.  No warning is logged, the module is not entered in
    [sys.modules], and no later entry is imported. *)
Theorem import_directory_failure_escapes p name s skipped fn rest e reg' :
  listdir (if endswith p "/" then without_last 1 p else p)
    = Ok (skipped ++ fn :: rest) ->
  forallb (fun f => negb (importable f)) skipped = true ->
  importable fn = true ->
  ~ In (without_last 3 fn) (sys_modules s) ->
  module_body (sys_path s ++ [if endswith p "/" then without_last 1 p else p])
              (without_last 3 fn) (registered s) = (Raise e, reg') ->
  import_directory listdir module_body p name s =
  (Raise e,
   mkImporter (sys_path s ++ [if endswith p "/" then without_last 1 p else p])
              (sys_modules s) (import_calls s ++ [without_last 3 fn])
              (import_warnings s) reg').
Proof.
  intros Hl Hs Hf Hn Hb. unfold import_directory. cbv zeta.
  unfold bind at 1, modify at 1. unfold bind at 1, lift. rewrite Hl.
  generalize dependent (if endswith p "/" then without_last 1 p else p).
  intros q _ Hb. destruct s as [pa mo ca wa rg].
  cbn [sys_path sys_modules import_calls import_warnings registered] in *.
  induction skipped as [|f skipped IH].
  - cbn [app for_each]. unfold bind at 1, import_entry.
    rewrite importable_eq, Hf. cbv zeta. unfold bind at 1.
    unfold import_module, bind, modify, gets, execute.
    cbv beta iota delta [sys_path registered sys_modules import_calls
                         import_warnings].
    destruct (in_dec string_dec (without_last 3 fn) mo); [contradiction|].
    now rewrite Hb.
  - cbn [forallb] in Hs. apply andb_prop in Hs. destruct Hs as [H1 H2].
    apply negb_true_iff in H1.
    cbn [app for_each]. unfold bind at 1, import_entry at 1.
    rewrite importable_eq, H1. unfold ret. now apply IH.
Qed.

(** X17. One trailing slash of the directory is dropped, and only one: a
    call with [p/] works on [p], whatever [p] ends in, and when [p] has no
    trailing slash of its own the two calls are the same computation. *)
Theorem import_directory_trailing_slash p name s :
  sys_path (snd (import_directory listdir module_body (p ++ "/") name s))
    = sys_path s ++ [p] /\
  (endswith p "/" = false ->
   import_directory listdir module_body (p ++ "/") name s =
   import_directory listdir module_body p name s).
Proof.
  assert (Hp : (if endswith (p ++ "/") "/" then without_last 1 (p ++ "/")
                else (p ++ "/")%string) = p).
  { rewrite endswith_app. exact (without_last_app p "/"). }
  split.
  - unfold import_directory. cbv zeta. rewrite Hp.
    unfold bind at 1, modify at 1. unfold bind at 1, lift.
    destruct (listdir p) as [fns|e]; [|reflexivity].
    match goal with
    | |- context [for_each fns ?f ?s0] =>
        destruct (for_each fns f s0) as [o s'] eqn:E
    end.
    now destruct (import_entries_exit _ _ _ _ E) as (P & _).
  - intros Hn. unfold import_directory. cbv zeta. now rewrite Hp, Hn.
Qed.
End ImportFacts.

(* ------------------------------------------------------------------ *)
(** ** Resetting the routines *)

Lemma put_routine_same key r s :
  dict_get key (_routines (self s)) = Some (RoutineInst r) ->
  put_routine key r s = s.
Proof.
  intros E. unfold put_routine, set_self, with_routines.
  rewrite (dict_set_same_value _ _ _ E).
  destruct s as [m d o t p l]. destruct m. reflexivity.
Qed.

#[global] Instance same_but_routines_preorder : PreOrder same_but_routines.
Proof.
  split.
  - intros s. unfold same_but_routines. repeat split.
  - intros a b c. unfold same_but_routines. intros H1 H2.
    decompose [and] H1. decompose [and] H2. repeat split; congruence.
Qed.

Lemma routine_at_put key k r s :
  routine_at k (put_routine key r s) =
  if string_dec k key then Some r else routine_at k s.
Proof.
  unfold routine_at, put_routine. cbn [self set_self _routines with_routines].
  destruct (string_dec k key) as [->|n].
  - now rewrite dict_get_set_same.
  - now rewrite dict_get_set_other.
Qed.

Lemma dict_get_values_In {K V} `{EqDec K} (k : K) (d : dict K V) v :
  dict_get k d = Some v -> In v (values d).
Proof.
  induction d as [|[k' v'] d IH]; simpl; [discriminate|].
  destruct (eq_dec k k'); [intros [= ->]; now left | intros E; right; auto].
Qed.

Lemma keys_dict_set_present {K V} `{EqDec K} (k : K) (v : V) (d : dict K V) :
  dict_mem k d = true -> keys (dict_set k v d) = keys d.
Proof.
  unfold dict_mem, keys. induction d as [|[k' v'] d IH]; simpl; [discriminate|].
  destruct (eq_dec k k') as [->|n]; simpl; [reflexivity|].
  intros E. now rewrite IH.
Qed.

(** The loop of [reset_routines] over keys of routines. *)
Lemma reset_loop ks : forall s,
  (forall k, In k ks -> exists r, routine_at k s = Some r) ->
  exists s',
    for_each ks (fun key => on_routine key reset) s = (Ok tt, s') /\
    same_but_routines s s' /\ _losses (self s') = _losses (self s) /\
    keys (_routines (self s')) = keys (_routines (self s)) /\
    (forall k r, routine_at k s = Some r ->
       routine_at k s' = Some (if in_dec string_dec k ks then cleared r else r)).
Proof.
  induction ks as [|key ks IH]; intros s Hin.
  - exists s. split; [reflexivity|]. split; [reflexivity|]. auto.
  - destruct (Hin key (or_introl eq_refl)) as (r & Hr).
    assert (Hg : dict_get key (_routines (self s)) = Some (RoutineInst r)).
    { unfold routine_at in Hr.
      destruct (dict_get key (_routines (self s))) as [[x|x|x]|];
        congruence. }
    assert (E1 : on_routine key reset s = (Ok tt, put_routine key (cleared r) s)).
    { unfold on_routine. now rewrite Hg. }
    destruct (IH (put_routine key (cleared r) s)) as (s' & E & S & L & K & R).
    { intros k Hk. rewrite routine_at_put.
      destruct (string_dec k key); eauto.
      apply Hin. now right. }
    exists s'. cbn [for_each]. rewrite (bind_ok _ _ _ _ _ E1).
    split; [exact E|]. split.
    { etransitivity; [|exact S]. unfold same_but_routines. now repeat split. }
    split; [rewrite L; reflexivity|]. split.
    { rewrite K. cbn [put_routine self set_self _routines with_routines].
      apply keys_dict_set_present. unfold dict_mem. now rewrite Hg. }
    intros k r0 Hk. specialize (R k). rewrite routine_at_put in R.
    destruct (string_dec k key) as [->|n].
    + rewrite Hr in Hk. inversion Hk; subst r0.
      rewrite (R _ eq_refl).
      destruct (in_dec string_dec key (key :: ks)) as [_|n];
        [|exfalso; apply n; now left].
      now destruct (in_dec string_dec key ks).
    + rewrite (R _ Hk).
      destruct (in_dec string_dec k ks) as [i|ni];
        destruct (in_dec string_dec k (key :: ks)) as [i'|ni'];
        try reflexivity.
      * exfalso. apply ni'. now right.
      * destruct i' as [->|i']; [congruence | contradiction].
Qed.

Lemma forallb_same {A} (f g : A -> bool) l :
  (forall x, f x = g x) -> forallb f l = forallb g l.
Proof.
  intros E. induction l as [|x l IH]; simpl; [reflexivity|].
  now rewrite E, IH.
Qed.

Lemma reset_loop_fails ks : forall s,
  (forall k, In k ks -> In k (keys (_routines (self s)))) ->
  forallb (is_routine_key s) ks = false ->
  exists s',
    for_each ks (fun key => on_routine key reset) s
      = (Raise (AttributeError "reset"), s') /\
    same_but_routines s s' /\ _losses (self s') = _losses (self s).
Proof.
  induction ks as [|key ks IH]; intros s Hin Hf; [discriminate|].
  cbn [forallb] in Hf. cbn [for_each].
  unfold is_routine_key at 1, routine_at in Hf.
  destruct (dict_get_In key _ (Hin key (or_introl eq_refl))) as (v & Hv).
  rewrite Hv in Hf.
  assert (Hfor : forall o, v = o -> isinstance_routine o = false ->
            on_routine key reset s = (Raise (AttributeError "reset"), s)).
  { intros o <- Ho. unfold on_routine. rewrite Hv.
    destruct v; [discriminate | reflexivity | reflexivity]. }
  destruct v as [r|b|x].
  - cbn [andb] in Hf.
    assert (E1 : on_routine key reset s = (Ok tt, put_routine key (cleared r) s)).
    { unfold on_routine. now rewrite Hv. }
    rewrite (bind_ok _ _ _ _ _ E1).
    destruct (IH (put_routine key (cleared r) s)) as (s' & E & S & L).
    + intros k Hk. cbn [put_routine self set_self _routines with_routines].
      rewrite keys_dict_set_present; [apply Hin; now right|].
      unfold dict_mem. now rewrite Hv.
    + rewrite <- Hf. apply forallb_same. intros k. unfold is_routine_key.
      rewrite routine_at_put. destruct (string_dec k key) as [->|n]; [|reflexivity].
      unfold routine_at. now rewrite Hv.
    + exists s'. split; [exact E|]. split; [|rewrite L; reflexivity].
      etransitivity; [|exact S]. unfold same_but_routines. now repeat split.
  - exists s. rewrite (bind_raise _ _ _ _ _ (Hfor _ eq_refl eq_refl)).
    split; [reflexivity|]. split; reflexivity.
  - exists s. rewrite (bind_raise _ _ _ _ _ (Hfor _ eq_refl eq_refl)).
    split; [reflexivity|]. split; reflexivity.
Qed.

Lemma reset_routines_eq s :
  exists s',
    reset_routines s =
      (if all_routines s then Ok tt else Raise (AttributeError "reset"), s') /\
    same_but_routines s s' /\ _losses (self s') = [] /\
    (all_routines s = true ->
     keys (_routines (self s')) = keys (_routines (self s)) /\
     forall k r, routine_at k s = Some r -> routine_at k s' = Some (cleared r)).
Proof.
  unfold reset_routines. unfold bind at 1, modify at 1.
  unfold bind at 1, gets at 1.
  set (s1 := set_self _ s).
  assert (H1 : same_but_routines s s1) by (unfold same_but_routines; now repeat split).
  assert (Hr : forall k, routine_at k s1 = routine_at k s) by reflexivity.
  assert (Ha : all_routines s1 = all_routines s) by reflexivity.
  change (keys (_routines (self s1))) with (keys (_routines (self s))).
  destruct (all_routines s) eqn:Hall.
  - destruct (reset_loop (keys (_routines (self s))) s1) as (s' & E & S & L & K & R).
    { intros k Hk. unfold all_routines in Hall.
      rewrite forallb_forall in Hall. specialize (Hall k Hk).
      unfold is_routine_key in Hall. rewrite Hr.
      destruct (routine_at k s); [eauto | discriminate]. }
    exists s'. split; [exact E|]. split; [now transitivity s1|].
    split; [rewrite L; reflexivity|]. intros _. split; [exact K|].
    intros k r Hk. rewrite (R k r) by now rewrite Hr.
    destruct (in_dec string_dec k (keys (_routines (self s)))) as [_|n];
      [reflexivity|].
    exfalso. apply n. unfold routine_at in Hk.
    destruct (dict_get k (_routines (self s))) eqn:G; [|discriminate].
    clear - G. induction (_routines (self s)) as [|[k' v'] d IH];
      simpl in *; [discriminate|].
    destruct (eq_dec k k'); [now left | right; auto].
  - destruct (reset_loop_fails (keys (_routines (self s))) s1) as (s' & E & S & L).
    + auto.
    + exact Hall.
    + exists s'. split; [exact E|]. split; [now transitivity s1|].
      split; [rewrite L; reflexivity | discriminate].
Qed.

(** X18. [reset_routines] empties the composition-level losses and then
    the results, losses and inputs of every routine, leaving everything
    else of each routine, [training_nets] included, as it was.  It fails,
    with the [AttributeError] of the missing [reset], exactly when some key
    of [_routines] holds an object that is no routine; the losses of the
    composition are emptied all the same.  The histories, the ValuePool,
    the data source and the trace are never touched. *)
Theorem reset_routines_clears s :
  exists s',
    reset_routines s =
      (if all_routines s then Ok tt else Raise (AttributeError "reset"), s') /\
    _losses (self s') = [] /\
    _results (self s') = _results (self s) /\
    local_inputs s' = local_inputs s /\
    DATA_HANDLER s' = DATA_HANDLER s /\
    trace s' = trace s /\
    (all_routines s = true ->
     forall k r, routine_at k s = Some r -> routine_at k s' = Some (cleared r)).
Proof.
  destruct (reset_routines_eq s) as (s' & E & S & L & R).
  exists s'. unfold same_but_routines in S. decompose [and] S.
  repeat split; auto. intros Ha. now apply R.
Qed.

(** X19. [ModelPluginBase.reset] empties the histories (the general ones
    and the nested [losses] and [time]) after the routines have been
    reset, so a reset that fails on an object that is no routine leaves
    the histories as they were.  The networks, the defaults and the
    procedures are untouched, and every routine keeps its
    [training_nets]. *)
Theorem model_reset_clears_histories s :
  exists s',
    ModelPluginBase_reset s =
      (if all_routines s then Ok tt else Raise (AttributeError "reset"), s') /\
    _results (self s') =
      (if all_routines s then mkResults [] [] [] else _results (self s)) /\
    _nets (self s') = _nets (self s) /\
    _kwargs (self s') = _kwargs (self s) /\
    _train_procedures (self s') = _train_procedures (self s) /\
    (all_routines s = true ->
     forall k r, routine_at k s = Some r ->
       exists r', routine_at k s' = Some r' /\
                  training_nets r' = training_nets r /\
                  results r' = [] /\ losses r' = [] /\ inputs r' = []).
Proof.
  destruct (reset_routines_eq s) as (s1 & E & S & L & R).
  unfold same_but_routines in S. decompose [and] S.
  unfold ModelPluginBase_reset. destruct (all_routines s).
  - rewrite (bind_ok _ _ _ _ _ E). unfold modify. eexists.
    split; [reflexivity|]. cbn [self set_self _results _nets _kwargs
                                 _train_procedures].
    repeat split; auto. intros _ k r Hk. exists (cleared r).
    split; [|now repeat split].
    destruct (R eq_refl) as (_ & R'). exact (R' k r Hk).
  - rewrite (bind_raise _ _ _ _ _ E). exists s1.
    repeat split; auto. discriminate.
Qed.

(* ------------------------------------------------------------------ *)
(** ** The start of a step *)

Lemma set_inputs_own s : set_inputs (local_inputs s) s = s.
Proof. now destruct s. Qed.

Lemma seed_loop b : forall s,
  for_each b (fun kv =>
    modify (fun s => set_inputs (dict_set ("data." ++ fst kv)%string (snd kv)
                                          (local_inputs s)) s)) s =
  (Ok tt,
   set_inputs (fold_left (fun p kv => dict_set ("data." ++ fst kv)%string (snd kv) p)
                         b (local_inputs s)) s).
Proof.
  induction b as [|[k v] b IH]; intros s.
  - cbn [for_each fold_left]. now rewrite set_inputs_own.
  - cbn [for_each fold_left]. unfold bind at 1, modify at 1.
    rewrite IH. reflexivity.
Qed.

Lemma seed_inputs_eq s :
  seed_inputs s =
  (Ok tt,
   set_inputs (fold_left (fun p kv => dict_set ("data." ++ fst kv)%string (snd kv) p)
                         (batch (DATA_HANDLER s)) (local_inputs s)) s).
Proof. unfold seed_inputs, bind, gets. apply seed_loop. Qed.

Lemma prefix_injective (p a b : string) : (p ++ a)%string = (p ++ b)%string -> a = b.
Proof.
  induction p as [|c p IH]; simpl; [auto|]. intros [= E]. auto.
Qed.

Lemma prefixed_get_In {V} (p : string) (pre : dict string V) k t :
  dict_get (p ++ k)%string (map (fun kv => ((p ++ fst kv)%string, snd kv)) pre)
    = Some t ->
  In k (keys pre).
Proof.
  induction pre as [|[k' v'] pre IH]; cbn [map dict_get fst snd keys];
    [discriminate|].
  destruct (eq_dec (p ++ k)%string (p ++ k')%string) as [E|n].
  - intros _. left. symmetry. exact (prefix_injective _ _ _ E).
  - intros G. right. auto.
Qed.

Lemma seeded_fold l : forall pre,
  NoDup (keys (pre ++ l)) ->
  fold_left (fun p kv => dict_set ("data." ++ fst kv)%string (snd kv) p)
            l (seeded pre)
  = seeded (pre ++ l).
Proof.
  induction l as [|[k v] l IH]; intros pre Hnd.
  - now rewrite app_nil_r.
  - cbn [fold_left fst snd].
    rewrite dict_set_fresh.
    + replace (seeded pre ++ [(("data." ++ k)%string, v)])
        with (seeded (pre ++ [(k, v)]))
        by (unfold seeded; now rewrite map_app).
      rewrite IH by now rewrite <- app_assoc.
      now rewrite <- app_assoc.
    + apply NoDup_keys_middle in Hnd.
      unfold dict_mem.
      destruct (dict_get ("data." ++ k)%string (seeded pre)) eqn:G;
        [|reflexivity].
      exfalso. apply Hnd. exact (prefixed_get_In "data." _ _ _ G).
Qed.

(** X20. Seeding an empty ValuePool from the current batch gives one entry
    per field of the batch, in the order of the fields, under the name
    [data.<field>] and with the field's value as it is (it is not
    detached). *)
Theorem seed_inputs_entries s :
  local_inputs s = [] ->
  NoDup (keys (batch (DATA_HANDLER s))) ->
  seed_inputs s = (Ok tt, set_inputs (seeded (batch (DATA_HANDLER s))) s).
Proof.
  intros Hp Hnd. rewrite seed_inputs_eq, Hp.
  change (@nil (string * Tensor)) with (seeded []).
  now rewrite (seeded_fold (batch (DATA_HANDLER s)) [] Hnd).
Qed.

(** The four statements of [run_procedure] before the procedure is looked
    up. *)
Lemma prelude_eq s :
  exists s4,
    (modify (set_local_routine None) ;; data_next ;; reset_routines ;;
     modify (set_inputs [])) s =
      (if all_routines s then Ok tt else Raise (AttributeError "reset"), s4) /\
    trace s4 = trace s ++ [EvNext] /\
    DATA_HANDLER s4 = mkData (feed (DATA_HANDLER s)) (S (cursor (DATA_HANDLER s))) /\
    _train_procedures (self s4) = _train_procedures (self s) /\
    _results (self s4) = _results (self s) /\
    local_routine s4 = None /\
    (all_routines s = true ->
     local_inputs s4 = [] /\
     forall k r, routine_at k s = Some r -> routine_at k s4 = Some (cleared r)).
Proof.
  unfold bind at 1, modify at 1. unfold bind at 1, data_next.
  unfold bind at 1, modify at 1, emit, modify.
  set (s2 := mkState _ _ _ _ _ _).
  destruct (reset_routines_eq s2) as (s3 & E & S & L & R).
  unfold same_but_routines in S. decompose [and] S.
  change (all_routines s2) with (all_routines s) in *.
  destruct (all_routines s).
  - rewrite (bind_ok _ _ _ _ _ E). eexists. split; [reflexivity|].
    cbn [trace DATA_HANDLER self set_inputs local_routine local_inputs].
    repeat split; auto.
    intros k r Hk. destruct (R eq_refl) as (_ & R'). now apply R'.
  - rewrite (bind_raise _ _ _ _ _ E). exists s3.
    repeat split; auto; discriminate.
Qed.

(** X21. A procedure index past the end of [_train_procedures] is found
    out only after the step has begun: [run_procedure] fetches a batch and
    resets the routines, and then raises [IndexError].  No routine is
    called and the histories are untouched. *)
Theorem run_procedure_bad_index i q train s :
  nth_error (_train_procedures (self s)) i = None ->
  all_routines s = true ->
  exists s',
    run_procedure i q train s = (Raise IndexError, s') /\
    trace s' = trace s ++ [EvNext] /\
    cursor (DATA_HANDLER s') = S (cursor (DATA_HANDLER s)) /\
    _results (self s') = _results (self s) /\
    forall k r, routine_at k s = Some r -> routine_at k s' = Some (cleared r).
Proof.
  intros Hi Ha. rewrite run_procedure_unfold.
  destruct (prelude_eq s) as (s4 & E & T & D & P & Rs & L & R).
  rewrite Ha in E. rewrite (bind_ok _ _ _ _ _ E).
  unfold bind, gets. rewrite P, Hi. exists s4.
  split; [reflexivity|]. split; [exact T|]. split; [now rewrite D|].
  split; [exact Rs|]. now apply R.
Qed.

(** X22. In training mode a repeat-count of zero or less on the first
    scheduled routine lets the loop body never run, so line 424 reads the
    local [routine] before anything has bound it: the step ends in
    [UnboundLocalError] after the batch has been fetched, without any
    routine having been called. *)
Theorem run_procedure_zero_repeat_count i q s mode key procedure update updates :
  nth_error (_train_procedures (self s)) i
    = Some (mode, key :: procedure, update :: updates) ->
  (update <= 0)%Z ->
  all_routines s = true ->
  exists s',
    run_procedure i q true s = (Raise (UnboundLocalError "routine"), s') /\
    trace s' = trace s ++ [EvNext] /\
    _results (self s') = _results (self s).
Proof.
  intros Hi Hu Ha. rewrite run_procedure_unfold.
  destruct (prelude_eq s) as (s4 & E & T & D & P & Rs & L & R).
  rewrite Ha in E. rewrite (bind_ok _ _ _ _ _ E).
  unfold bind at 1, gets at 1. rewrite P, Hi.
  rewrite (bind_ok _ _ _ _ _ (seed_inputs_eq s4)).
  cbn [combine for_each]. unfold bind at 1, scheduled.
  assert (Hr : range update = []).
  { unfold range. replace (Z.to_nat update) with 0%nat by lia. reflexivity. }
  rewrite Hr. cbn [for_each]. unfold bind at 1, ret at 1.
  unfold aggregate, bind at 1, gets at 1.
  cbn [local_routine set_inputs]. rewrite L. unfold raise.
  eexists. split; [reflexivity|]. cbn [trace self set_inputs]. auto.
Qed.

(* ------------------------------------------------------------------ *)
(** ** Gradient tracking and the optimizers *)

#[global] Instance nets_same_preorder : PreOrder nets_same.
Proof.
  split.
  - intros s. now split.
  - intros a b c [H1 H2] [H3 H4]. split; congruence.
Qed.

#[global] Instance flags_kept_preorder : PreOrder flags_kept.
Proof.
  split.
  - intros s. now split.
  - intros a b c [K1 F1] [K2 F2]. split; [congruence | auto].
Qed.

Lemma nets_same_flags s s' : nets_same s s' -> flags_kept s s'.
Proof. intros [H _]. unfold flags_kept. rewrite H. auto. Qed.

Lemma nets_same_on_routine {A} key (m : M Routine A) :
  always nets_same (on_routine key m).
Proof.
  intros s. unfold on_routine.
  destruct (dict_get key (_routines (self s))) as [[r|b|v]|];
    try reflexivity.
  destruct (m r). now split.
Qed.

Lemma flags_kept_on_routine {A} key (m : M Routine A) :
  always flags_kept (on_routine key m).
Proof. intros s. apply nets_same_flags. apply nets_same_on_routine. Qed.

Lemma flags_kept_require_grad r k : always flags_kept (require_grad r k).
Proof.
  intros s. unfold require_grad. cbv zeta. unfold bind, gets.
  set (c := if in_dec string_dec k (plugin_nets r)
            then resolve_alias (_aliases r) k else k).
  destruct (dict_get c (_nets (self s))) as [n|] eqn:G; [|reflexivity].
  unfold modify. cbn [snd]. unfold flags_kept.
  cbn [self set_self _nets]. split.
  - apply keys_dict_set_present. unfold dict_mem. now rewrite G.
  - intros k0 Hk0. destruct (string_dec k0 c) as [->|n0].
    + apply dict_get_set_same.
    + now rewrite dict_get_set_other.
Qed.

Ltac nets_leaf :=
  first
    [ apply nets_same_on_routine
    | apply flags_kept_on_routine
    | apply flags_kept_require_grad
    | lazymatch goal with
      | |- always ?R (emit _) => unfold emit
      end
    | lazymatch goal with
      | |- always ?R (modify _) => apply (always_modify R)
      end; intros ?;
      first [ split; reflexivity | apply nets_same_flags; split; reflexivity ] ].

Ltac nets_frame := cbv zeta; repeat (first [always_step | nets_leaf]).

Lemma flags_kept_iteration q train key update u :
  always flags_kept (iteration q train key update u).
Proof.
  unfold iteration, prepare, finish, call_routine, __call__, perform,
    enable_differentiation, backprop, populate, check_bad_values, data_next,
    optimizer_for.
  nets_frame.
Qed.

Lemma flags_kept_run_procedure i q train :
  always flags_kept (run_procedure i q train).
Proof.
  unfold run_procedure, data_next, reset_routines, seed_inputs.
  nets_frame. unfold scheduled, aggregate.
  nets_frame. apply flags_kept_iteration.
Qed.

(** X23. A step never switches gradient tracking off and never loses a
    network: whatever the procedure, the mode and the way the step ends, a
    network whose parameters tracked gradients before still tracks them
    afterwards.  The flags line 357 sets stay set when the step is over,
    and over any number of steps. *)
Theorem differentiation_never_switched_off steps s :
  flags_kept s (run_steps steps s).
Proof.
  revert s. induction steps as [|[[i q] t] steps IH]; intros s; [reflexivity|].
  cbn [run_steps fold_left fst snd]. etransitivity; [|apply IH].
  apply flags_kept_run_procedure.
Qed.

Lemma nets_same_iteration q key update u :
  always nets_same (iteration q false key update u).
Proof.
  unfold iteration, prepare, finish, call_routine, __call__, perform,
    populate, check_bad_values, data_next.
  cbn [when]. nets_frame.
Qed.

Lemma nets_same_run_procedure i q :
  always nets_same (run_procedure i q false).
Proof.
  unfold run_procedure, data_next, reset_routines, seed_inputs.
  nets_frame. unfold scheduled, aggregate.
  nets_frame. apply nets_same_iteration.
Qed.

Lemma quiet_data_next : always (trace_adds no_optimizer) data_next.
Proof. unfold data_next. frame. Qed.

Lemma quiet_iteration q key update u :
  always (trace_adds no_optimizer) (iteration q false key update u).
Proof.
  unfold iteration, prepare, finish, call_routine, __call__, perform,
    populate, check_bad_values, data_next.
  cbn [when]. cbv zeta. frame.
Qed.

Lemma quiet_run_procedure i q :
  always (trace_adds no_optimizer) (run_procedure i q false).
Proof.
  unfold run_procedure, data_next, reset_routines, seed_inputs.
  cbv zeta. frame. unfold scheduled, aggregate.
  cbv zeta. frame. apply quiet_iteration.
Qed.

(** X24. A step that is not a training step leaves the optimizers and the
    networks alone: however it ends, no [zero_grad], [backward] or [step]
    has been called, the table of optimizers is the same, and every
    network has the gradient-tracking flag it had. *)
Theorem evaluation_leaves_optimizers_alone i q s :
  nets_same s (snd (run_procedure i q false s)) /\
  trace_adds no_optimizer s (snd (run_procedure i q false s)).
Proof.
  split; [apply nets_same_run_procedure | apply quiet_run_procedure].
Qed.


(* ------------------------------------------------------------------ *)
(** ** Batches fetched by a step *)

#[global] Instance data_same_preorder : PreOrder data_same.
Proof.
  split; [intros s; reflexivity | intros a b c; unfold data_same; congruence].
Qed.

Lemma data_same_on_routine {A} key (m : M Routine A) :
  always data_same (on_routine key m).
Proof.
  intros s. unfold on_routine.
  destruct (dict_get key (_routines (self s))) as [[r|b|v]|];
    try reflexivity.
  now destruct (m r).
Qed.

Ltac data_leaf :=
  first
    [ apply data_same_on_routine
    | lazymatch goal with
      | |- always ?R (emit _) => unfold emit
      end
    | lazymatch goal with
      | |- always ?R (modify _) => apply (always_modify R)
      end; intros ?; reflexivity ].

Ltac data_frame := cbv zeta; repeat (first [always_step | data_leaf]).

Lemma fetched_zero s s' : data_same s s' -> fetched 0 s s'.
Proof.
  unfold data_same, fetched. intros ->. rewrite Nat.add_0_r.
  now destruct (DATA_HANDLER s).
Qed.

Lemma fetched_add n m s1 s2 s3 :
  fetched n s1 s2 -> fetched m s2 s3 -> fetched (n + m) s1 s3.
Proof.
  unfold fetched. intros H1 H2. rewrite H2, H1. cbn [feed cursor].
  now rewrite Nat.add_assoc.
Qed.

Lemma fetched_data_next s : 
  data_next s = (Ok tt, snd (data_next s)) /\ fetched 1 s (snd (data_next s)).
Proof.
  unfold data_next, bind, modify, emit, fetched. cbn.
  now rewrite Nat.add_1_r.
Qed.

Lemma data_same_call key u kwargs : always data_same (call_routine key u kwargs).
Proof. unfold call_routine, __call__, perform. data_frame. Qed.

Lemma data_same_finish q train key update u outputs :
  always data_same (finish q train key update u outputs).
Proof.
  unfold finish, backprop, populate, check_bad_values, optimizer_for.
  data_frame.
Qed.

Lemma data_same_aggregate key : always data_same (aggregate key).
Proof. unfold aggregate. data_frame. Qed.

Lemma iteration_fetch q train key update u s s' :
  iteration q train key update u s = (Ok tt, s') ->
  fetched (if (0 <? u)%Z then 1 else 0) s s'.
Proof.
  unfold iteration. intros H. peel H kw s1 H1. peel H out s2 H2.
  apply (always_at data_same) in H; [|apply data_same_finish].
  apply (always_at data_same) in H2; [|apply data_same_call].
  unfold prepare in H1. peel H1 x s0 H0.
  apply (always_at data_same) in H1.
  2:{ unfold enable_differentiation, optimizer_for, require_grad. data_frame. }
  assert (F : fetched (if (0 <? u)%Z then 1 else 0) s s0).
  { destruct (0 <? u)%Z; cbn [when] in H0.
    - destruct (fetched_data_next s) as [E F]. rewrite E in H0.
      inversion H0; subst. exact F.
    - inversion H0; subst. now apply fetched_zero. }
  replace (if (0 <? u)%Z then 1 else 0)%nat
    with ((if (0 <? u)%Z then 1 else 0) + 0)%nat by lia.
  eapply fetched_add; [exact F|]. apply fetched_zero.
  unfold data_same in *. congruence.
Qed.

Lemma loop_fetch q train key update l : forall s s',
  for_each l (iteration q train key update) s = (Ok tt, s') ->
  fetched (List.length (filter (fun u => (0 <? u)%Z) l)) s s'.
Proof.
  induction l as [|u l IH]; intros s s' H.
  - inversion H; subst. now apply fetched_zero.
  - cbn [for_each] in H. peel H x s1 H1. destruct x.
    apply iteration_fetch in H1. apply IH in H.
    cbn [filter]. destruct (0 <? u)%Z; cbn [List.length].
    + exact (fetched_add 1 _ _ _ _ H1 H).
    + exact (fetched_add 0 _ _ _ _ H1 H).
Qed.

Lemma positive_indexes a k :
  (1 <= a)%nat ->
  List.length (filter (fun u => (0 <? u)%Z) (map Z.of_nat (seq a k))) = k.
Proof.
  revert a. induction k as [|k IH]; intros a Ha; [reflexivity|].
  cbn [seq map filter].
  destruct (Z.ltb_spec 0 (Z.of_nat a)); [|lia].
  cbn [List.length]. now rewrite IH by lia.
Qed.

Lemma repeats_after_first n :
  List.length (filter (fun u => (0 <? u)%Z) (range n)) = (Z.to_nat n - 1)%nat.
Proof.
  unfold range. destruct (Z.to_nat n) as [|k]; [reflexivity|].
  cbn [seq map filter]. change (0 <? Z.of_nat 0)%Z with false. cbv iota.
  rewrite positive_indexes by lia. lia.
Qed.

Lemma scheduled_fetch q train ku s s' :
  scheduled q train ku s = (Ok tt, s') ->
  fetched (times train (snd ku) - 1) s s'.
Proof.
  destruct ku as [key update]. unfold scheduled. cbv zeta. intros H.
  peel H x s1 H1. destruct x. apply loop_fetch in H1.
  apply (always_at data_same) in H; [|apply data_same_aggregate].
  rewrite repeats_after_first in H1.
  replace (times train (snd (key, update)) - 1)%nat
    with ((Z.to_nat (if train then update else 1%Z) - 1) + 0)%nat
    by (unfold times; cbn [snd]; destruct train; simpl; lia).
  eapply fetched_add; [exact H1|]. now apply fetched_zero.
Qed.

Lemma schedule_fetch q train l : forall s s',
  for_each l (scheduled q train) s = (Ok tt, s') ->
  fetched (list_sum (map (fun ku => times train (snd ku) - 1) l)) s s'.
Proof.
  induction l as [|ku l IH]; intros s s' H.
  - inversion H; subst. now apply fetched_zero.
  - cbn [for_each] in H. peel H x s1 H1. destruct x.
    apply scheduled_fetch in H1. apply IH in H.
    cbn [map list_sum]. exact (fetched_add _ _ _ _ _ H1 H).
Qed.

(** X25. A step that returns has asked the data source for one batch at
    its start and for one more before every repetition of a routine after
    the first: with repeat-counts [n1, n2, ...] in training mode that is
    [1 + (n1 - 1) + (n2 - 1) + ...] batches, and one batch in any other
    mode. *)
Theorem batches_per_step i q train s s' mode procedure updates :
  nth_error (_train_procedures (self s)) i = Some (mode, procedure, updates) ->
  run_procedure i q train s = (Ok tt, s') ->
  fetched (fetches train (combine procedure updates)) s s'.
Proof.
  intros Hi H. rewrite run_procedure_unfold in H.
  destruct (prelude_eq s) as (s4 & E & T & D & P & Rs & L & R).
  destruct (all_routines s).
  2:{ rewrite (bind_raise _ _ _ _ _ E) in H. discriminate. }
  rewrite (bind_ok _ _ _ _ _ E) in H.
  unfold bind at 1, gets at 1 in H. rewrite P, Hi in H.
  rewrite (bind_ok _ _ _ _ _ (seed_inputs_eq s4)) in H.
  apply schedule_fetch in H. unfold fetches.
  change (S ?n) with (1 + n)%nat.
  eapply fetched_add; [|exact H].
  unfold fetched. cbn [DATA_HANDLER set_inputs]. rewrite D.
  now rewrite Nat.add_1_r.
Qed.

(* ------------------------------------------------------------------ *)
(** ** Losses that are [None], and keys that are not there *)

Lemma routine_at_get key s r :
  routine_at key s = Some r ->
  dict_get key (_routines (self s)) = Some (RoutineInst r).
Proof.
  unfold routine_at.
  destruct (dict_get key (_routines (self s))) as [[x|x|x]|]; congruence.
Qed.

Lemma on_routine_read_same key s r :
  routine_at key s = Some r ->
  on_routine key (gets (fun r => r)) s = (Ok r, s).
Proof.
  intros H. apply routine_at_get in H.
  rewrite (on_routine_read _ _ _ H). now rewrite (put_routine_same _ _ _ H).
Qed.

Lemma loss_items_none ls k :
  In (k, None) ls -> loss_items ls = Raise (AttributeError "item").
Proof.
  induction ls as [|[k' [v|]] ls IH]; simpl; [contradiction| |reflexivity].
  intros [E|Hin]; [discriminate|]. now rewrite IH.
Qed.

Lemma backprop_loop_none r (ls : dict string (option Tensor)) s :
  (forall kl, In kl ls -> snd kl = None) ->
  for_each ls (fun kl =>
    match snd kl with
    | None => ret tt
    | Some _ =>
        emit (EvBackward (fst kl)) ;;
        k_ <- optimizer_for (names_get r (fst kl)) ;;
        emit (EvStep k_)
    end) s = (Ok tt, s).
Proof.
  induction ls as [|kl ls IH]; intros Hn; [reflexivity|].
  cbn [for_each]. rewrite (Hn kl (or_introl eq_refl)).
  unfold bind at 1, ret at 1. apply IH. intros x Hx. apply Hn. now right.
Qed.

(** X26. Line 394 lets a loss that is [None] through: a routine all of
    whose losses are [None] is backpropagated without any call.  Line 424
    does not: it calls [item()] on every loss, so when the routine the
    local [routine] is bound to holds a loss that is [None], the
    aggregation raises [AttributeError] and nothing is added to the
    histories. *)
Theorem none_loss_fails_aggregation key s rk r :
  local_routine s = Some rk ->
  routine_at rk s = Some r ->
  ((forall kl, In kl (losses r) -> snd kl = None) ->
   backprop rk s = (Ok tt, s)) /\
  (forall k, In (k, None) (losses r) ->
   aggregate key s = (Raise (AttributeError "item"), s)).
Proof.
  intros Hl Hr. split.
  - intros Hn. unfold backprop.
    rewrite (bind_ok _ _ _ _ _ (on_routine_read_same _ _ _ Hr)).
    now apply backprop_loop_none.
  - intros k Hk. unfold aggregate, bind at 1, gets at 1. rewrite Hl.
    rewrite (bind_ok _ _ _ _ _ (on_routine_read_same _ _ _ Hr)).
    unfold bind, lift. now rewrite (loss_items_none _ _ Hk).
Qed.

(** X27. An iteration for a key that is not in [_routines] raises
    [KeyError] at line 345, and one for a routine that has no entry in
    [_kwargs] raises it at line 346, when the local [routine] is already
    bound.  In both cases the batch of a repetition has been fetched, but
    the routine has not been reset, wired or called. *)
Theorem iteration_missing_key q train key update u s :
  (dict_mem key (_routines (self s)) = false ->
   iteration q train key update u s =
   (Raise (KeyError key), snd (when (0 <? u)%Z data_next s))) /\
  (dict_mem key (_routines (self s)) = true ->
   dict_mem key (_kwargs (self s)) = false ->
   iteration q train key update u s =
   (Raise (KeyError key),
    set_local_routine (Some key) (snd (when (0 <? u)%Z data_next s)))).
Proof.
  assert (H0 : exists s0, when (0 <? u)%Z data_next s = (Ok tt, s0) /\
                          self s0 = self s).
  { destruct (0 <? u)%Z; cbn [when]; eexists; split; reflexivity. }
  destruct H0 as (s0 & E0 & Hs). rewrite E0. cbn [snd].
  split.
  - intros Hm. unfold iteration, prepare.
    unfold bind at 1. unfold bind at 1. rewrite E0.
    unfold bind at 1, gets at 1. unfold bind at 1. rewrite Hs, Hm.
    reflexivity.
  - intros Hm Hk. unfold iteration, prepare.
    unfold bind at 1. unfold bind at 1. rewrite E0.
    unfold bind at 1, gets at 1. unfold bind at 1. rewrite Hs, Hm.
    cbn [negb when]. unfold ret at 1. unfold bind at 1, modify at 1.
    unfold bind at 1, gets at 1. cbn [self set_local_routine].
    rewrite Hs. rewrite (dict_mem_false_get _ _ Hk). reflexivity.
Qed.

(* ------------------------------------------------------------------ *)
(** ** main.py *)

#[global] Instance outside_adds_preorder P : PreOrder (outside_adds P).
Proof.
  split.
  - intros p. exists []. now rewrite app_nil_r.
  - intros a b c (t1 & E1 & F1) (t2 & E2 & F2). exists (t1 ++ t2).
    rewrite E2, E1, app_assoc. split; [reflexivity|].
    rewrite forallb_app. now rewrite F1, F2.
Qed.

(** A run known to return, with the state it returns in. *)
Lemma run_returns {S A} (m : M S A) s a :
  fst (m s) = Ok a -> m s = (Ok a, snd (m s)).
Proof. destruct (m s) as [o s']. cbn. now intros ->. Qed.

Section MainFacts.
Variable behaviour :
  External -> M (dict string nat * (nat -> PyVal)) (PyVal * PyVal).

Lemma call_exit c p o p' :
  call behaviour c p = (o, p') -> outside p' = outside p ++ [c].
Proof.
  unfold call, bind, modify. cbn [exp_ARGS held outside].
  destruct (behaviour c (exp_ARGS p, held p)) as [[x|e] w]; intros [= <- <-];
    reflexivity.
Qed.

Lemma unpacked_ok object p v p' :
  unpacked object p = (Ok v, p') -> p' = p /\ v = held p object.
Proof.
  unfold unpacked, bind, gets, lift.
  destruct (as_keywords (held p object)); [|discriminate].
  unfold ret. now intros [= <- <-].
Qed.

Lemma outside_adds_call P c :
  P c = true -> always (outside_adds P) (call behaviour c).
Proof.
  intros Hc p. destruct (call behaviour c p) as [o p'] eqn:E.
  exists [c]. split; [exact (call_exit _ _ _ _ E)|]. cbn. now rewrite Hc.
Qed.

Lemma subscript_present k p v :
  dict_get k (exp_ARGS p) = Some v ->
  subscript_ARGS k p = (Ok v, p).
Proof. intros E. unfold subscript_ARGS, bind, gets. now rewrite E. Qed.

Lemma subscript_absent k p :
  dict_mem k (exp_ARGS p) = false ->
  subscript_ARGS k p = (Raise (KeyError k), p).
Proof.
  intros E. unfold subscript_ARGS, bind, gets.
  now rewrite (dict_mem_false_get _ _ E).
Qed.

(** X28. [main] reads its four entries of [exp.ARGS] before it does
    anything else, the one for training also when it is not going to
    train: when one of them is missing, the call ends in the [KeyError] of
    the first missing one, in the order data, model, optimizer, train, and
    nothing has been set up or printed. *)
Theorem main_reads_arguments_first eval_mode p k :
  find (fun k => negb (dict_mem k (exp_ARGS p))) main_arguments = Some k ->
  main behaviour eval_mode p = (Raise (KeyError k), p).
Proof.
  unfold main_arguments. cbn [find]. unfold main.
  destruct (dict_mem "data" (exp_ARGS p)) eqn:H1; cbn [negb].
  2:{ intros [= <-]. now rewrite (bind_raise _ _ _ _ _ (subscript_absent _ _ H1)). }
  destruct (dict_mem_true_get _ _ H1) as (d & G1).
  rewrite (bind_ok _ _ _ _ _ (subscript_present _ _ _ G1)).
  destruct (dict_mem "model" (exp_ARGS p)) eqn:H2; cbn [negb].
  2:{ intros [= <-]. now rewrite (bind_raise _ _ _ _ _ (subscript_absent _ _ H2)). }
  destruct (dict_mem_true_get _ _ H2) as (m & G2).
  rewrite (bind_ok _ _ _ _ _ (subscript_present _ _ _ G2)).
  destruct (dict_mem "optimizer" (exp_ARGS p)) eqn:H3; cbn [negb].
  2:{ intros [= <-]. now rewrite (bind_raise _ _ _ _ _ (subscript_absent _ _ H3)). }
  destruct (dict_mem_true_get _ _ H3) as (o & G3).
  rewrite (bind_ok _ _ _ _ _ (subscript_present _ _ _ G3)).
  destruct (dict_mem "train" (exp_ARGS p)) eqn:H4; cbn [negb].
  2:{ intros [= <-]. now rewrite (bind_raise _ _ _ _ _ (subscript_absent _ _ H4)). }
  discriminate.
Qed.

Ltac main_call H :=
  let x := fresh "x" in let p1 := fresh "p" in let H1 := fresh "C" in
  peel H x p1 H1.

Ltac main_lift H :=
  let x := fresh "x" in let p1 := fresh "p" in let H1 := fresh "L" in
  peel H x p1 H1; unfold lift in H1;
  injection H1 as _ H1; subst p1.

Ltac main_unpacked H :=
  let x := fresh "kw" in let p1 := fresh "p" in let H1 := fresh "U" in
  peel H x p1 H1; apply unpacked_ok in H1; destruct H1 as [-> H1].

(** X29. The calls of a [main] that returns, in order: the four setups,
    each after its section title, and then, unless [eval_mode] is set, the
    training setup and the main loop.  [main] holds on to the four
    objects that [exp.ARGS] had under its keys when it began: each setup
    is called with that object also when an earlier setup has bound the
    key to another one, and the keywords it receives are what the object
    holds when the call is made, so that a change an earlier setup made
    to the object in place is passed on. *)
Theorem main_order eval_mode p p' rd rm ro rt :
  dict_get "data" (exp_ARGS p) = Some rd ->
  dict_get "model" (exp_ARGS p) = Some rm ->
  dict_get "optimizer" (exp_ARGS p) = Some ro ->
  dict_get "train" (exp_ARGS p) = Some rt ->
  main behaviour eval_mode p = (Ok tt, p') ->
  exists d m o t models routines,
    outside p' =
    outside p ++
    [Call_print_section "LOADING DATA"; Call_setup_data rd d;
     Call_print_section "MODEL"; Call_setup_model rm m;
     Call_print_section "EXPERIMENT"; Call_exp_setup models routines;
     Call_print_section "OPTIMIZER"; Call_setup_optimizer ro o] ++
    (if eval_mode then []
     else [Call_print_section "TRAIN"; Call_setup_train;
           Call_main_loop rt t]) /\
    d = held (seen behaviour [Call_print_section "LOADING DATA"] p) rd /\
    m = held (seen behaviour
                [Call_print_section "LOADING DATA"; Call_setup_data rd d;
                 Call_print_section "MODEL"] p) rm /\
    fst (call behaviour (Call_setup_model rm m)
           (seen behaviour
              [Call_print_section "LOADING DATA"; Call_setup_data rd d;
               Call_print_section "MODEL"] p)) = Ok (models, routines) /\
    o = held (seen behaviour
                [Call_print_section "LOADING DATA"; Call_setup_data rd d;
                 Call_print_section "MODEL"; Call_setup_model rm m;
                 Call_print_section "EXPERIMENT";
                 Call_exp_setup models routines;
                 Call_print_section "OPTIMIZER"] p) ro /\
    (eval_mode = false ->
     t = held (seen behaviour
                 [Call_print_section "LOADING DATA"; Call_setup_data rd d;
                  Call_print_section "MODEL"; Call_setup_model rm m;
                  Call_print_section "EXPERIMENT";
                  Call_exp_setup models routines;
                  Call_print_section "OPTIMIZER"; Call_setup_optimizer ro o;
                  Call_print_section "TRAIN"; Call_setup_train] p) rt).
Proof.
  intros G1 G2 G3 G4 H. unfold main in H.
  rewrite (bind_ok _ _ _ _ _ (subscript_present _ _ _ G1)) in H.
  rewrite (bind_ok _ _ _ _ _ (subscript_present _ _ _ G2)) in H.
  rewrite (bind_ok _ _ _ _ _ (subscript_present _ _ _ G3)) in H.
  rewrite (bind_ok _ _ _ _ _ (subscript_present _ _ _ G4)) in H.
  main_call H. main_unpacked H. main_call H. main_call H. main_unpacked H.
  main_call H. destruct x2 as [models routines]. cbn [fst snd] in H.
  main_call H. main_lift H. main_call H. main_call H. main_unpacked H.
  main_call H.
  destruct eval_mode.
  - inversion H; subst p'.
    exists kw, kw0, kw1, PyNone, models, routines.
    unfold seen. cbn [fold_left].
    rewrite C; cbn [snd]; rewrite C0; cbn [snd]; rewrite C1; cbn [snd];
      rewrite C2; cbn [fst snd]; rewrite C3; cbn [snd]; rewrite C4; cbn [snd];
      rewrite C5; cbn [snd].
    repeat split; try assumption; try discriminate.
    rewrite (call_exit _ _ _ _ C6), (call_exit _ _ _ _ C5),
      (call_exit _ _ _ _ C4), (call_exit _ _ _ _ C3),
      (call_exit _ _ _ _ C2), (call_exit _ _ _ _ C1),
      (call_exit _ _ _ _ C0), (call_exit _ _ _ _ C).
    rewrite <- !app_assoc. reflexivity.
  - main_call H. main_call H. main_unpacked H. main_call H.
    inversion H; subst p'.
    exists kw, kw0, kw1, kw2, models, routines.
    unfold seen. cbn [fold_left].
    rewrite C; cbn [snd]; rewrite C0; cbn [snd]; rewrite C1; cbn [snd];
      rewrite C2; cbn [fst snd]; rewrite C3; cbn [snd]; rewrite C4; cbn [snd];
      rewrite C5; cbn [snd]; rewrite C6; cbn [snd]; rewrite C7; cbn [snd];
      rewrite C8; cbn [snd].
    repeat split; try assumption; try (intros _; assumption).
    rewrite (call_exit _ _ _ _ C9), (call_exit _ _ _ _ C8),
      (call_exit _ _ _ _ C7), (call_exit _ _ _ _ C6),
      (call_exit _ _ _ _ C5), (call_exit _ _ _ _ C4),
      (call_exit _ _ _ _ C3), (call_exit _ _ _ _ C2),
      (call_exit _ _ _ _ C1), (call_exit _ _ _ _ C0),
      (call_exit _ _ _ _ C).
    rewrite <- !app_assoc. reflexivity.
Qed.

Lemma quiet_main P :
  (forall c, trains c = false -> P c = true) ->
  always (outside_adds P) (main behaviour true).
Proof.
  intros HP. unfold main, subscript_ARGS, unpacked. cbv zeta.
  repeat (first [ apply outside_adds_call; apply HP; reflexivity
                | always_step ]).
Qed.

(** X30. [reload_model] never trains: however it ends and whatever the
    setup functions do, neither [setup_train] nor [main_loop] has been
    called. *)
Theorem reload_model_never_trains arch model_file p :
  outside_adds (fun c => negb (trains c)) p
               (snd (reload_model behaviour arch model_file p)).
Proof.
  unfold reload_model.
  apply (always_bind (outside_adds (fun c => negb (trains c)))).
  - now apply outside_adds_call.
  - intros _. apply quiet_main. now intros c ->.
Qed.
End MainFacts.

(* ------------------------------------------------------------------ *)
(** ** Instances of the further properties *)

Lemma distinct_NoDup l : distinct l = true -> NoDup l.
Proof.
  induction l as [|x l IH]; simpl; [constructor|].
  destruct (in_dec string_dec x l); [discriminate|].
  intros H. constructor; auto.
Qed.

(** X2 on a build plugin named ["enc"] and an empty registry. *)
Lemma register_build_stores_witness :
  exists stored reg',
    register_build no_help no_help (stage_plugin (Some "enc")) empty_registry
      = (Ok tt, reg') /\
    dict_get (Some "enc") (_BUILD_PLUGINS reg') = Some stored /\
    getattr stored "plugin_help" = PyNone /\
    getattr stored "doc" = PyStr "an encoder".
Proof.
  destruct (register_build_stores no_help no_help (stage_plugin (Some "enc"))
              empty_registry eq_refl eq_refl)
    as (stored & reg' & E & G & _ & _ & _ & Hh & _ & Ho & _).
  exists stored, reg'. split; [exact E|]. split; [exact G|].
  split; [exact Hh|]. rewrite Ho by discriminate. reflexivity.
Defined.

(** X3 on the same routine plugin registered twice. *)
Lemma register_routine_twice_witness :
  register_routine no_help no_help (stage_plugin (Some "enc"))
    (snd (register_routine no_help no_help (stage_plugin (Some "enc"))
                           empty_registry))
  = (Raise (KeyError_already_registered "routine" (Some "enc")),
     snd (register_routine no_help no_help (stage_plugin (Some "enc"))
                           empty_registry)).
Proof.
  apply (register_routine_twice no_help no_help (stage_plugin (Some "enc"))
           (stage_plugin (Some "enc")) empty_registry); reflexivity.
Defined.

(** X4 on a plugin class that defines nothing. *)
Lemma register_without_entry_point_witness :
  register_build no_help no_help (bare_plugin (Some "enc")) empty_registry
    = (Raise (AttributeError "build"), empty_registry) /\
  register_routine no_help no_help (bare_plugin (Some "enc")) empty_registry
    = (Raise (AttributeError "run"), empty_registry).
Proof.
  destruct (register_without_entry_point no_help no_help
              (bare_plugin (Some "enc")) empty_registry) as [B R].
  split; [apply B | apply R]; reflexivity.
Defined.

(** X6 on a composition with one routine. *)
Lemma set_kwargs_twice_witness :
  exists reg2,
    _set_kwargs (composition (Some "enc")) empty_registry
      = (Ok (with_kwargs [("lr", PyInt 1)] (composition (Some "enc"))),
         empty_registry) /\
    _set_kwargs (with_kwargs [("lr", PyInt 1)] (composition (Some "enc")))
                empty_registry
      = (Ok (with_kwargs [("lr", PyInt 1)] (composition (Some "enc"))), reg2).
Proof.
  destruct (set_kwargs_twice (composition (Some "enc")) empty_registry
              (with_kwargs [("lr", PyInt 1)] (composition (Some "enc")))
              empty_registry eq_refl) as (reg2 & E & _).
  exists reg2. split; [reflexivity | exact E].
Defined.

(** X8 on a registry whose one composition passes its check. *)
Lemma find_models_never_drops_witness :
  find_models no_imports [("user", "archs")] enc_registry
  = (Ok tt, enc_registry).
Proof.
  exact (find_models_never_drops no_imports [("user", "archs")] enc_registry
           (Ok tt) enc_registry eq_refl).
Defined.


(** X10 on a handler bound to a mapping, and on the module as loaded. *)
Lemma reload_models_outcomes_witness :
  reload_models [("dec", PyInt 2)] (as_loaded enc_registry)
    = (Some (NameError "MODEL_HANDLER"), as_loaded enc_registry) /\
  exists h',
    reload_models [("dec", PyInt 2)] handled
      = (None, mkGlobals empty_registry None (Bound (Some h'))) /\
    dict_get "dec" h' = Some (PyInt 2) /\ dict_get "enc" h' = Some (PyInt 1).
Proof.
  destruct (reload_models_outcomes [("dec", PyInt 2)]) as (A & _ & C).
  split; [exact (A enc_registry [])|].
  destruct (C handled [("enc", PyInt 1)] eq_refl) as (h' & E & L).
  exists h'. split; [exact E|]. now rewrite !L.
Defined.

(** X11 on a routine with one alias for a network and one for a
    parameter. *)
Lemma add_routine_routes_by_role_witness :
  _add_routine [] aliased =
  (None, mkViews [("enc", "encoder")] [] [("lr", "learning_rate")]
                 [("lr", "learning_rate")]).
Proof.
  exact (add_routine_routes_by_role [] aliased
           (distinct_NoDup (keys (_aliases aliased)) eq_refl)).
Defined.

(** X12 on the same routine. *)
Lemma add_routine_net_aliases_witness :
  resolve_alias (nets_aliases (snd (_add_routine [] aliased))) "enc" = "encoder" /\
  resolve_alias (nets_aliases (snd (_add_routine [] aliased))) "lr" = "lr".
Proof.
  split.
  - exact (add_routine_net_aliases [] aliased _
             (distinct_NoDup (keys (_aliases aliased)) eq_refl)
             eq_refl "enc").
  - exact (add_routine_net_aliases [] aliased _
             (distinct_NoDup (keys (_aliases aliased)) eq_refl)
             eq_refl "lr").
Defined.

(** X15 on a directory that holds [README], [enc.py] and [__init__.py]. *)
Lemma import_directory_selects_witness :
  sys_path (snd (import_directory small_directory quiet_module "archs/" "user"
                                  fresh_importer)) = ["archs"] /\
  import_calls (snd (import_directory small_directory quiet_module "archs/"
                                      "user" fresh_importer)) = ["enc"; "enc"].
Proof.
  destruct (import_directory_selects small_directory quiet_module "archs/"
              "user" fresh_importer
              (snd (import_directory small_directory quiet_module "archs/"
                                     "user" fresh_importer))
              ["README"; "enc.py"; "__init__.py"] eq_refl eq_refl)
    as (P & C & _).
  split; [exact P | exact C].
Defined.

(** X16 on the same directory, with a module whose code raises. *)
Lemma import_directory_failure_escapes_witness :
  import_directory small_directory failing_module "archs" "user" fresh_importer
  = (Raise (PluginError "boom"),
     mkImporter ["archs"] [] ["enc"] [] empty_registry).
Proof.
  apply (import_directory_failure_escapes small_directory failing_module
           "archs" "user" fresh_importer ["README"] "enc.py" ["__init__.py"]
           (PluginError "boom") empty_registry);
    try reflexivity.
  intros [].
Defined.

(** X17 on a directory given with and without the slash. *)
Lemma import_directory_trailing_slash_witness :
  import_directory small_directory quiet_module "archs/" "user" fresh_importer
  = import_directory small_directory quiet_module "archs" "user" fresh_importer.
Proof.
  exact (proj2 (import_directory_trailing_slash small_directory quiet_module
                  "archs" "user" fresh_importer) eq_refl).
Defined.

(** X20 on the counting model before its first batch is seeded. *)
Lemma seed_inputs_entries_witness :
  local_inputs (snd (seed_inputs (counter_state 3))) = [("data.x", tensor 0)].
Proof.
  rewrite (seed_inputs_entries (counter_state 3) eq_refl
             (distinct_NoDup (keys (batch (DATA_HANDLER (counter_state 3))))
                             eq_refl)).
  reflexivity.
Defined.

(** X21 on the counting model, which has one procedure, asked for its
    sixth. *)
Lemma run_procedure_bad_index_witness :
  exists s',
    run_procedure 5 false true (counter_state 3) = (Raise IndexError, s') /\
    trace s' = [EvNext] /\ cursor (DATA_HANDLER s') = 1%nat.
Proof.
  destruct (run_procedure_bad_index 5 false true (counter_state 3)
              eq_refl eq_refl) as (s' & E & T & C & _).
  exists s'. split; [exact E|]. split; [exact T | exact C].
Defined.

(** X22 on the counting model with repeat-count 0. *)
Lemma run_procedure_zero_repeat_count_witness :
  exists s',
    run_procedure 0 false true (counter_state 0)
      = (Raise (UnboundLocalError "routine"), s') /\
    trace s' = [EvNext].
Proof.
  destruct (run_procedure_zero_repeat_count 0 false (counter_state 0)
              "train" "main" [] 0%Z [] eq_refl ltac:(lia) eq_refl)
    as (s' & E & T & _).
  exists s'. split; [exact E | exact T].
Defined.

(** X25 on the counting model with repeat-count 3: three batches. *)
Lemma batches_per_step_witness :
  cursor (DATA_HANDLER (snd (run_procedure 0 false true (counter_state 3))))
  = 3%nat.
Proof.
  rewrite (batches_per_step 0 false true (counter_state 3)
             (snd (run_procedure 0 false true (counter_state 3)))
             "train" ["main"] [3%Z] eq_refl
             ltac:(vm_compute; reflexivity)).
  reflexivity.
Defined.

(** X26 on a routine whose one loss is [None]. *)
Lemma none_loss_fails_aggregation_witness :
  backprop "main" unscored_state = (Ok tt, unscored_state) /\
  aggregate "main" unscored_state
  = (Raise (AttributeError "item"), unscored_state).
Proof.
  destruct (none_loss_fails_aggregation "main" unscored_state "main" unscored
              eq_refl eq_refl) as [B A].
  split.
  - apply B. intros kl [<-|[]]. reflexivity.
  - apply (A "enc"). left. reflexivity.
Defined.

(** X27 on the viewer's composition: a key that names no routine, and a
    routine without an entry in [_kwargs]. *)
Lemma iteration_missing_key_witness :
  iteration false false "ghost" 1 0 viewer_state
    = (Raise (KeyError "ghost"), viewer_state) /\
  iteration false false "main" 1 0 unscored_state
    = (Raise (KeyError "main"), unscored_state).
Proof.
  split.
  - exact (proj1 (iteration_missing_key false false "ghost" 1 0 viewer_state)
             eq_refl).
  - exact (proj2 (iteration_missing_key false false "main" 1 0 unscored_state)
             eq_refl eq_refl).
Defined.

(** X28 on an [exp.ARGS] without the optimizer and training entries. *)
Lemma main_reads_arguments_first_witness :
  main idle_behaviour true half_configured
  = (Raise (KeyError "optimizer"), half_configured).
Proof.
  exact (main_reads_arguments_first idle_behaviour true half_configured
           "optimizer" eq_refl).
Defined.

(** X29 on a complete [exp.ARGS] with a data setup that binds the
    optimizer's key to another object and changes the training
    configuration in place: the optimizer is set up with the object read
    at the beginning, the main loop runs with the changed epochs. *)
Lemma main_order_witness :
  outside (snd (main meddling false configured)) =
  [Call_print_section "LOADING DATA"; Call_setup_data 0 (PyMap []);
   Call_print_section "MODEL"; Call_setup_model 1 (PyMap []);
   Call_print_section "EXPERIMENT"; Call_exp_setup PyNone (PyMap []);
   Call_print_section "OPTIMIZER"; Call_setup_optimizer 2 (PyMap []);
   Call_print_section "TRAIN"; Call_setup_train;
   Call_main_loop 3 (PyMap [("epochs", PyInt 5)])].
Proof.
  destruct (main_order meddling false configured
              (snd (main meddling false configured)) 0 1 2 3
              eq_refl eq_refl eq_refl eq_refl
              (run_returns (main meddling false) configured tt eq_refl))
    as (d & m & o & t & models & routines & E & Ed & Em & Er & Eo & Et).
  specialize (Et eq_refl).
  lazy in Ed. subst d. lazy in Em. subst m.
  lazy in Er. injection Er as <- <-.
  lazy in Eo. subst o. lazy in Et. subst t.
  exact E.
Defined.

(** X7 on a composition with one routine and on one that holds a foreign
    object. *)
Lemma check_accepts_instances_only_witness :
  check (composition (Some "enc")) = Ok tt /\
  check (broken_composition (Some "enc")) <> Ok tt.
Proof.
  split.
  - apply (proj1 (check_accepts_instances_only (composition (Some "enc")))).
    split; reflexivity.
  - intros H.
    apply (proj1 (check_accepts_instances_only
                    (broken_composition (Some "enc")))) in H.
    destruct H as [H _]. discriminate H.
Defined.

(** X18 on the routine that holds a loss, attached to a composition. *)
Lemma reset_routines_clears_witness :
  exists s',
    reset_routines unscored_state = (Ok tt, s') /\
    routine_at "main" s' = Some (cleared unscored).
Proof.
  destruct (reset_routines_clears unscored_state) as (s' & E & _ & _ & _ & _ & _ & R).
  exists s'. split; [exact E|]. apply R; reflexivity.
Defined.

(** X19 on the same composition. *)
Lemma model_reset_clears_histories_witness :
  exists s' r',
    ModelPluginBase_reset unscored_state = (Ok tt, s') /\
    _results (self s') = mkResults [] [] [] /\
    routine_at "main" s' = Some r' /\ losses r' = [].
Proof.
  destruct (model_reset_clears_histories unscored_state)
    as (s' & E & Rs & _ & _ & _ & R).
  destruct (R eq_refl "main" unscored eq_refl) as (r' & Hr & _ & _ & Hl & _).
  exists s', r'. split; [exact E|]. split; [exact Rs|]. split; [exact Hr | exact Hl].
Defined.

(** C9 at a registry that has ["enc"] in each table. *)
Lemma register_duplicate_name_witness :
  register_build no_help no_help (stage_plugin (Some "enc")) enc_registry =
  (Raise (KeyError_already_registered "build" (Some "enc")), enc_registry) /\
  register_routine no_help no_help (stage_plugin (Some "enc")) enc_registry =
  (Raise (KeyError_already_registered "routine" (Some "enc")), enc_registry) /\
  names (snd (register_model no_header (composition (Some "enc")) enc_registry))
  = names enc_registry /\
  fst (register_model no_header (composition (Some "enc")) enc_registry)
  = Raise (KeyError_already_registered "model" (Some "enc")).
Proof.
  destruct (register_duplicate_name no_help no_help no_header) as (B & R & Mo).
  split; [apply (B (stage_plugin (Some "enc")) enc_registry); reflexivity|].
  split; [apply (R (stage_plugin (Some "enc")) enc_registry); reflexivity|].
  exact (Mo (composition (Some "enc")) enc_registry eq_refl).
Defined.

(** C9 as it was stated fails for a model: the name ["enc"] is taken, but
    the composition holds an object that is no routine, and the
    registration ends in the [AttributeError] of [_set_kwargs], not in the
    duplicate-name error. *)
Lemma duplicate_model_not_reported :
  dict_mem (plugin_name (descriptor (broken_composition (Some "enc"))))
           (MODEL_PLUGINS enc_registry) = true /\
  register_model no_header (broken_composition (Some "enc")) enc_registry
  = (Raise (AttributeError "plugin_kwargs"), enc_registry) /\
  fst (register_model no_header (broken_composition (Some "enc")) enc_registry)
  <> Raise (KeyError_already_registered "model" (Some "enc")).
Proof.
  split; [reflexivity|]. split; [reflexivity|]. discriminate.
Qed.



(** X5 on a routine for which [enc] is both a network and a parameter: its
    default is stored under [enc], not under the alias, while the default
    of [lr] is stored under its alias. *)
Lemma set_kwargs_first_default_wins_witness :
  exists m' reg',
    _set_kwargs overlapping_model empty_registry = (Ok m', reg') /\
    dict_get "enc" (_kwargs m') = Some (PyInt 3) /\
    dict_get "encoder" (_kwargs m') = None /\
    dict_get "rate" (_kwargs m') = Some (PyInt 1).
Proof.
  pose proof (set_kwargs_first_default_wins overlapping_model empty_registry)
    as H.
  change (forallb (fun o => negb (is_Foreign o)) (stages overlapping_model))
    with true in H.
  destruct H as (m' & reg' & E & _ & _ & L).
  exists m', reg'. split; [exact E|]. now rewrite !L.
Defined.

(** X13 on a build with one alias for a network and one for a
    parameter. *)
Lemma add_build_routes_witness :
  _add_build ["enc"] aliased_build =
  (None, mkViews [("enc", "encoder")] [] [("dim", "width")]
                 [("dim", "width")]).
Proof.
  exact (add_build_routes ["enc"] aliased_build
           (distinct_NoDup (keys (build_aliases aliased_build)) eq_refl)).
Defined.
